(** * Campus event platform: admission, attendance and feedback

    A shallow embedding of the request handlers of [backend/app.py]
    ([register_for_event], [cancel_registration], [mark_attendance],
    [submit_feedback], [create_college]), of the validators of
    [backend/utils/validators.py] they call (and of
    [validate_attendance_data] and [validate_college_data], which none of
    them calls), and of [database/connection.py]'s [execute_query].

    It goes on with the event routes [create_event], [update_event] and
    [cancel_event], taken on the store alone, with [validate_student_data]
    and [sanitize_input], with [paginate_results] of
    [backend/utils/helpers.py], and with the calls [execute_query] and
    [get_db_connection] make on the pool, the connection and the cursor.

    Conventions of the embedding.
    - A JSON payload is a record with one [field] per key the code reads:
      a key is absent, present with [null], or present with a value of its
      documented JSON type (identifiers, timestamps, enums and comments are
      strings, ratings and capacities are integers).  Text is ASCII.
    - Identifiers are opaque strings compared for equality; stored
      timestamps are integers (microseconds) read back as naive datetimes.
    - A table is the list of its rows, in insertion order.
    - A handler is a function from the world (the store and the log of the
      statements [execute_query] has run) to a response and a new world.
      Requests are served one at a time, and the pool always has a
      connection to give.
    - The schema file is not among the sources.  What the handlers need of
      it (column defaults, uniqueness constraints, foreign keys) is modelled
      from the specification, in definitions marked as such. *)

From Stdlib Require Import ZArith List String Ascii Bool Lia.
Import ListNotations.

Open Scope string_scope.
Open Scope Z_scope.

(* ================================================================== *)
(** ** Python values *)

(** A key of a JSON object: missing, [null], or holding a value. *)
Inductive field (A : Type) : Type :=
| Absent : field A
| Null : field A
| Val : A -> field A.

Arguments Absent {A}.
Arguments Null {A}.
Arguments Val {A} _.

(** [data.get(k)]: [None] when the key is absent or null. *)
Definition get {A : Type} (f : field A) : option A :=
  match f with
  | Val a => Some a
  | Absent | Null => None
  end.

(** [data.get(k, default)]: the default only replaces an absent key. *)
Definition get_default {A : Type} (f : field A) (default : A) : option A :=
  match f with
  | Val a => Some a
  | Null => None
  | Absent => Some default
  end.

(** [k in data]. *)
Definition has_key {A : Type} (f : field A) : bool :=
  match f with
  | Absent => false
  | Null | Val _ => true
  end.

(** Truth value of a string ([bool(s)]). *)
Definition truthy_str (s : string) : bool := negb (s =? "")%string.

(** [bool(data.get(k))] for a string-valued key. *)
Definition truthy_get (f : field string) : bool :=
  match get f with
  | Some s => truthy_str s
  | None => false
  end.

(** [k not in data or not data[k]] for a string-valued key. *)
Definition missing_or_falsy (f : field string) : bool := negb (truthy_get f).

(** [data.get(k) is not None]. *)
Definition has_value {A : Type} (f : field A) : bool :=
  match get f with
  | Some _ => true
  | None => false
  end.

(** [k not in data or data[k] is None]. *)
Definition missing_or_none {A : Type} (f : field A) : bool :=
  negb (has_value f).

(** [bool(row)] for the row a query fetched. *)
Definition is_some {A : Type} (o : option A) : bool :=
  match o with Some _ => true | None => false end.

(** [len(s)] as an integer. *)
Definition len (s : string) : Z := Z.of_nat (String.length s).

(** [c.lower()] on one ASCII character. *)
Definition lower_ascii (c : ascii) : ascii :=
  let n := nat_of_ascii c in
  if ((65 <=? n) && (n <=? 90))%nat then ascii_of_nat (n + 32) else c.

(** [s.lower()]. *)
Fixpoint lower (s : string) : string :=
  match s with
  | EmptyString => EmptyString
  | String c t => String (lower_ascii c) (lower t)
  end.

(** [c.upper()] on one ASCII character. *)
Definition upper_ascii (c : ascii) : ascii :=
  let n := nat_of_ascii c in
  if ((97 <=? n) && (n <=? 122))%nat then ascii_of_nat (n - 32) else c.

(** [s.upper()]. *)
Fixpoint upper (s : string) : string :=
  match s with
  | EmptyString => EmptyString
  | String c t => String (upper_ascii c) (upper t)
  end.

(** [s.startswith(p)]. *)
Fixpoint startswith (p s : string) : bool :=
  match p, s with
  | EmptyString, _ => true
  | String _ _, EmptyString => false
  | String a p', String b s' => (a =? b)%char && startswith p' s'
  end.

(** [needle in hay] for strings. *)
Fixpoint contains (needle hay : string) : bool :=
  startswith needle hay ||
  match hay with
  | EmptyString => false
  | String _ t => contains needle t
  end.

(** [x in xs] for a list of strings. *)
Definition str_in (x : string) (xs : list string) : bool :=
  existsb (String.eqb x) xs.

(** Exceptions the handlers can meet; [DatabaseError] carries the text the
    driver reports. *)
Inductive Exception : Type :=
| KeyError (key : string)
| TypeError (msg : string)
| DatabaseError (msg : string).

(** [str(e)]; a [KeyError] prints its key between quotes. *)
Definition str (e : Exception) : string :=
  match e with
  | KeyError k => "'" ++ k ++ "'"
  | TypeError m => m
  | DatabaseError m => m
  end.

(** [data[k]]: raises [KeyError] on an absent key, yields [None] on null. *)
Definition subscript {A : Type} (key : string) (f : field A)
  : Exception + option A :=
  match f with
  | Absent => inl (KeyError key)
  | Null => inr None
  | Val a => inr (Some a)
  end.

(* ================================================================== *)
(** ** validators.py *)

(** The dictionary every validator returns. *)
Record ValidationResult : Type := mkValidation {
  valid : bool;
  message : string
}.

Definition invalid (msg : string) : ValidationResult := mkValidation false msg.
Definition ok (msg : string) : ValidationResult := mkValidation true msg.

(** The loop over [required_fields]: the first field, in list order, whose
    test fails names the rejection. *)
Fixpoint first_missing (fields : list (string * bool)) : option string :=
  match fields with
  | [] => None
  | (name, missing) :: rest => if missing then Some name else first_missing rest
  end.

Definition missing_message (name : string) : string :=
  "Missing required field: " ++ name.

(** Payload of POST /api/register. *)
Record RegistrationData : Type := mkRegistrationData {
  rd_event_id : field string;
  rd_student_id : field string
}.

(** Payload of POST /api/feedback. *)
Record FeedbackData : Type := mkFeedbackData {
  fd_attendance_id : field string;
  fd_rating : field Z;
  fd_comment : field string
}.

(** Payload of POST /api/attendance. *)
Record AttendanceData : Type := mkAttendanceData {
  ad_registration_id : field string;
  ad_check_in_method : field string
}.

(** Payload of POST /api/colleges. *)
Record CollegeData : Type := mkCollegeData {
  cd_name : field string;
  cd_code : field string;
  cd_address : field string;
  cd_city : field string;
  cd_state : field string;
  cd_contact_email : field string;
  cd_phone : field string
}.

Definition inappropriate_words : list string := ["spam"; "hate"; "abuse"].
Definition valid_methods : list string := ["manual"; "qr_code"; "rfid"].

(** [str(x)] of an optional string, as [uuid.UUID(str(...))] sees it. *)
Definition str_of (o : option string) : string :=
  match o with
  | Some s => s
  | None => "None"
  end.

Section Validators.

(** [uuid_ok s] holds when the standard library's [uuid.UUID(s)] returns
    instead of raising [ValueError]. *)
Variable uuid_ok : string -> bool.

(** [validate_registration_data(data)]; [None] stands for a payload that is
    [None] or empty. *)
Definition validate_registration_data (data : option RegistrationData)
  : ValidationResult :=
  match data with
  | None => invalid "No data provided"
  | Some d =>
    match first_missing [("event_id", missing_or_falsy (rd_event_id d));
                         ("student_id", missing_or_falsy (rd_student_id d))] with
    | Some name => invalid (missing_message name)
    | None =>
      if uuid_ok (str_of (get (rd_event_id d))) &&
         uuid_ok (str_of (get (rd_student_id d)))
      then ok "Valid registration data"
      else invalid "Invalid ID format"
    end
  end.

(** [validate_feedback_data(data)]. *)
Definition validate_feedback_data (data : option FeedbackData)
  : ValidationResult :=
  match data with
  | None => invalid "No data provided"
  | Some d =>
    match first_missing [("attendance_id", missing_or_none (fd_attendance_id d));
                         ("rating", missing_or_none (fd_rating d))] with
    | Some name => invalid (missing_message name)
    | None =>
      if negb (uuid_ok (str_of (get (fd_attendance_id d))))
      then invalid "Invalid attendance ID format"
      else
        match get (fd_rating d) with
        | None => invalid "Rating must be a valid number between 1 and 5"
        | Some rating =>
          if (rating <? 1) || (rating >? 5)
          then invalid "Rating must be between 1 and 5"
          else
            let comment := match get (fd_comment d) with
                           | Some c => c
                           | None => ""
                           end in
            if truthy_get (fd_comment d) && (len comment >? 1000)
            then invalid "Comment must be 1000 characters or less"
            else if truthy_get (fd_comment d) &&
                    existsb (fun word => contains word (lower comment))
                            inappropriate_words
            then invalid "Comment contains inappropriate content"
            else ok "Valid feedback data"
        end
    end
  end.

(** [validate_attendance_data(data)]. *)
Definition validate_attendance_data (data : option AttendanceData)
  : ValidationResult :=
  match data with
  | None => invalid "No data provided"
  | Some d =>
    if missing_or_falsy (ad_registration_id d)
    then invalid "Missing required field: registration_id"
    else if negb (uuid_ok (str_of (get (ad_registration_id d))))
    then invalid "Invalid registration ID format"
    else
      match get (ad_check_in_method d) with
      | Some m =>
        if truthy_str m && negb (str_in m valid_methods)
        then invalid "Invalid check-in method. Must be one of: manual, qr_code, rfid"
        else ok "Valid attendance data"
      | None => ok "Valid attendance data"
      end
  end.

End Validators.

Definition email_pattern : string :=
  "^[a-zA-Z0-9._%+-]+@[a-zA-Z0-9.-]+\.[a-zA-Z]{2,}$".
Definition phone_pattern : string := "^[\+]?[1-9][\d]{0,15}$".
Definition phone_noise : string := "[\s\-\(\)]".
Definition code_pattern : string := "^[A-Z0-9]+$".

Section CollegeValidator.

(** [re_match pattern s] holds when [re.match(pattern, s)] is not [None];
    [re_sub pattern repl s] is [re.sub(pattern, repl, s)]. *)
Variable re_match : string -> string -> bool.
Variable re_sub : string -> string -> string -> string.

(** [validate_email(email)]. *)
Definition validate_email (email : string) : bool := re_match email_pattern email.

(** [validate_college_data(data)]. *)
Definition validate_college_data (data : option CollegeData) : ValidationResult :=
  match data with
  | None => invalid "No data provided"
  | Some d =>
    match first_missing [("name", missing_or_falsy (cd_name d));
                         ("code", missing_or_falsy (cd_code d))] with
    | Some name => invalid (missing_message name)
    | None =>
      let name := str_of (get (cd_name d)) in
      let code := upper (str_of (get (cd_code d))) in
      if len name >? 200
      then invalid "College name must be 200 characters or less"
      else if len name <? 2
      then invalid "College name must be at least 2 characters long"
      else if len code >? 10
      then invalid "College code must be 10 characters or less"
      else if len code <? 2
      then invalid "College code must be at least 2 characters long"
      else if negb (re_match code_pattern code)
      then invalid "College code must contain only letters and numbers"
      else if truthy_get (cd_contact_email d) &&
              negb (validate_email (str_of (get (cd_contact_email d))))
      then invalid "Invalid contact email format"
      else if truthy_get (cd_phone d) &&
              negb (re_match phone_pattern
                      (re_sub phone_noise "" (str_of (get (cd_phone d)))))
      then invalid "Invalid phone number format"
      else ok "Valid college data"
    end
  end.

End CollegeValidator.

(* ================================================================== *)
(** ** Event validation: datetimes *)

(** A [datetime]: wall-clock microseconds, and the UTC offset when the value
    is timezone-aware ([tzinfo] is set). *)
Record datetime : Type := mkDatetime {
  wall : Z;
  tzinfo : option Z
}.

Definition hour : Z := 3600000000.

(** The instant two datetimes of the same kind are compared by. *)
Definition instant (d : datetime) : Z :=
  match tzinfo d with
  | Some off => wall d - off
  | None => wall d
  end.

Definition same_kind (a b : datetime) : bool :=
  match tzinfo a, tzinfo b with
  | Some _, Some _ | None, None => true
  | _, _ => false
  end.

(** Ordering of datetimes: mixing a naive and an aware value raises. *)
Definition dt_compare (a b : datetime) : Exception + comparison :=
  if same_kind a b then inr (instant a ?= instant b)
  else inl (TypeError "can't compare offset-naive and offset-aware datetimes").

Definition is_gt (c : comparison) : bool :=
  match c with Gt => true | _ => false end.
Definition is_lt (c : comparison) : bool :=
  match c with Lt => true | _ => false end.
Definition is_le (c : comparison) : bool := negb (is_gt c).

(** [s.replace('Z', '+00:00')]. *)
Fixpoint replace_Z (s : string) : string :=
  match s with
  | EmptyString => EmptyString
  | String c t =>
    if (c =? "Z")%char then "+00:00" ++ replace_Z t else String c (replace_Z t)
  end.

(** Payload of POST /api/events and PUT /api/events/<id>. *)
Record EventData : Type := mkEventData {
  ed_college_id : field string;
  ed_title : field string;
  ed_description : field string;
  ed_event_type : field string;
  ed_start_datetime : field string;
  ed_end_datetime : field string;
  ed_location : field string;
  ed_max_capacity : field Z;
  ed_registration_deadline : field string
}.

Definition valid_event_types : list string :=
  ["hackathon"; "workshop"; "tech_talk"; "fest"].

Definition deadline_message : string :=
  "Registration deadline must be before event start time".

Section EventValidator.

(** [fromisoformat s] is [Some d] when [datetime.fromisoformat(s)] returns
    [d], and [None] when it raises [ValueError]. *)
Variable fromisoformat : string -> option datetime.

(** The payload without its [registration_deadline] key. *)
Definition without_deadline (d : EventData) : EventData :=
  mkEventData (ed_college_id d) (ed_title d) (ed_description d)
    (ed_event_type d) (ed_start_datetime d) (ed_end_datetime d)
    (ed_location d) (ed_max_capacity d) Absent.

(** The checks of [validate_event_data] that follow the deadline check:
    capacity, location and description. *)
Definition validate_event_rest (d : EventData) : ValidationResult :=
  let capacity := match get (ed_max_capacity d) with
                  | Some c => c
                  | None => 1
                  end in
  if has_value (ed_max_capacity d) && (capacity <=? 0)
  then invalid "Maximum capacity must be a positive number"
  else if has_value (ed_max_capacity d) && (capacity >? 10000)
  then invalid "Maximum capacity seems unreasonably high (>10,000)"
  else if truthy_get (ed_location d) &&
          (len (str_of (get (ed_location d))) >? 300)
  then invalid "Location must be 300 characters or less"
  else if truthy_get (ed_description d) &&
          (len (str_of (get (ed_description d))) >? 2000)
  then invalid "Description must be 2000 characters or less"
  else ok "Valid event data".

(** The deadline block: runs only for a truthy [registration_deadline]. *)
Definition validate_event_deadline (d : EventData) (start_datetime : datetime)
  : Exception + ValidationResult :=
  if truthy_get (ed_registration_deadline d) then
    match fromisoformat (replace_Z (str_of (get (ed_registration_deadline d)))) with
    | None => inr (invalid "Invalid registration deadline format")
    | Some reg_deadline =>
      match dt_compare reg_deadline start_datetime with
      | inl e => inl e
      | inr c =>
        if is_gt c then inr (invalid deadline_message)
        else inr (validate_event_rest d)
      end
    end
  else inr (validate_event_rest d).

(** [validate_event_data(data, is_update)]; [now] is [datetime.now()], a
    naive value.  A [TypeError] leaves the function uncaught. *)
Definition validate_event_data (now : Z) (data : option EventData)
  (is_update : bool) : Exception + ValidationResult :=
  match data with
  | None => inr (invalid "No data provided")
  | Some d =>
    let required_fields :=
      ([("title", missing_or_falsy (ed_title d));
       ("event_type", missing_or_falsy (ed_event_type d));
       ("start_datetime", missing_or_falsy (ed_start_datetime d));
       ("end_datetime", missing_or_falsy (ed_end_datetime d))] ++
      (if is_update then []
       else [("college_id", missing_or_falsy (ed_college_id d))]))%list in
    match first_missing required_fields with
    | Some name => inr (invalid (missing_message name))
    | None =>
      if negb (str_in (str_of (get (ed_event_type d))) valid_event_types)
      then inr (invalid
        "Invalid event type. Must be one of: hackathon, workshop, tech_talk, fest")
      else if len (str_of (get (ed_title d))) >? 200
      then inr (invalid "Title must be 200 characters or less")
      else
        match fromisoformat (replace_Z (str_of (get (ed_start_datetime d)))),
              fromisoformat (replace_Z (str_of (get (ed_end_datetime d)))) with
        | Some start_datetime, Some end_datetime =>
          match dt_compare end_datetime start_datetime with
          | inl e => inl e
          | inr c =>
            if is_le c
            then inr (invalid "End datetime must be after start datetime")
            else
              let grace := mkDatetime (now - hour) (tzinfo start_datetime) in
              match dt_compare start_datetime grace with
              | inl e => inl e
              | inr c' =>
                if is_lt c'
                then inr (invalid "Event start time cannot be in the past")
                else validate_event_deadline d start_datetime
              end
          end
        | _, _ =>
          inr (invalid
            "Invalid datetime format. Use ISO format (YYYY-MM-DDTHH:MM:SS)")
        end
    end
  end.

End EventValidator.

(* ================================================================== *)
(** ** The relational store *)

(** Rows of the four tables the handlers touch, with the columns their
    statements name.  Timestamps are microseconds. *)
Record Event : Type := mkEvent {
  ev_event_id : string;
  ev_title : string;
  ev_status : string;
  ev_max_capacity : option Z;
  ev_registration_deadline : option Z
}.

Record College : Type := mkCollege {
  col_college_id : string;
  col_name : string;
  col_code : string;
  col_address : option string;
  col_city : option string;
  col_state : option string;
  col_contact_email : option string;
  col_phone : option string;
  col_created_at : Z
}.

Record Student : Type := mkStudent {
  st_student_id : string;
  st_name : string
}.

Record Registration : Type := mkRegistration {
  reg_registration_id : string;
  reg_event_id : string;
  reg_student_id : string;
  reg_registered_at : Z;
  reg_status : string;
  reg_cancelled_at : option Z;
  reg_cancellation_reason : option string
}.

Record Attendance : Type := mkAttendance {
  att_attendance_id : string;
  att_registration_id : string;
  att_checked_in_at : Z;
  att_check_in_method : option string;
  att_feedback_rating : option Z;
  att_feedback_comment : option string;
  att_feedback_submitted_at : option Z
}.

Record Store : Type := mkStore {
  colleges : list College;
  events : list Event;
  students : list Student;
  registrations : list Registration;
  attendance : list Attendance
}.

(** The statements the handlers pass to [execute_query]. *)
Inductive Statement : Type :=
| SelectEventInfo
| InsertRegistration
| UpdateRegistrationCancelled
| SelectActiveRegistration
| SelectExistingAttendance
| InsertAttendance
| SelectAttendance
| UpdateAttendanceFeedback
| InsertCollege.

(** The store, and the statements run against it so far (oldest first). *)
Record World : Type := mkWorld {
  db : Store;
  executed : list Statement
}.

(** [column = %s]: a [NULL] parameter matches no row. *)
Definition eq_param (column : string) (param : option string) : bool :=
  match param with
  | Some p => (column =? p)%string
  | None => false
  end.

Definition is_registered (r : Registration) : bool :=
  (reg_status r =? "registered")%string.

Definition event_exists (s : Store) (event_id : string) : bool :=
  existsb (fun e => (ev_event_id e =? event_id)%string) (events s).

Definition student_exists (s : Store) (student_id : string) : bool :=
  existsb (fun st => (st_student_id st =? student_id)%string) (students s).

(** [COUNT(r.registration_id)] over the rows joined on
    [e.event_id = r.event_id AND r.status = 'registered']. *)
Definition registered_count (s : Store) (event_id : string) : Z :=
  Z.of_nat (List.length
    (filter (fun r => (reg_event_id r =? event_id)%string && is_registered r)
            (registrations s))).

(** The row of [check_query] in [register_for_event]. *)
Record EventInfo : Type := mkEventInfo {
  ei_max_capacity : option Z;
  ei_registration_deadline : option Z;
  ei_status : string;
  ei_title : string;
  ei_current_registrations : Z
}.

(** [FROM events e WHERE e.event_id = %s]: the first row the scan meets. *)
Definition find_event (event_id : option string) (s : Store) : option Event :=
  find (fun e => eq_param (ev_event_id e) event_id) (events s).

(** [check_query] of [register_for_event], fetched with [fetch='one']. *)
Definition select_event_info (event_id : option string) (s : Store)
  : Exception + (option EventInfo * Store) :=
  inr (match find_event event_id s with
       | Some e =>
         Some (mkEventInfo (ev_max_capacity e) (ev_registration_deadline e)
                 (ev_status e) (ev_title e)
                 (registered_count s (ev_event_id e)))
       | None => None
       end, s).

Definition dq : string := String (ascii_of_nat 34) EmptyString.

(** The text PostgreSQL reports for a violated constraint. *)
Definition unique_violation (constraint : string) : Exception :=
  DatabaseError
    ("duplicate key value violates unique constraint " ++ dq ++ constraint ++ dq).

Definition foreign_key_violation (table constraint : string) : Exception :=
  DatabaseError
    ("insert or update on table " ++ dq ++ table ++ dq ++
     " violates foreign key constraint " ++ dq ++ constraint ++ dq).

Definition not_null_violation (column : string) : Exception :=
  DatabaseError
    ("null value in column " ++ dq ++ column ++ dq ++
     " violates not-null constraint").

(** Modelled from the spec: the uniqueness constraint of the attendance
    table (schema file not part of the sources): at most one attendance row
    per registration. *)
Definition attendance_conflicts (s : Store) (registration_id : string) : bool :=
  existsb (fun a => (att_registration_id a =? registration_id)%string)
          (attendance s).

Definition registration_exists (s : Store) (registration_id : string) : bool :=
  existsb (fun r => (reg_registration_id r =? registration_id)%string)
          (registrations s).

Definition with_registrations (s : Store) (rs : list Registration) : Store :=
  mkStore (colleges s) (events s) (students s) rs (attendance s).

Definition with_attendance (s : Store) (atts : list Attendance) : Store :=
  mkStore (colleges s) (events s) (students s) (registrations s) atts.

Definition with_colleges (s : Store) (cs : list College) : Store :=
  mkStore cs (events s) (students s) (registrations s) (attendance s).

(** Modelled from the spec: the uniqueness of the college code (schema file
    not part of the sources). *)
Definition college_code_taken (s : Store) (code : string) : bool :=
  existsb (fun c => (col_code c =? code)%string) (colleges s).

(** Modelled from the spec: the scope of the uniqueness constraint of the
    registrations table as section 4.1 words it (the constraint is declared
    in the schema file, which is not part of the sources): only a
    registration of status registered blocks a new one for its pair; a
    cancelled registration does not. *)
Definition registered_rows_block : Registration -> bool := is_registered.

Section Storage.

(** The identifier the store assigns to a new row, given those in use. *)
Variable new_id : list string -> string.

(** The scope of the uniqueness constraint of the registrations table
    (declared in the schema file, which is not part of the sources):
    [blocking r] holds when the stored row [r] forbids a new registration of
    its pair (event, student).  The specification leaves two readings, one
    registration per pair, or one registration of status registered per
    pair; both are instances. *)
Variable blocking : Registration -> bool.

(** The insert of a pair violates the uniqueness constraint. *)
Definition registration_conflicts (s : Store) (event_id student_id : string)
  : bool :=
  existsb (fun r => (reg_event_id r =? event_id)%string &&
                    (reg_student_id r =? student_id)%string &&
                    blocking r)
          (registrations s).

(** Modelled from the spec: the column defaults and constraints of the
    registrations table (schema file not part of the sources).
    [register_query] of [register_for_event] names only the event and the
    student; the store assigns the identifier, the status registered and
    the timestamp [ts] (its CURRENT_TIMESTAMP), and enforces the uniqueness
    constraint and the foreign keys to events and students. *)
Definition insert_registration (ts : Z) (event_id student_id : option string)
  (s : Store) : Exception + (option Registration * Store) :=
  match event_id, student_id with
  | Some e, Some st =>
    if registration_conflicts s e st
    then inl (unique_violation "registrations_event_id_student_id_key")
    else if negb (event_exists s e)
    then inl (foreign_key_violation "registrations" "registrations_event_id_fkey")
    else if negb (student_exists s st)
    then inl (foreign_key_violation "registrations" "registrations_student_id_fkey")
    else
      let row := mkRegistration
                   (new_id (map reg_registration_id (registrations s)))
                   e st ts "registered" None None in
      inr (Some row, with_registrations s (registrations s ++ [row])%list)
  | None, _ => inl (not_null_violation "event_id")
  | _, None => inl (not_null_violation "student_id")
  end.

(** Modelled from the spec: the column defaults and constraints of the
    attendance table (schema file not part of the sources).
    [attendance_query] of [mark_attendance] names the registration and the
    check-in method; the store assigns the identifier and the check-in time
    [ts], leaves the feedback columns null, and enforces the uniqueness of
    the registration and the foreign key to registrations. *)
Definition insert_attendance (ts : Z) (registration_id check_in_method : option string)
  (s : Store) : Exception + (option Attendance * Store) :=
  match registration_id with
  | Some r =>
    if attendance_conflicts s r
    then inl (unique_violation "attendance_registration_id_key")
    else if negb (registration_exists s r)
    then inl (foreign_key_violation "attendance" "attendance_registration_id_fkey")
    else
      let row := mkAttendance
                   (new_id (map att_attendance_id (attendance s)))
                   r ts check_in_method None None None in
      inr (Some row, with_attendance s (attendance s ++ [row])%list)
  | None => inl (not_null_violation "registration_id")
  end.

(** Modelled from the spec: the column defaults and constraints of the
    colleges table (schema file not part of the sources).  The INSERT of
    [create_college] names every column but the identifier and the creation
    time, which the store assigns; the code is unique and, like the name,
    not null. *)
Definition insert_college (ts : Z) (name code : option string)
  (address city state contact_email phone : option string) (s : Store)
  : Exception + (option College * Store) :=
  match name, code with
  | Some n, Some c =>
    if college_code_taken s c
    then inl (unique_violation "colleges_code_key")
    else
      let row := mkCollege (new_id (map col_college_id (colleges s)))
                   n c address city state contact_email phone ts in
      inr (Some row, with_colleges s (colleges s ++ [row])%list)
  | None, _ => inl (not_null_violation "name")
  | _, None => inl (not_null_violation "code")
  end.

End Storage.

Definition cancels (registration_id : string) (r : Registration) : bool :=
  (reg_registration_id r =? registration_id)%string && is_registered r.

Definition cancelled (ts : Z) (r : Registration) : Registration :=
  mkRegistration (reg_registration_id r) (reg_event_id r) (reg_student_id r)
    (reg_registered_at r) "cancelled" (Some ts) (Some "Cancelled by user").

(** The UPDATE of [cancel_registration]: every row the WHERE clause selects
    is rewritten; RETURNING lists the rewritten rows and [fetch='one'] takes
    the first. *)
Definition update_registration_cancelled (ts : Z) (registration_id : string)
  (s : Store) : Exception + (option Registration * Store) :=
  let rows := map (fun r => if cancels registration_id r then cancelled ts r else r)
                  (registrations s) in
  let returning := map (cancelled ts)
                       (filter (cancels registration_id) (registrations s)) in
  inr (hd_error returning, with_registrations s rows).

(** The row of [check_query] in [mark_attendance]. *)
Record ActiveRegistration : Type := mkActiveRegistration {
  ar_registration : Registration;
  ar_event_title : string;
  ar_student_name : string
}.

(** [check_query] of [mark_attendance]: registrations joined with their
    event and their student, filtered on the identifier and the status
    registered; [fetch='one'] takes the first row. *)
Definition active_registration (registration_id : option string) (s : Store)
  : option ActiveRegistration :=
  match find (fun r => eq_param (reg_registration_id r) registration_id &&
                       is_registered r &&
                       event_exists s (reg_event_id r) &&
                       student_exists s (reg_student_id r))
             (registrations s) with
  | Some r =>
    match find (fun e => (ev_event_id e =? reg_event_id r)%string) (events s),
          find (fun st => (st_student_id st =? reg_student_id r)%string)
               (students s) with
    | Some e, Some st => Some (mkActiveRegistration r (ev_title e) (st_name st))
    | _, _ => None
    end
  | None => None
  end.

Definition select_active_registration (registration_id : option string)
  (s : Store) : Exception + (option ActiveRegistration * Store) :=
  inr (active_registration registration_id s, s).

(** [existing_attendance]: the first attendance row of the registration. *)
Definition existing_attendance (registration_id : option string) (s : Store)
  : option Attendance :=
  find (fun a => eq_param (att_registration_id a) registration_id) (attendance s).

(** [SELECT attendance_id FROM attendance WHERE registration_id = %s]. *)
Definition select_existing_attendance (registration_id : option string)
  (s : Store) : Exception + (option Attendance * Store) :=
  inr (existing_attendance registration_id s, s).

(** The row of [check_query] in [submit_feedback]. *)
Record AttendanceInfo : Type := mkAttendanceInfo {
  ai_attendance_id : string;
  ai_event_id : string;
  ai_event_title : string
}.

(** An attendance row joined with its registration and that registration's
    event. *)
Definition joined_attendance (s : Store) (a : Attendance) : option AttendanceInfo :=
  match find (fun r => (reg_registration_id r =? att_registration_id a)%string)
             (registrations s) with
  | Some r =>
    match find (fun e => (ev_event_id e =? reg_event_id r)%string) (events s) with
    | Some e => Some (mkAttendanceInfo (att_attendance_id a) (reg_event_id r)
                        (ev_title e))
    | None => None
    end
  | None => None
  end.

(** [check_query] of [submit_feedback]; [fetch='one'] takes the first row of
    the join with the given identifier. *)
Definition attendance_info (attendance_id : option string) (s : Store)
  : option AttendanceInfo :=
  match find (fun a => eq_param (att_attendance_id a) attendance_id &&
                       is_some (joined_attendance s a))
             (attendance s) with
  | Some a => joined_attendance s a
  | None => None
  end.

Definition select_attendance (attendance_id : option string) (s : Store)
  : Exception + (option AttendanceInfo * Store) :=
  inr (attendance_info attendance_id s, s).

Definition with_feedback (ts : Z) (rating : option Z) (comment : option string)
  (a : Attendance) : Attendance :=
  mkAttendance (att_attendance_id a) (att_registration_id a)
    (att_checked_in_at a) (att_check_in_method a) rating comment (Some ts).

Definition rated (attendance_id : option string) (a : Attendance) : bool :=
  eq_param (att_attendance_id a) attendance_id.

(** [feedback_query] of [submit_feedback]. *)
Definition update_attendance_feedback (ts : Z) (rating : option Z)
  (comment attendance_id : option string) (s : Store)
  : Exception + (option Attendance * Store) :=
  let rows := map (fun a => if rated attendance_id a
                            then with_feedback ts rating comment a else a)
                  (attendance s) in
  let returning := map (with_feedback ts rating comment)
                       (filter (rated attendance_id) (attendance s)) in
  inr (hd_error returning, with_attendance s rows).

(* ================================================================== *)
(** ** connection.py: [execute_query] *)

(** A computation over the world that returns or raises. *)
Definition DB (A : Type) : Type := World -> (Exception + A) * World.

Definition ret {A : Type} (a : A) : DB A := fun w => (inr a, w).

Definition raise {A : Type} (e : Exception) : DB A := fun w => (inl e, w).

Definition bind {A B : Type} (m : DB A) (k : A -> DB B) : DB B :=
  fun w =>
    match m w with
    | (inr a, w') => k a w'
    | (inl e, w') => (inl e, w')
    end.

Notation "x <- m ;; k" := (bind m (fun x => k))
  (at level 61, m at next level, right associativity).

(** A pure step that may raise. *)
Definition lift {A : Type} (r : Exception + A) : DB A :=
  match r with
  | inr a => ret a
  | inl e => raise e
  end.

(** [execute_query(query, params, fetch='one')]: the statement runs on a
    pooled connection; on success its effect is committed, on an exception
    it is rolled back and the exception raised again.  Either way the
    statement has reached the store. *)
Definition execute_query {A : Type} (statement : Statement)
  (run : Store -> Exception + (A * Store)) : DB A :=
  fun w =>
    let log := (executed w ++ [statement])%list in
    match run (db w) with
    | inr (result, s') => (inr result, mkWorld s' log)
    | inl e => (inl e, mkWorld (db w) log)
    end.

(** [try: body except Exception as e: handler(e)]. *)
Definition try_except {A : Type} (body : DB A) (handler : Exception -> A)
  : World -> A * World :=
  fun w =>
    match body w with
    | (inr a, w') => (a, w')
    | (inl e, w') => (handler e, w')
    end.

(* ================================================================== *)
(** ** app.py: responses *)

(** The JSON documents the handlers produce. *)
Inductive Body : Type :=
| error (msg : string)
| registration_json (row : Registration)
| cancelled_json (msg : string) (row : Registration)
| attendance_json (row : Attendance) (event_title student_name : string)
| feedback_json (row : Attendance) (event_title : string)
| college_json (row : College).

Record Response : Type := mkResponse {
  body : Body;
  status_code : Z
}.

(** [return jsonify(b), code]. *)
Definition jsonify (b : Body) (code : Z) : Response := mkResponse b code.

(** [data[key]] on the request payload. *)
Definition item {D A : Type} (data : option D) (key : string)
  (proj : D -> field A) : Exception + option A :=
  match data with
  | Some d => subscript key (proj d)
  | None => inl (TypeError "'NoneType' object is not subscriptable")
  end.

(** The error kinds of the admission contract, as the responses that carry
    them. *)
Definition EventNotFound : Response := jsonify (error "Event not found") 404.
Definition EventInactive : Response :=
  jsonify (error "Event is not active for registration") 400.
Definition DeadlinePassed : Response :=
  jsonify (error "Registration deadline has passed") 400.
Definition CapacityExceeded : Response :=
  jsonify (error "Event is at full capacity") 400.
Definition DuplicateRegistration : Response :=
  jsonify (error "Student is already registered for this event") 409.
Definition RegistrationNotFound : Response :=
  jsonify (error "Registration not found or already cancelled") 404.
Definition RegistrationNotActive : Response :=
  jsonify (error "Registration not found or not active") 404.
Definition AlreadyCheckedIn : Response :=
  jsonify (error "Student is already checked in for this event") 409.
Definition AttendanceNotFound : Response :=
  jsonify (error "Attendance record not found") 404.
Definition InvalidRating : Response :=
  jsonify (error "Rating must be between 1 and 5") 400.

Definition duplicate_key : string :=
  "duplicate key value violates unique constraint".

(** [event_info['registration_deadline'] and datetime.now() > ...]. *)
Definition deadline_passed (now : Z) (info : EventInfo) : bool :=
  match ei_registration_deadline info with
  | Some deadline => now >? deadline
  | None => false
  end.

(** [event_info['max_capacity'] and current_registrations >= max_capacity];
    a capacity of zero is falsy, like a missing one. *)
Definition at_capacity (info : EventInfo) : bool :=
  match ei_max_capacity info with
  | Some capacity =>
    negb (capacity =? 0) && (ei_current_registrations info >=? capacity)
  | None => false
  end.

(** The [except Exception as e] clause of [register_for_event]. *)
Definition on_register_exception (e : Exception) : Response :=
  if contains duplicate_key (str e) then DuplicateRegistration
  else jsonify (error (str e)) 500.

Section Handlers.

Variable uuid_ok : string -> bool.
Variable new_id : list string -> string.
Variable blocking : Registration -> bool.

(** [register_for_event()], POST /api/register.  [now] is the handler's
    [datetime.now()], [ts] the store's CURRENT_TIMESTAMP. *)
Definition register_for_event (now ts : Z) (data : option RegistrationData)
  : World -> Response * World :=
  try_except
    (let validation_result := validate_registration_data uuid_ok data in
     if negb (valid validation_result)
     then ret (jsonify (error (message validation_result)) 400)
     else
       event_id <- lift (item data "event_id" rd_event_id) ;;
       student_id <- lift (item data "student_id" rd_student_id) ;;
       event_info <- execute_query SelectEventInfo (select_event_info event_id) ;;
       match event_info with
       | None => ret EventNotFound
       | Some info =>
         if negb (ei_status info =? "active")%string then ret EventInactive
         else if deadline_passed now info then ret DeadlinePassed
         else if at_capacity info then ret CapacityExceeded
         else
           result <- execute_query InsertRegistration
                       (insert_registration new_id blocking ts event_id student_id) ;;
           match result with
           | Some row => ret (jsonify (registration_json row) 201)
           | None => ret (jsonify (error "Failed to register for event") 500)
           end
       end)
    on_register_exception.

(** [cancel_registration(registration_id)],
    DELETE /api/registrations/<registration_id>. *)
Definition cancel_registration (ts : Z) (registration_id : string)
  : World -> Response * World :=
  try_except
    (result <- execute_query UpdateRegistrationCancelled
                 (update_registration_cancelled ts registration_id) ;;
     match result with
     | Some row =>
       ret (jsonify (cancelled_json "Registration cancelled successfully" row) 200)
     | None => ret RegistrationNotFound
     end)
    (fun e => jsonify (error (str e)) 500).

(** [mark_attendance()], POST /api/attendance. *)
Definition mark_attendance (ts : Z) (data : option AttendanceData)
  : World -> Response * World :=
  try_except
    (match data with
     | None => ret (jsonify (error "Missing registration_id") 400)
     | Some d =>
       if negb (has_key (ad_registration_id d))
       then ret (jsonify (error "Missing registration_id") 400)
       else
         registration_id <- lift (item data "registration_id" ad_registration_id) ;;
         let check_in_method := get_default (ad_check_in_method d) "manual" in
         registration <- execute_query SelectActiveRegistration
                           (select_active_registration registration_id) ;;
         match registration with
         | None => ret RegistrationNotActive
         | Some reg =>
           existing_attendance <- execute_query SelectExistingAttendance
                                    (select_existing_attendance registration_id) ;;
           if is_some existing_attendance then ret AlreadyCheckedIn
           else
             result <- execute_query InsertAttendance
                         (insert_attendance new_id ts registration_id
                            check_in_method) ;;
             match result with
             | Some row =>
               ret (jsonify (attendance_json row (ar_event_title reg)
                               (ar_student_name reg)) 201)
             | None => ret (jsonify (error "Failed to mark attendance") 500)
             end
         end
     end)
    (fun e => jsonify (error (str e)) 500).

(** [submit_feedback()], POST /api/feedback. *)
Definition submit_feedback (ts : Z) (data : option FeedbackData)
  : World -> Response * World :=
  try_except
    (let validation_result := validate_feedback_data uuid_ok data in
     if negb (valid validation_result)
     then ret (jsonify (error (message validation_result)) 400)
     else
       attendance_id <- lift (item data "attendance_id" fd_attendance_id) ;;
       rating <- lift (item data "rating" fd_rating) ;;
       let comment := match data with
                      | Some d => get_default (fd_comment d) ""
                      | None => None
                      end in
       attendance_row <- execute_query SelectAttendance
                           (select_attendance attendance_id) ;;
       match attendance_row with
       | None => ret AttendanceNotFound
       | Some info =>
         result <- execute_query UpdateAttendanceFeedback
                     (update_attendance_feedback ts rating comment attendance_id) ;;
         match result with
         | Some row => ret (jsonify (feedback_json row (ai_event_title info)) 200)
         | None => ret (jsonify (error "Failed to submit feedback") 500)
         end
       end)
    (fun e => jsonify (error (str e)) 500).

(** [create_college()], POST /api/colleges. *)
Definition create_college (ts : Z) (data : option CollegeData)
  : World -> Response * World :=
  try_except
    (match data with
     | None => ret (jsonify (error "Missing required fields: name and code") 400)
     | Some d =>
       if negb (truthy_get (cd_name d)) || negb (truthy_get (cd_code d))
       then ret (jsonify (error "Missing required fields: name and code") 400)
       else if len (str_of (get_default (cd_code d) "")) >? 10
       then ret (jsonify (error "College code must be 10 characters or less") 400)
       else
         name <- lift (item data "name" cd_name) ;;
         code <- lift (item data "code" cd_code) ;;
         result <- execute_query InsertCollege
                     (insert_college new_id ts name (option_map upper code)
                        (get (cd_address d)) (get (cd_city d)) (get (cd_state d))
                        (get (cd_contact_email d)) (get (cd_phone d))) ;;
         match result with
         | Some row => ret (jsonify (college_json row) 201)
         | None => ret (jsonify (error "Failed to create college") 500)
         end
     end)
    (fun e =>
       if contains duplicate_key (str e)
       then jsonify (error "College code already exists") 409
       else jsonify (error (str e)) 500).

(** The requests of the four routes that change registrations and
    attendance. *)
Inductive Request : Type :=
| PostRegister (now ts : Z) (data : option RegistrationData)
| DeleteRegistration (ts : Z) (registration_id : string)
| PostAttendance (ts : Z) (data : option AttendanceData)
| PostFeedback (ts : Z) (data : option FeedbackData).

Definition handle (rq : Request) : World -> Response * World :=
  match rq with
  | PostRegister now ts data => register_for_event now ts data
  | DeleteRegistration ts registration_id => cancel_registration ts registration_id
  | PostAttendance ts data => mark_attendance ts data
  | PostFeedback ts data => submit_feedback ts data
  end.

(** The world after serving the requests in order. *)
Fixpoint serve (rqs : list Request) (w : World) : World :=
  match rqs with
  | [] => w
  | rq :: rest => serve rest (snd (handle rq w))
  end.

End Handlers.

(** The world once [statements] have run without changing the store. *)
Definition ran (w : World) (statements : list Statement) : World :=
  mkWorld (db w) (executed w ++ statements)%list.

(* ================================================================== *)
(** ** Properties of the store *)

(** Registrations of status registered held by the pair (event, student). *)
Definition registered_pairs (s : Store) (event_id student_id : string) : Z :=
  Z.of_nat (List.length
    (filter (fun r => (reg_event_id r =? event_id)%string &&
                      (reg_student_id r =? student_id)%string &&
                      is_registered r)
            (registrations s))).

(** Attendance rows of a registration. *)
Definition attendance_count (s : Store) (registration_id : string) : Z :=
  Z.of_nat (List.length
    (filter (fun a => (att_registration_id a =? registration_id)%string)
            (attendance s))).

(** No event holds more registered registrations than its capacity. *)
Definition capacity_respected (s : Store) : Prop :=
  forall e ev c,
    find_event (Some e) s = Some ev ->
    ev_max_capacity ev = Some c -> 0 < c ->
    registered_count s e <= c.

(** No pair (event, student) holds two registered registrations. *)
Definition unique_registered (s : Store) : Prop :=
  forall e st, registered_pairs s e st <= 1.

(** No registration has two attendance rows. *)
Definition one_attendance (s : Store) : Prop :=
  forall r, attendance_count s r <= 1.

(** The foreign keys: a registration's event and student exist, an
    attendance row's registration exists. *)
Definition referential_integrity (s : Store) : Prop :=
  (forall r, In r (registrations s) ->
     event_exists s (reg_event_id r) = true /\
     student_exists s (reg_student_id r) = true) /\
  (forall a, In a (attendance s) ->
     registration_exists s (att_registration_id a) = true).

(** The changes the four handlers make to the store: none, one registration
    appended by an insert the constraints and the capacity check let
    through, registrations cancelled by identifier, one attendance row
    appended, feedback written by identifier. *)
Inductive store_step (s : Store) : Store -> Prop :=
| step_none : store_step s s
| step_register (row : Registration) :
    registered_pairs s (reg_event_id row) (reg_student_id row) = 0 ->
    event_exists s (reg_event_id row) = true ->
    student_exists s (reg_student_id row) = true ->
    (forall ev c,
       find_event (Some (reg_event_id row)) s = Some ev ->
       ev_max_capacity ev = Some c -> c <> 0 ->
       registered_count s (reg_event_id row) < c) ->
    store_step s (with_registrations s (registrations s ++ [row])%list)
| step_cancel (ts : Z) (registration_id : string) :
    store_step s
      (with_registrations s
         (map (fun r => if cancels registration_id r then cancelled ts r else r)
              (registrations s)))
| step_attend (row : Attendance) :
    attendance_conflicts s (att_registration_id row) = false ->
    registration_exists s (att_registration_id row) = true ->
    store_step s (with_attendance s (attendance s ++ [row])%list)
| step_feedback (ts : Z) (rating : option Z) (comment attendance_id : option string) :
    store_step s
      (with_attendance s
         (map (fun a => if rated attendance_id a
                        then with_feedback ts rating comment a else a)
              (attendance s))).

(* ================================================================== *)
(** ** Sample data *)

(** A stand-in for [uuid.UUID]: the 36-character hyphenated form. *)
Definition sample_uuid_ok (s : string) : bool := (String.length s =? 36)%nat.

Fixpoint longest (ids : list string) : nat :=
  match ids with
  | [] => O
  | x :: rest => Nat.max (String.length x) (longest rest)
  end.

Fixpoint zeros (n : nat) : string :=
  match n with
  | O => EmptyString
  | S k => String "0" (zeros k)
  end.

(** A stand-in for the store's identifier default: longer than every
    identifier in use. *)
Definition sample_new_id (ids : list string) : string := zeros (S (longest ids)).

(** A stand-in for [datetime.fromisoformat]: it reads nothing but the three
    timestamps of the samples (naive values). *)
Definition sample_fromisoformat (s : string) : option datetime :=
  if (s =? "2030-01-01T09:00:00")%string then Some (mkDatetime 900 None)
  else if (s =? "2030-01-01T10:00:00")%string then Some (mkDatetime 1000 None)
  else if (s =? "2030-01-01T12:00:00")%string then Some (mkDatetime 1200 None)
  else None.

Definition event_1 : string := "00000000-0000-0000-0000-0000000000e1".
Definition student_a : string := "00000000-0000-0000-0000-00000000000a".
Definition student_b : string := "00000000-0000-0000-0000-00000000000b".
Definition student_c : string := "00000000-0000-0000-0000-00000000000c".

(** One active event of capacity 2 whose deadline is at time 100, and three
    students; nobody is registered. *)
Definition sample_store : Store :=
  mkStore []
          [mkEvent event_1 "Intro to Rocq" "active" (Some 2) (Some 100)]
          [mkStudent student_a "Asha"; mkStudent student_b "Bala";
           mkStudent student_c "Chitra"]
          [] [].

Definition sample_world : World := mkWorld sample_store [].

Definition registration_1 : string := "00000000-0000-0000-0000-0000000000f1".
Definition attendance_1 : string := "00000000-0000-0000-0000-0000000000d1".

(** The sample world with student A registered under [registration_1]. *)
Definition registered_world : World :=
  mkWorld
    (with_registrations sample_store
       [mkRegistration registration_1 event_1 student_a 10 "registered" None None])
    [].

(** The same world once student A has checked in under [attendance_1]. *)
Definition attended_world : World :=
  mkWorld
    (with_attendance (db registered_world)
       [mkAttendance attendance_1 registration_1 40 (Some "manual")
          None None None])
    [].

(** Event data whose registration deadline equals its start time. *)
Definition sample_event_data : EventData :=
  mkEventData (Val "00000000-0000-0000-0000-0000000000c1") (Val "Intro to Rocq")
    Absent (Val "workshop") (Val "2030-01-01T10:00:00")
    (Val "2030-01-01T12:00:00") Absent (Val 2) (Val "2030-01-01T10:00:00").


(** A payload the college validator rejects: the name and the code have
    one character each. *)
Definition short_college : option CollegeData :=
  Some (mkCollegeData (Val "X") (Val "a") Absent Absent Absent Absent Absent).

(** A payload the attendance validator rejects: the check-in method is not
    one of manual, qr_code, rfid. *)
Definition telepathy_check_in : option AttendanceData :=
  Some (mkAttendanceData (Val registration_1) (Val "telepathy")).

Definition register_request (event_id student_id : string)
  : option RegistrationData :=
  Some (mkRegistrationData (Val event_id) (Val student_id)).

Definition sample_serve : list Request -> World -> World :=
  serve sample_uuid_ok sample_new_id registered_rows_block.

(** The same world once student A and student B are registered. *)
Definition full_world : World :=
  sample_serve [PostRegister 10 10 (register_request event_1 student_a);
                PostRegister 20 20 (register_request event_1 student_b)]
               sample_world.

(* ================================================================== *)
(** ** helpers.py: [paginate_results] *)

(** A slice index brought into range as [list.__getitem__] does: a negative
    index counts from the end, and both ends are clamped to the list. *)
Definition slice_index (length_ i : Z) : Z :=
  if i <? 0 then Z.max (i + length_) 0 else Z.min i length_.

(** [l[start:stop]]. *)
Definition slice {A : Type} (l : list A) (start stop : Z) : list A :=
  let n := Z.of_nat (List.length l) in
  let lo := slice_index n start in
  let hi := slice_index n stop in
  firstn (Z.to_nat (hi - lo)) (skipn (Z.to_nat lo) l).

Record Pagination : Type := mkPagination {
  pg_page : Z;
  pg_per_page : Z;
  pg_total : Z;
  pg_pages : Z;
  pg_has_next : bool;
  pg_has_prev : bool
}.

Record Paginated (A : Type) : Type := mkPaginated {
  pr_data : list A;
  pr_pagination : Pagination
}.

Arguments mkPaginated {A} _ _.
Arguments pr_data {A} _.
Arguments pr_pagination {A} _.

Inductive ArithmeticError : Type := ZeroDivisionError.

(** [paginate_results(results, page, per_page)]; the floor division by
    [per_page] raises when [per_page] is zero. *)
Definition paginate_results {A : Type} (results : list A) (page per_page : Z)
  : ArithmeticError + Paginated A :=
  let total := Z.of_nat (List.length results) in
  let start := (page - 1) * per_page in
  let stop := start + per_page in
  let paginated_results := slice results start stop in
  if per_page =? 0 then inl ZeroDivisionError
  else inr (mkPaginated paginated_results
              (mkPagination page per_page total
                 ((total + per_page - 1) / per_page)
                 (stop <? total)
                 (page >? 1))).

(** The ['data'] of a page, empty when the call raises. *)
Definition page_items {A : Type} (results : list A) (per_page page : Z) : list A :=
  match paginate_results results page per_page with
  | inr r => pr_data r
  | inl _ => []
  end.

(** The ['pages'] count of a call that returns. *)
Definition page_count {A : Type} (results : list A) (per_page : Z) : Z :=
  (Z.of_nat (List.length results) + per_page - 1) / per_page.

(* ================================================================== *)
(** ** validators.py: [sanitize_input] *)

(** [str.isspace] on a character of code below 256: the ASCII white space
    (9 to 13, 28 to 32), the next-line control 133 and the no-break space
    160. *)
Definition is_space (c : ascii) : bool :=
  let n := nat_of_ascii c in
  (((9 <=? n) && (n <=? 13)) || ((28 <=? n) && (n <=? 32)) ||
   (n =? 133) || (n =? 160))%nat.

(** [s.lstrip()]. *)
Fixpoint lstrip (s : string) : string :=
  match s with
  | EmptyString => EmptyString
  | String c t => if is_space c then lstrip t else s
  end.

(** [s.rstrip()]. *)
Fixpoint rstrip (s : string) : string :=
  match s with
  | EmptyString => EmptyString
  | String c t =>
    match rstrip t with
    | EmptyString => if is_space c then EmptyString else String c EmptyString
    | rest => String c rest
    end
  end.

(** [s.strip()]. *)
Definition strip (s : string) : string := rstrip (lstrip s).

Definition lt_char : ascii := "<"%char.
Definition gt_char : ascii := ">"%char.

(** [re.sub(r'<[^>]+>', '', s)], scanning left to right.  [pending] is
    [None] outside a candidate tag and [Some b] after a ['<'] followed by the
    characters [b], none of them ['>'].  A ['>'] closes the candidate, which
    is dropped unless [b] is empty; a candidate still open at the end of the
    string is kept. *)
Fixpoint remove_tags (pending : option string) (s : string) : string :=
  match s, pending with
  | EmptyString, None => EmptyString
  | EmptyString, Some b => String lt_char b
  | String c t, None =>
    if (c =? lt_char)%char then remove_tags (Some EmptyString) t
    else String c (remove_tags None t)
  | String c t, Some b =>
    if (c =? gt_char)%char then
      match b with
      | EmptyString => String lt_char (String gt_char (remove_tags None t))
      | String _ _ => remove_tags None t
      end
    else remove_tags (Some (b ++ String c EmptyString)) t
  end.

(** The characters the second pattern of [sanitize_input] names: the two
    angle brackets, the double quote and the single quote. *)
Definition dangerous (c : ascii) : bool :=
  (c =? lt_char)%char || (c =? gt_char)%char ||
  (c =? ascii_of_nat 34)%char || (c =? "'")%char.

(** [re.sub] of that pattern by the empty string. *)
Fixpoint remove_dangerous (s : string) : string :=
  match s with
  | EmptyString => EmptyString
  | String c t =>
    if dangerous c then remove_dangerous t else String c (remove_dangerous t)
  end.

(** The string branch of [sanitize_input]. *)
Definition sanitize_str (s : string) : string :=
  strip (remove_dangerous (remove_tags None s)).

(** The values [sanitize_input] walks: strings, dictionaries with string
    keys, lists, and the other values, which it returns as they are. *)
Unset Elimination Schemes.
Inductive PyValue : Type :=
| PyStr (s : string)
| PyDict (items : list (string * PyValue))
| PyList (items : list PyValue)
| PyInt (n : Z)
| PyBool (b : bool)
| PyNone.
Set Elimination Schemes.

(** [sanitize_input(data)]. *)
Fixpoint sanitize_input (data : PyValue) : PyValue :=
  match data with
  | PyStr s => PyStr (sanitize_str s)
  | PyDict items =>
    PyDict (map (fun kv => match kv with
                           | (key, value) => (key, sanitize_input value)
                           end) items)
  | PyList items => PyList (map sanitize_input items)
  | other => other
  end.

(** Every character of a string passes a test. *)
Fixpoint all_chars (p : ascii -> bool) (s : string) : bool :=
  match s with
  | EmptyString => true
  | String c t => p c && all_chars p t
  end.

(** A string without angle bracket, double quote or single quote. *)
Definition harmless (s : string) : bool := all_chars (fun c => negb (dangerous c)) s.

(** A string that [strip] leaves alone: no white space at either end. *)
Definition trimmed (s : string) : bool := (strip s =? s)%string.

(** What [sanitize_input] makes of a string: harmless and trimmed. *)
Definition clean (s : string) : bool := harmless s && trimmed s.

(** Every string held by a value, at any depth, passes a test (keys of
    dictionaries are not values). *)
Fixpoint all_strings (p : string -> bool) (v : PyValue) : bool :=
  match v with
  | PyStr s => p s
  | PyDict items =>
    forallb (fun kv => match kv with (_, value) => all_strings p value end) items
  | PyList items => forallb (all_strings p) items
  | _ => true
  end.

(* ================================================================== *)
(** ** app.py: the event routes *)

(** The event routes are modelled on the store alone: [execute_query]
    commits the statement's effect, or rolls it back and raises again.  An
    event row keeps the columns the registration routes read; the other
    columns a statement writes (description, type, times, location,
    creator, [updated_at]) are not stored. *)
Definition Tx (A : Type) : Type := Store -> (Exception + A) * Store.

Definition tx_ret {A : Type} (a : A) : Tx A := fun s => (inr a, s).

Definition tx_bind {A B : Type} (m : Tx A) (k : A -> Tx B) : Tx B :=
  fun s =>
    match m s with
    | (inr a, s') => k a s'
    | (inl e, s') => (inl e, s')
    end.

Definition tx_lift {A : Type} (r : Exception + A) : Tx A :=
  match r with
  | inr a => tx_ret a
  | inl e => fun s => (inl e, s)
  end.

Definition run_query {A : Type} (run : Store -> Exception + (A * Store)) : Tx A :=
  fun s =>
    match run s with
    | inr (result, s') => (inr result, s')
    | inl e => (inl e, s)
    end.

Definition tx_try {A : Type} (body : Tx A) (handler : Exception -> A)
  : Store -> A * Store :=
  fun s =>
    match body s with
    | (inr a, s') => (a, s')
    | (inl e, s') => (handler e, s')
    end.

(** The JSON documents of the event routes. *)
Inductive EventBody : Type :=
| event_error (msg : string)
| event_json (row : Event)
| event_cancelled_json (msg : string) (row : Event).

Record EventResponse : Type := mkEventResponse {
  eb_body : EventBody;
  eb_status_code : Z
}.

Definition with_events (s : Store) (es : list Event) : Store :=
  mkStore (colleges s) es (students s) (registrations s) (attendance s).

Definition college_exists (s : Store) (college_id : string) : bool :=
  existsb (fun c => (col_college_id c =? college_id)%string) (colleges s).

Definition is_active (e : Event) : bool := (ev_status e =? "active")%string.

Definition cancels_event (event_id : string) (e : Event) : bool :=
  (ev_event_id e =? event_id)%string && is_active e.

Definition cancelled_event (e : Event) : Event :=
  mkEvent (ev_event_id e) (ev_title e) "cancelled" (ev_max_capacity e)
    (ev_registration_deadline e).

(** What the UPDATE of [cancel_event] makes of one row. *)
Definition cancel_in_place (event_id : string) (e : Event) : Event :=
  if cancels_event event_id e then cancelled_event e else e.

(** The UPDATE of [cancel_event]: every active event with the identifier
    becomes cancelled; [fetch='one'] takes the first row returned. *)
Definition update_event_cancelled (event_id : string) (s : Store)
  : Exception + (option Event * Store) :=
  let rows := map (fun e => if cancels_event event_id e then cancelled_event e else e)
                  (events s) in
  let returning := map cancelled_event (filter (cancels_event event_id) (events s)) in
  inr (hd_error returning, with_events s rows).

(** [cancel_event(event_id)], DELETE /api/events/<event_id>. *)
Definition cancel_event (event_id : string) : Store -> EventResponse * Store :=
  tx_try
    (tx_bind (run_query (update_event_cancelled event_id)) (fun result =>
       match result with
       | Some row =>
         tx_ret (mkEventResponse
                   (event_cancelled_json "Event cancelled successfully" row) 200)
       | None =>
         tx_ret (mkEventResponse
                   (event_error "Event not found or already cancelled") 404)
       end))
    (fun e => mkEventResponse (event_error (str e)) 500).

(** The world once [cancel_event] has served a request. *)
Definition after_cancel_event (event_id : string) (w : World) : World :=
  mkWorld (snd (cancel_event event_id (db w))) (executed w).

Section EventRoutes.

Variable fromisoformat : string -> option datetime.
Variable new_id : list string -> string.

(** [to_timestamp s] is the value the store reads from the text [s] given
    for a timestamp column, [None] when it rejects the text. *)
Variable to_timestamp : string -> option Z.

Definition invalid_timestamp : Exception :=
  DatabaseError "invalid input syntax for type timestamp".

(** Modelled from the spec: the column defaults and constraints of the
    events table (schema file not part of the sources).  The INSERT of
    [create_event] gives the college, the title, the times, the capacity
    and the deadline; the store assigns the identifier and the status
    active, reads the three timestamps, and enforces the foreign key to
    colleges. *)
Definition insert_event (college_id title start_datetime end_datetime : option string)
  (max_capacity : option Z) (registration_deadline : option string) (s : Store)
  : Exception + (option Event * Store) :=
  match college_id, title, start_datetime, end_datetime with
  | Some c, Some t, Some st, Some en =>
    if negb (college_exists s c)
    then inl (foreign_key_violation "events" "events_college_id_fkey")
    else
      match to_timestamp st, to_timestamp en with
      | Some _, Some _ =>
        match registration_deadline with
        | Some dl =>
          match to_timestamp dl with
          | Some deadline =>
            let row := mkEvent (new_id (map ev_event_id (events s))) t "active"
                         max_capacity (Some deadline) in
            inr (Some row, with_events s (events s ++ [row])%list)
          | None => inl invalid_timestamp
          end
        | None =>
          let row := mkEvent (new_id (map ev_event_id (events s))) t "active"
                       max_capacity None in
          inr (Some row, with_events s (events s ++ [row])%list)
        end
      | _, _ => inl invalid_timestamp
      end
  | None, _, _, _ => inl (not_null_violation "college_id")
  | _, None, _, _ => inl (not_null_violation "title")
  | _, _, None, _ => inl (not_null_violation "start_datetime")
  | _, _, _, None => inl (not_null_violation "end_datetime")
  end.

(** [create_event()], POST /api/events; [now] is the [datetime.now()] of
    the validator. *)
Definition create_event (now : Z) (data : option EventData)
  : Store -> EventResponse * Store :=
  tx_try
    (tx_bind (tx_lift (validate_event_data fromisoformat now data false))
       (fun validation_result =>
     if negb (valid validation_result)
     then tx_ret (mkEventResponse (event_error (message validation_result)) 400)
     else
       tx_bind (tx_lift (item data "college_id" ed_college_id)) (fun college_id =>
       tx_bind (tx_lift (item data "title" ed_title)) (fun title =>
       tx_bind (tx_lift (item data "event_type" ed_event_type)) (fun _ =>
       tx_bind (tx_lift (item data "start_datetime" ed_start_datetime)) (fun start_datetime =>
       tx_bind (tx_lift (item data "end_datetime" ed_end_datetime)) (fun end_datetime =>
       let max_capacity := match data with
                           | Some d => get (ed_max_capacity d)
                           | None => None
                           end in
       let registration_deadline := match data with
                                    | Some d => get (ed_registration_deadline d)
                                    | None => None
                                    end in
       tx_bind (run_query (insert_event college_id title start_datetime
                             end_datetime max_capacity registration_deadline))
         (fun result =>
            match result with
            | Some row => tx_ret (mkEventResponse (event_json row) 201)
            | None =>
              tx_ret (mkEventResponse (event_error "Failed to create event") 500)
            end))))))))
    (fun e => mkEventResponse (event_error (str e)) 500).

End EventRoutes.

Section Platform.

Variable uuid_ok : string -> bool.
Variable new_id : list string -> string.
Variable blocking : Registration -> bool.
Variable fromisoformat : string -> option datetime.
Variable to_timestamp : string -> option Z.

(** The requests of the six modelled routes that change events,
    registrations and attendance. *)
Inductive PlatformRequest : Type :=
| OnRegistrations (rq : Request)
| PostEvent (now : Z) (data : option EventData)
| DeleteEvent (event_id : string).

(** One request served; the log keeps to the statements of the
    registration, attendance and feedback routes. *)
Definition platform_step (rq : PlatformRequest) (w : World) : World :=
  match rq with
  | OnRegistrations r => snd (handle uuid_ok new_id blocking r w)
  | PostEvent now data =>
    mkWorld (snd (create_event fromisoformat new_id to_timestamp now data (db w)))
            (executed w)
  | DeleteEvent event_id => mkWorld (snd (cancel_event event_id (db w))) (executed w)
  end.

Fixpoint platform_serve (rqs : list PlatformRequest) (w : World) : World :=
  match rqs with
  | [] => w
  | rq :: rest => platform_serve rest (platform_step rq w)
  end.

End Platform.

(** Every stored capacity is one the event validator admits. *)
Definition capacities_in_range (s : Store) : Prop :=
  forall ev c, In ev (events s) -> ev_max_capacity ev = Some c -> 1 <= c <= 10000.

(** No two events share an identifier. *)
Definition event_ids_distinct (s : Store) : Prop :=
  NoDup (map ev_event_id (events s)).

(** Every event with a capacity holds at most that many registered
    registrations. *)
Definition every_event_within_capacity (s : Store) : Prop :=
  forall ev c,
    In ev (events s) -> ev_max_capacity ev = Some c ->
    registered_count s (ev_event_id ev) <= c.

(** The store the routes keep: foreign keys, capacities, one registered
    registration per pair, one attendance row per registration, capacities
    the validator admits, distinct event identifiers. *)
Definition consistent (s : Store) : Prop :=
  referential_integrity s /\ capacity_respected s /\ unique_registered s /\
  one_attendance s /\ capacities_in_range s /\ event_ids_distinct s.

(** The columns of a row no modelled route rewrites. *)
Definition event_columns (e : Event) : string * string * option Z * option Z :=
  (ev_event_id e, ev_title e, ev_max_capacity e, ev_registration_deadline e).

Definition registration_columns (r : Registration) : string * string * string * Z :=
  (reg_registration_id r, reg_event_id r, reg_student_id r, reg_registered_at r).

Definition attendance_columns (a : Attendance)
  : string * string * Z * option string :=
  (att_attendance_id a, att_registration_id a, att_checked_in_at a,
   att_check_in_method a).

(** [s'] has the rows of [s], in their order and with those columns, and
    maybe more rows after them; colleges and students are the same. *)
Definition keeps_rows (s s' : Store) : Prop :=
  colleges s' = colleges s /\ students s' = students s /\
  (exists more, map event_columns (events s') =
                (map event_columns (events s) ++ more)%list) /\
  (exists more, map registration_columns (registrations s') =
                (map registration_columns (registrations s) ++ more)%list) /\
  (exists more, map attendance_columns (attendance s') =
                (map attendance_columns (attendance s) ++ more)%list).

(* ================================================================== *)
(** ** validators.py: [validate_student_data] *)

(** Payload of POST /api/students. *)
Record StudentData : Type := mkStudentData {
  sd_college_id : field string;
  sd_email : field string;
  sd_name : field string;
  sd_student_number : field string;
  sd_phone : field string;
  sd_year_of_study : field Z;
  sd_department : field string
}.

Section StudentValidator.

Variable re_match : string -> string -> bool.
Variable re_sub : string -> string -> string -> string.

(** [validate_student_data(data)]; the year of study of the payload is an
    integer, which [int] returns as it is. *)
Definition validate_student_data (data : option StudentData) : ValidationResult :=
  match data with
  | None => invalid "No data provided"
  | Some d =>
    match first_missing [("college_id", missing_or_falsy (sd_college_id d));
                         ("email", missing_or_falsy (sd_email d));
                         ("name", missing_or_falsy (sd_name d));
                         ("student_number", missing_or_falsy (sd_student_number d))]
    with
    | Some name => invalid (missing_message name)
    | None =>
      let name := str_of (get_default (sd_name d) "") in
      let student_number := str_of (get_default (sd_student_number d) "") in
      let year := match get (sd_year_of_study d) with
                  | Some y => y
                  | None => 1
                  end in
      if negb (validate_email re_match (str_of (get (sd_email d))))
      then invalid "Invalid email format"
      else if len name >? 200
      then invalid "Name must be 200 characters or less"
      else if len name <? 2
      then invalid "Name must be at least 2 characters long"
      else if len student_number >? 50
      then invalid "Student number must be 50 characters or less"
      else if has_value (sd_year_of_study d) && ((year <? 1) || (year >? 4))
      then invalid "Year of study must be between 1 and 4"
      else if truthy_get (sd_phone d) &&
              negb (re_match phone_pattern
                      (re_sub phone_noise "" (str_of (get (sd_phone d)))))
      then invalid "Invalid phone number format"
      else if truthy_get (sd_department d) &&
              (len (str_of (get (sd_department d))) >? 100)
      then invalid "Department must be 100 characters or less"
      else ok "Valid student data"
    end
  end.

End StudentValidator.

(* ================================================================== *)
(** ** More sample data *)

Definition college_1 : string := "00000000-0000-0000-0000-0000000000c1".

(** The sample store with one college. *)
Definition campus_store : Store :=
  with_colleges sample_store
    [mkCollege college_1 "Rocq Institute" "RIT" None None None None None 0].

Definition campus_world : World := mkWorld campus_store [].

(** A store whose only event has no capacity and no deadline, and already
    holds a registration. *)
Definition open_store : Store :=
  mkStore []
          [mkEvent event_1 "Open day" "active" None None]
          [mkStudent student_a "Asha"; mkStudent student_b "Bala"]
          [mkRegistration registration_1 event_1 student_a 10 "registered" None None]
          [].

Definition open_world : World := mkWorld open_store [].

(** A stand-in for the store's reading of a timestamp: the sample
    timestamps, as [sample_fromisoformat] reads them. *)
Definition sample_to_timestamp (s : string) : option Z :=
  option_map wall (sample_fromisoformat s).

(** A stand-in for [datetime.fromisoformat] that also reads one
    timezone-aware value (UTC). *)
Definition sample_fromisoformat_utc (s : string) : option datetime :=
  if (s =? "2030-01-01T10:00:00+00:00")%string then Some (mkDatetime 1000 (Some 0))
  else sample_fromisoformat s.

(** Event data whose start time is given in UTC and whose end time is
    naive. *)
Definition mixed_event_data : EventData :=
  mkEventData (Val college_1) (Val "Intro to Rocq") Absent (Val "workshop")
    (Val "2030-01-01T10:00:00Z") (Val "2030-01-01T12:00:00") Absent (Val 2) Absent.

(** A stand-in for [re.match]: it knows the sample email address under the
    email pattern, and nothing else. *)
Definition sample_re_match (pattern s : string) : bool :=
  (pattern =? email_pattern)%string && (s =? "asha@campus.edu")%string.

(** A stand-in for [re.sub] on text that holds nothing to replace. *)
Definition sample_re_sub (pattern repl s : string) : string := s.

Definition sample_student_data : StudentData :=
  mkStudentData (Val college_1) (Val "asha@campus.edu") (Val "Asha")
    (Val "RIT-001") Absent (Val 2) (Val "Mathematics").

Definition sample_college_data : CollegeData :=
  mkCollegeData (Val "Rocq Institute") (Val "rit") Absent Absent Absent Absent Absent.

(** The same code in another letter case. *)
Definition sample_college_again : CollegeData :=
  mkCollegeData (Val "Rocq Institute of Technology") (Val "Rit")
    Absent Absent Absent Absent Absent.

(** A nested payload whose strings need no cleaning. *)
Definition clean_payload : PyValue :=
  PyDict [("name", PyStr "Asha"); ("tags", PyList [PyStr "first year"; PyInt 2])].

(* ================================================================== *)
(** ** app.py: [update_event] *)

(** Payload of PUT /api/events/<event_id>: the fields of an event and the
    status. *)
Record EventUpdateData : Type := mkEventUpdateData {
  eu_event : EventData;
  eu_status : field string
}.

(** A parameter bound to the UPDATE. *)
Inductive Param : Type :=
| TextParam (value : option string)
| IntParam (value : option Z).

(** [if field in data]: the assignment [field = %(field)s] with its
    parameter [data[field]], for a key the payload has. *)
Definition assignment {A : Type} (name : string) (wrap : option A -> Param)
  (f : field A) : list (string * Param) :=
  match f with
  | Absent => []
  | Null => [(name, wrap None)]
  | Val a => [(name, wrap (Some a))]
  end.

(** The loop over [updatable_fields]: the assignments of the UPDATE, in
    the order of that list. *)
Definition update_fields (u : EventUpdateData) : list (string * Param) :=
  let d := eu_event u in
  (assignment "title" TextParam (ed_title d) ++
   assignment "description" TextParam (ed_description d) ++
   assignment "event_type" TextParam (ed_event_type d) ++
   assignment "start_datetime" TextParam (ed_start_datetime d) ++
   assignment "end_datetime" TextParam (ed_end_datetime d) ++
   assignment "location" TextParam (ed_location d) ++
   assignment "max_capacity" IntParam (ed_max_capacity d) ++
   assignment "registration_deadline" TextParam (ed_registration_deadline d) ++
   assignment "status" TextParam (eu_status u))%list.

(** [SELECT event_id FROM events WHERE event_id = %s], fetched with
    [fetch='one']. *)
Definition select_event_id (event_id : string) (s : Store)
  : Exception + (option string * Store) :=
  inr (option_map ev_event_id (find_event (Some event_id) s), s).

Definition is_nil {A : Type} (l : list A) : bool :=
  match l with
  | [] => true
  | _ :: _ => false
  end.

Section EventUpdate.

Variable fromisoformat : string -> option datetime.

(** The effect on the store of the UPDATE built from the assignments, for
    the event of the identifier, with the row [RETURNING *] and
    [fetch='one'] give back; the constraints it enforces are those of the
    schema. *)
Variable run_update :
  list (string * Param) -> string -> Store -> Exception + (option Event * Store).

(** [update_event(event_id)], PUT /api/events/<event_id>; [now] is the
    [datetime.now()] of the validator.  The validator rejects a payload
    that is [None] or empty, so the loop only meets a payload with keys. *)
Definition update_event (now : Z) (event_id : string)
  (data : option EventUpdateData) : Store -> EventResponse * Store :=
  tx_try
    (tx_bind
       (tx_lift (validate_event_data fromisoformat now (option_map eu_event data) true))
       (fun validation_result =>
     if negb (valid validation_result)
     then tx_ret (mkEventResponse (event_error (message validation_result)) 400)
     else
       tx_bind (run_query (select_event_id event_id)) (fun existing_event =>
       if negb (is_some existing_event)
       then tx_ret (mkEventResponse (event_error "Event not found") 404)
       else
         let assignments := match data with
                            | Some u => update_fields u
                            | None => []
                            end in
         if is_nil assignments
         then tx_ret (mkEventResponse (event_error "No fields to update") 400)
         else
           tx_bind (run_query (run_update assignments event_id)) (fun result =>
             match result with
             | Some row => tx_ret (mkEventResponse (event_json row) 200)
             | None =>
               tx_ret (mkEventResponse (event_error "Failed to update event") 500)
             end))))
    (fun e => mkEventResponse (event_error (str e)) 500).

End EventUpdate.

(** An event that exists and is no longer active, under every row of its
    identifier. *)
Definition closed_event (e : string) (s : Store) : Prop :=
  event_exists s e = true /\
  forall ev, In ev (events s) -> ev_event_id ev = e -> ev_status ev <> "active".

Definition sample_results : list Z := [10; 20; 30; 40; 50].

(** The campus world once [cancel_event] has run for its event. *)
Definition cancelled_world : World := after_cancel_event event_1 campus_world.

(** A new event, a registration for the old one, and its cancellation. *)
Definition sample_requests : list PlatformRequest :=
  [PostEvent 0 (Some sample_event_data);
   OnRegistrations (PostRegister 10 10 (register_request event_1 student_a));
   DeleteEvent event_1;
   OnRegistrations (PostRegister 20 20 (register_request event_1 student_b))].

Definition sample_platform : list PlatformRequest -> World -> World :=
  platform_serve sample_uuid_ok sample_new_id registered_rows_block
    sample_fromisoformat sample_to_timestamp.

(* ================================================================== *)
(** ** connection.py: the calls [execute_query] makes *)

(** The calls on the pool, the connection and the cursor that can raise. *)
Inductive Call : Type :=
| GetConn
| Cursor
| Execute
| Fetch
| Commit
| Rollback
| CloseCursor
| PutConn.

(** A call with its outcome: [true] when it returned, [false] when it
    raised. *)
Definition CallLog : Type := list (Call * bool).

(** The driver: whether a call returns, given the calls made so far. *)
Definition Driver : Type := CallLog -> Call -> bool.

(** Code that makes calls: it returns a value or raises the exception of
    the call named. *)
Definition Io (A : Type) : Type := CallLog -> (Call + A) * CallLog.

Definition io_ret {A : Type} (a : A) : Io A := fun log => (inr a, log).

Definition io_raise {A : Type} (e : Call) : Io A := fun log => (inl e, log).

Definition io_bind {A B : Type} (m : Io A) (k : A -> Io B) : Io B :=
  fun log =>
    match m log with
    | (inr a, log') => k a log'
    | (inl e, log') => (inl e, log')
    end.

Definition call (d : Driver) (c : Call) : Io unit :=
  fun log =>
    let returns := d log c in
    (if returns then inr tt else inl c, (log ++ [(c, returns)])%list).

(** [try: body except Exception as e: handler(e)]. *)
Definition io_except {A : Type} (body : Io A) (handler : Call -> Io A) : Io A :=
  fun log =>
    match body log with
    | (inl e, log') => handler e log'
    | (inr a, log') => (inr a, log')
    end.

(** [try: body finally: cleanup]: the cleanup runs in every case, and an
    exception it raises replaces the outcome of the body. *)
Definition io_finally {A : Type} (body : Io A) (cleanup : Io unit) : Io A :=
  fun log =>
    match body log with
    | (outcome, log') =>
      match cleanup log' with
      | (inr _, log'') => (outcome, log'')
      | (inl e, log'') => (inl e, log'')
      end
    end.

(** [DatabaseManager.get_connection]: the exception is logged and raised
    again. *)
Definition get_connection (d : Driver) : Io unit :=
  io_except (call d GetConn) (fun e => io_raise e).

(** [DatabaseManager.return_connection]: an exception of [putconn] is
    logged and goes no further. *)
Definition return_connection (d : Driver) : Io unit :=
  io_except (call d PutConn) (fun _ => io_ret tt).

(** [with get_db_connection() as conn: body].  The variable [connection]
    is set once [get_connection] has returned; an exception of the body is
    raised at the [yield]. *)
Definition get_db_connection {A : Type} (d : Driver) (body : Io A) : Io A :=
  fun log =>
    match get_connection d log with
    | (inl e, log') =>
      (* connection is None: no rollback and nothing to return *)
      (inl e, log')
    | (inr _, log') =>
      io_finally
        (io_except body
           (fun e => io_bind (call d Rollback) (fun _ => io_raise e)))
        (return_connection d) log'
    end.

(** [execute_query(query, params, fetch)] as the calls it makes; [fetch]
    tells whether rows are fetched or the row count is read. *)
Definition execute_query_calls (d : Driver) (fetch : bool) : Io unit :=
  get_db_connection d
    (io_bind (call d Cursor) (fun _ =>
     io_finally
       (io_except
          (io_bind (call d Execute) (fun _ =>
           io_bind (if fetch then call d Fetch else io_ret tt) (fun _ =>
           call d Commit)))
          (fun e => io_bind (call d Rollback) (fun _ => io_raise e)))
       (call d CloseCursor))).

(** Queries one after the other, each inside a route that catches its
    exception. *)
Fixpoint execute_queries (d : Driver) (fetches : list bool) (log : CallLog)
  : CallLog :=
  match fetches with
  | [] => log
  | fetch :: rest => execute_queries d rest (snd (execute_query_calls d fetch log))
  end.

(** Where a connection is: in the pool, checked out, or checked out with
    a cursor open. *)
Inductive Phase : Type := InPool | CheckedOut | CursorOpen.

(** The calls in order at each phase; [None] for a call out of place: a
    call on a connection that is in the pool, on a cursor that is not open,
    a connection taken twice or handed back with its cursor open.  Only a
    [putconn] that returns puts the connection back, and only a close that
    returns closes the cursor: when one of them raises, the connection
    stays out, or the cursor open. *)
Definition next_phase (p : Phase) (entry : Call * bool) : option Phase :=
  match p, entry with
  | InPool, (GetConn, true) => Some CheckedOut
  | InPool, (GetConn, false) => Some InPool
  | CheckedOut, (Cursor, true) => Some CursorOpen
  | CheckedOut, (Cursor, false) => Some CheckedOut
  | CheckedOut, (Rollback, _) => Some CheckedOut
  | CheckedOut, (PutConn, true) => Some InPool
  | CheckedOut, (PutConn, false) => Some CheckedOut
  | CursorOpen, (Execute, _) => Some CursorOpen
  | CursorOpen, (Fetch, _) => Some CursorOpen
  | CursorOpen, (Commit, _) => Some CursorOpen
  | CursorOpen, (Rollback, _) => Some CursorOpen
  | CursorOpen, (CloseCursor, true) => Some CheckedOut
  | CursorOpen, (CloseCursor, false) => Some CursorOpen
  | _, _ => None
  end.

Fixpoint phase_after (p : Phase) (log : CallLog) : option Phase :=
  match log with
  | [] => Some p
  | entry :: rest =>
    match next_phase p entry with
    | Some p' => phase_after p' rest
    | None => None
    end
  end.

Definition same_call (a b : Call) : bool :=
  match a, b with
  | GetConn, GetConn | Cursor, Cursor | Execute, Execute | Fetch, Fetch
  | Commit, Commit | Rollback, Rollback | CloseCursor, CloseCursor
  | PutConn, PutConn => true
  | _, _ => false
  end.

(** A call of the kind was made. *)
Definition called (c : Call) (log : CallLog) : bool :=
  existsb (fun entry => same_call c (fst entry)) log.

(** A call of the kind returned. *)
Definition returned (c : Call) (log : CallLog) : bool :=
  existsb (fun entry => same_call c (fst entry) && snd entry) log.

(** A driver whose [execute] raises and whose other calls return. *)
Definition failing_execute : Driver :=
  fun _ c => match c with Execute => false | _ => true end.

(* ================================================================== *)
(** ** The UPDATE of [update_event] on the store *)

Definition check_violation (table constraint : string) : Exception :=
  DatabaseError
    ("new row for relation " ++ dq ++ table ++ dq ++
     " violates check constraint " ++ dq ++ constraint ++ dq).

Section EventUpdateStatement.

Variable to_timestamp : string -> option Z.

(** Modelled from the spec: one assignment of the UPDATE of [update_event]
    on one row of the events table (schema file not part of the sources).
    The title and the status are not null, a capacity is a positive
    integer when it is given, and the store reads the timestamps.  Of the
    columns an assignment can write, an event row keeps the title, the
    status, the capacity and the deadline. *)
Definition set_column (e : Event) (a : string * Param) : Exception + Event :=
  match a with
  | (name, value) =>
    if (name =? "title")%string then
      match value with
      | TextParam (Some title) =>
        inr (mkEvent (ev_event_id e) title (ev_status e) (ev_max_capacity e)
               (ev_registration_deadline e))
      | _ => inl (not_null_violation "title")
      end
    else if (name =? "status")%string then
      match value with
      | TextParam (Some status) =>
        inr (mkEvent (ev_event_id e) (ev_title e) status (ev_max_capacity e)
               (ev_registration_deadline e))
      | _ => inl (not_null_violation "status")
      end
    else if (name =? "max_capacity")%string then
      match value with
      | IntParam (Some capacity) =>
        if capacity <=? 0
        then inl (check_violation "events" "events_max_capacity_check")
        else inr (mkEvent (ev_event_id e) (ev_title e) (ev_status e)
                    (Some capacity) (ev_registration_deadline e))
      | IntParam None =>
        inr (mkEvent (ev_event_id e) (ev_title e) (ev_status e) None
               (ev_registration_deadline e))
      | TextParam _ => inl (DatabaseError "invalid input syntax for type integer")
      end
    else if (name =? "registration_deadline")%string then
      match value with
      | TextParam (Some text) =>
        match to_timestamp text with
        | Some deadline =>
          inr (mkEvent (ev_event_id e) (ev_title e) (ev_status e)
                 (ev_max_capacity e) (Some deadline))
        | None => inl invalid_timestamp
        end
      | TextParam None =>
        inr (mkEvent (ev_event_id e) (ev_title e) (ev_status e)
               (ev_max_capacity e) None)
      | IntParam _ => inl invalid_timestamp
      end
    else if (name =? "start_datetime")%string || (name =? "end_datetime")%string then
      match value with
      | TextParam (Some text) =>
        match to_timestamp text with
        | Some _ => inr e
        | None => inl invalid_timestamp
        end
      | TextParam None => inl (not_null_violation name)
      | IntParam _ => inl invalid_timestamp
      end
    else inr e
  end.

(** The assignments of the SET list, in order, on one row. *)
Fixpoint set_columns (e : Event) (assignments : list (string * Param))
  : Exception + Event :=
  match assignments with
  | [] => inr e
  | a :: rest =>
    match set_column e a with
    | inr e' => set_columns e' rest
    | inl ex => inl ex
    end
  end.

(** [WHERE event_id = %(event_id)s]: the rows of the identifier are
    rewritten, the others kept. *)
Fixpoint update_rows (assignments : list (string * Param)) (event_id : string)
  (rows : list Event) : Exception + list Event :=
  match rows with
  | [] => inr []
  | e :: rest =>
    match (if (ev_event_id e =? event_id)%string
           then set_columns e assignments else inr e) with
    | inl ex => inl ex
    | inr e' =>
      match update_rows assignments event_id rest with
      | inl ex => inl ex
      | inr rest' => inr (e' :: rest')
      end
    end
  end.

(** Modelled from the spec: the UPDATE of [update_event] on the store,
    with the first row [RETURNING *] lists. *)
Definition update_events (assignments : list (string * Param)) (event_id : string)
  (s : Store) : Exception + (option Event * Store) :=
  match update_rows assignments event_id (events s) with
  | inl ex => inl ex
  | inr rows =>
    inr (find (fun e => (ev_event_id e =? event_id)%string) rows,
         with_events s rows)
  end.

End EventUpdateStatement.

(** An update of the sample event that sets its capacity to 1. *)
Definition lower_capacity_update : EventUpdateData :=
  mkEventUpdateData
    (mkEventData Absent (Val "Intro to Rocq") Absent (Val "workshop")
       (Val "2030-01-01T10:00:00") (Val "2030-01-01T12:00:00") Absent (Val 1) Absent)
    Absent.

(** All the keys of dictionaries a value holds, at any depth, in order. *)
Fixpoint keys_of (v : PyValue) : list string :=
  match v with
  | PyDict items =>
    flat_map (fun kv => match kv with
                        | (key, value) => key :: keys_of value
                        end) items
  | PyList items => flat_map keys_of items
  | _ => []
  end.

(* ================================================================== *)
(** * Theorems *)

(** ** Strings and exceptions *)

Lemma startswith_app (p x : string) : startswith p (p ++ x) = true.
Proof.
  induction p as [|c p IH]; simpl.
  - reflexivity.
  - rewrite Ascii.eqb_refl. exact IH.
Qed.

Lemma contains_app (p x : string) : contains p (p ++ x) = true.
Proof.
  destruct (p ++ x) eqn:E; simpl.
  - rewrite <- E, startswith_app. reflexivity.
  - rewrite <- E, startswith_app. reflexivity.
Qed.

Lemma unique_violation_is_duplicate (constraint : string) :
  contains duplicate_key (str (unique_violation constraint)) = true.
Proof.
  unfold unique_violation, str.
  change ("duplicate key value violates unique constraint " ++ dq ++ constraint ++ dq)
    with (duplicate_key ++ (" " ++ dq ++ constraint ++ dq)).
  apply contains_app.
Qed.

Lemma contains_empty_hay (needle : string) :
  needle <> "" -> contains needle "" = false.
Proof.
  destruct needle; [congruence | reflexivity].
Qed.

(** ** Store bookkeeping *)

Lemma with_registrations_same (s : Store) :
  with_registrations s (registrations s) = s.
Proof. destruct s; reflexivity. Qed.

Lemma with_attendance_same (s : Store) :
  with_attendance s (attendance s) = s.
Proof. destruct s; reflexivity. Qed.

Lemma find_event_some (e : string) (s : Store) (ev : Event) :
  find_event (Some e) s = Some ev ->
  ev_event_id ev = e /\ In ev (events s) /\ event_exists s e = true.
Proof.
  unfold find_event, event_exists. intros H.
  apply find_some in H. destruct H as [Hin Heq]. simpl in Heq.
  apply String.eqb_eq in Heq. repeat split; auto.
  apply existsb_exists. exists ev. split; auto.
  apply String.eqb_eq; exact Heq.
Qed.

Lemma map_id_when {A : Type} (hit : A -> bool) (f : A -> A) (l : list A) :
  (forall x, In x l -> hit x = false) ->
  map (fun x => if hit x then f x else x) l = l.
Proof.
  induction l as [|a l IH]; simpl; intros H.
  - reflexivity.
  - rewrite (H a (or_introl eq_refl)). f_equal. apply IH.
    intros x Hx. apply H. right; exact Hx.
Qed.

Lemma filter_none {A : Type} (hit : A -> bool) (l : list A) :
  (forall x, In x l -> hit x = false) -> filter hit l = [].
Proof.
  induction l as [|a l IH]; simpl; intros H.
  - reflexivity.
  - rewrite (H a (or_introl eq_refl)). apply IH.
    intros x Hx. apply H. right; exact Hx.
Qed.

Lemma find_none_iff {A : Type} (hit : A -> bool) (l : list A) :
  find hit l = None <-> (forall x, In x l -> hit x = false).
Proof.
  split.
  - intros H x Hx. exact (find_none hit l H x Hx).
  - induction l as [|a l IH]; simpl; intros H.
    + reflexivity.
    + rewrite (H a (or_introl eq_refl)). apply IH.
      intros x Hx. apply H. right; exact Hx.
Qed.

Lemma filter_length_app {A : Type} (p : A -> bool) (l : list A) (x : A) :
  List.length (filter p (l ++ [x])) =
  (List.length (filter p l) + (if p x then 1 else 0))%nat.
Proof.
  rewrite filter_app, length_app. simpl. destruct (p x); reflexivity.
Qed.

(** ** Admission: [register_for_event] *)

Section Theory.

Variable uuid_ok : string -> bool.
Variable new_id : list string -> string.
Variable blocking : Registration -> bool.
Variable re_match : string -> string -> bool.
Variable re_sub : string -> string -> string -> string.

(** Modelled from the spec: what the uniqueness constraint of the
    registrations table (schema file not part of the sources) guarantees on
    either reading: a registration of status registered blocks a new one
    for its pair. *)
Hypothesis registered_blocks : forall r, is_registered r = true -> blocking r = true.

Local Abbreviation register := (register_for_event uuid_ok new_id blocking).

(** A payload the validator accepts carries both identifiers. *)
Lemma valid_registration_data (data : option RegistrationData) :
  valid (validate_registration_data uuid_ok data) = true ->
  exists e st, data = register_request e st /\
               uuid_ok e = true /\ uuid_ok st = true.
Proof.
  unfold validate_registration_data, register_request.
  destruct data as [[[| |e] [| |st]]|]; simpl; try discriminate;
    unfold missing_or_falsy, truthy_get; simpl;
    try (destruct (truthy_str e); simpl; discriminate).
  destruct (truthy_str e); simpl; try discriminate.
  destruct (truthy_str st); simpl; try discriminate.
  destruct (uuid_ok e) eqn:He; simpl; try discriminate.
  destruct (uuid_ok st) eqn:Hst; simpl; try discriminate.
  intros _. exists e, st. auto.
Qed.

(** A rejected payload is answered before anything else happens. *)
Lemma register_rejected (now ts : Z) (data : option RegistrationData) (w : World) :
  valid (validate_registration_data uuid_ok data) = false ->
  register now ts data w =
  (jsonify (error (message (validate_registration_data uuid_ok data))) 400, w).
Proof.
  intros H. unfold register_for_event, try_except. rewrite H. reflexivity.
Qed.

(** The handler on an accepted payload, one case per exit. *)
Lemma register_accepted (now ts : Z) (e st : string) (w : World) :
  valid (validate_registration_data uuid_ok (register_request e st)) = true ->
  register now ts (register_request e st) w =
  match find_event (Some e) (db w) with
  | None => (EventNotFound, ran w [SelectEventInfo])
  | Some ev =>
    let info := mkEventInfo (ev_max_capacity ev) (ev_registration_deadline ev)
                  (ev_status ev) (ev_title ev)
                  (registered_count (db w) (ev_event_id ev)) in
    if negb (ev_status ev =? "active")%string
    then (EventInactive, ran w [SelectEventInfo])
    else if deadline_passed now info
    then (DeadlinePassed, ran w [SelectEventInfo])
    else if at_capacity info
    then (CapacityExceeded, ran w [SelectEventInfo])
    else
      match insert_registration new_id blocking ts (Some e) (Some st) (db w) with
      | inr (Some row, s') =>
        (jsonify (registration_json row) 201,
         mkWorld s' (executed w ++ [SelectEventInfo; InsertRegistration]))
      | inr (None, s') =>
        (jsonify (error "Failed to register for event") 500,
         mkWorld s' (executed w ++ [SelectEventInfo; InsertRegistration]))
      | inl ex => (on_register_exception ex, ran w [SelectEventInfo; InsertRegistration])
      end
  end.
Proof.
  intros H. unfold register_for_event, try_except. rewrite H.
  cbn -[insert_registration find_event app].
  unfold bind, lift, item, register_request, subscript, ret, execute_query,
    select_event_info, ran.
  cbn -[insert_registration find_event app].
  destruct (find_event (Some e) (db w)) as [ev|];
    cbn -[insert_registration app]; [|reflexivity].
  destruct (negb (ev_status ev =? "active")%string);
    cbn -[insert_registration app]; [reflexivity|].
  destruct (deadline_passed now _); cbn -[insert_registration app]; [reflexivity|].
  destruct (at_capacity _); cbn -[insert_registration app]; [reflexivity|].
  rewrite <- app_assoc.
  destruct (insert_registration new_id blocking ts (Some e) (Some st) (db w))
    as [ex|[[row|] s']]; reflexivity.
Qed.

Lemma insert_registration_conflict (ts : Z) (e st : string) (s : Store) :
  registration_conflicts blocking s e st = true ->
  insert_registration new_id blocking ts (Some e) (Some st) s =
  inl (unique_violation "registrations_event_id_student_id_key").
Proof. intros H. unfold insert_registration. rewrite H. reflexivity. Qed.

Lemma insert_registration_row (ts : Z) (e st : string) (s : Store) :
  registration_conflicts blocking s e st = false ->
  event_exists s e = true ->
  student_exists s st = true ->
  insert_registration new_id blocking ts (Some e) (Some st) s =
  let row := mkRegistration (new_id (map reg_registration_id (registrations s)))
               e st ts "registered" None None in
  inr (Some row, with_registrations s (registrations s ++ [row])%list).
Proof.
  intros Hc He Hs. unfold insert_registration. rewrite Hc, He, Hs. reflexivity.
Qed.

(** A pair that holds a registered registration meets the constraint. *)
Lemma registered_pair_conflicts (s : Store) (e st : string) :
  (exists r, In r (registrations s) /\
             reg_event_id r = e /\ reg_student_id r = st /\
             reg_status r = "registered") ->
  registration_conflicts blocking s e st = true.
Proof.
  intros (r & Hin & He & Hst & Hreg). apply existsb_exists. exists r.
  split; [exact Hin|].
  rewrite He, Hst, !String.eqb_refl. cbn [andb].
  apply registered_blocks. unfold is_registered. rewrite Hreg. reflexivity.
Qed.

Lemma on_unique_violation (constraint : string) :
  on_register_exception (unique_violation constraint) = DuplicateRegistration.
Proof.
  unfold on_register_exception.
  rewrite unique_violation_is_duplicate. reflexivity.
Qed.

Lemma deadline_passed_true (now d : Z) (info : EventInfo) :
  ei_registration_deadline info = Some d -> d < now ->
  deadline_passed now info = true.
Proof.
  intros H Hlt. unfold deadline_passed. rewrite H. apply Z.gtb_lt. lia.
Qed.

Lemma deadline_passed_false (now : Z) (info : EventInfo) :
  (forall d, ei_registration_deadline info = Some d -> now <= d) ->
  deadline_passed now info = false.
Proof.
  intros H. unfold deadline_passed.
  destruct (ei_registration_deadline info) as [d|]; [|reflexivity].
  specialize (H d eq_refl). destruct (now >? d) eqn:E; [|reflexivity].
  apply Z.gtb_lt in E. lia.
Qed.

Lemma at_capacity_true (c : Z) (info : EventInfo) :
  ei_max_capacity info = Some c -> 0 < c ->
  c <= ei_current_registrations info ->
  at_capacity info = true.
Proof.
  intros H Hpos Hle. unfold at_capacity. rewrite H.
  apply andb_true_iff. split.
  - apply negb_true_iff. apply Z.eqb_neq. lia.
  - apply Z.geb_le. lia.
Qed.

Lemma at_capacity_false (info : EventInfo) :
  (forall c, ei_max_capacity info = Some c -> ei_current_registrations info < c) ->
  at_capacity info = false.
Proof.
  intros H. unfold at_capacity.
  destruct (ei_max_capacity info) as [c|]; [|reflexivity].
  specialize (H c eq_refl). apply andb_false_iff. right.
  destruct (ei_current_registrations info >=? c) eqn:E; [|reflexivity].
  apply Z.geb_le in E. lia.
Qed.

Lemma status_active_false (status : string) :
  status <> "active" -> negb (status =? "active")%string = true.
Proof.
  intros H. apply negb_true_iff. apply String.eqb_neq. exact H.
Qed.

(** C1. [register_for_event] reads the event once and then applies its
    checks in a fixed order: the event exists (else the 404 "Event not
    found"), it is active (else "Event is not active for registration"),
    its deadline has not passed (else "Registration deadline has passed"),
    its registered-count is below its capacity (else "Event is at full
    capacity"), and last the insert meets the store's uniqueness constraint
    on the pair, which a registered registration of the pair violates (else
    the 409 "Student is already registered for this event").  Each exit answers with the error of the first check that
    fails, whatever the later checks would say, and leaves the store as it
    was; once every check passes, a registration of status registered,
    stamped by the store, is appended and returned with status 201. *)
Theorem register_checks_in_order
  (now ts : Z) (data : option RegistrationData) (w : World) :
  valid (validate_registration_data uuid_ok data) = true ->
  exists e st,
    data = register_request e st /\
    let out := register now ts data w in
    let s := db w in
    (find_event (Some e) s = None ->
       out = (EventNotFound, ran w [SelectEventInfo])) /\
    (forall ev, find_event (Some e) s = Some ev ->
       (ev_status ev <> "active" ->
          out = (EventInactive, ran w [SelectEventInfo])) /\
       (ev_status ev = "active" ->
          (forall d, ev_registration_deadline ev = Some d -> d < now ->
             out = (DeadlinePassed, ran w [SelectEventInfo])) /\
          ((forall d, ev_registration_deadline ev = Some d -> now <= d) ->
             (forall c, ev_max_capacity ev = Some c -> 0 < c ->
                c <= registered_count s e ->
                out = (CapacityExceeded, ran w [SelectEventInfo])) /\
             ((forall c, ev_max_capacity ev = Some c ->
                 registered_count s e < c) ->
                (registration_conflicts blocking s e st = true ->
                   out = (DuplicateRegistration,
                          ran w [SelectEventInfo; InsertRegistration])) /\
                ((exists r, In r (registrations s) /\
                            reg_event_id r = e /\ reg_student_id r = st /\
                            reg_status r = "registered") ->
                   out = (DuplicateRegistration,
                          ran w [SelectEventInfo; InsertRegistration])) /\
                (registration_conflicts blocking s e st = false ->
                 student_exists s st = true ->
                   let row := mkRegistration
                                (new_id (map reg_registration_id (registrations s)))
                                e st ts "registered" None None in
                   out = (jsonify (registration_json row) 201,
                          mkWorld
                            (with_registrations s (registrations s ++ [row])%list)
                            (executed w ++ [SelectEventInfo; InsertRegistration])%list)))))).
Proof.
  intros Hvalid.
  destruct (valid_registration_data data Hvalid) as (e & st & -> & _ & _).
  exists e, st. split; [reflexivity|].
  cbv zeta. rewrite (register_accepted now ts e st w Hvalid).
  split.
  - intros ->. reflexivity.
  - intros ev Hev. rewrite Hev. cbv zeta.
    destruct (find_event_some e (db w) ev Hev) as (Hid & _ & Hexists).
    rewrite Hid. split.
    + intros Hst. rewrite (status_active_false _ Hst). reflexivity.
    + intros Hst. rewrite Hst. cbn [String.eqb Ascii.eqb Bool.eqb negb].
      split.
      * intros d Hd Hlt.
        rewrite (deadline_passed_true now d); auto.
      * intros Hdl. rewrite deadline_passed_false by exact Hdl.
        split.
        -- intros c Hc Hpos Hfull.
           rewrite (at_capacity_true c); auto.
        -- intros Hroom. rewrite at_capacity_false by exact Hroom.
           split; [|split].
           ++ intros Hdup. rewrite insert_registration_conflict by exact Hdup.
              rewrite on_unique_violation. reflexivity.
           ++ intros Hdup. apply registered_pair_conflicts in Hdup.
              rewrite insert_registration_conflict by exact Hdup.
              rewrite on_unique_violation. reflexivity.
           ++ intros Hdup Hstu.
              rewrite insert_registration_row by assumption. reflexivity.
Qed.

Lemma on_register_exception_code (ex : Exception) :
  status_code (on_register_exception ex) <> 201.
Proof.
  unfold on_register_exception.
  destruct (contains duplicate_key (str ex)); simpl; lia.
Qed.

(** Every run of [register_for_event] either answers without touching the
    store, or has passed each check and appended the new row. *)
Lemma register_outcome (now ts : Z) (data : option RegistrationData) (w : World) :
  let out := register now ts data w in
  (status_code (fst out) <> 201 /\ db (snd out) = db w) \/
  (exists e st ev,
     data = register_request e st /\
     find_event (Some e) (db w) = Some ev /\
     ev_status ev = "active" /\
     (forall d, ev_registration_deadline ev = Some d -> now <= d) /\
     (forall c, ev_max_capacity ev = Some c -> c <> 0 ->
        registered_count (db w) e < c) /\
     registration_conflicts blocking (db w) e st = false /\
     student_exists (db w) st = true /\
     let row := mkRegistration
                  (new_id (map reg_registration_id (registrations (db w))))
                  e st ts "registered" None None in
     out = (jsonify (registration_json row) 201,
            mkWorld
              (with_registrations (db w) (registrations (db w) ++ [row])%list)
              (executed w ++ [SelectEventInfo; InsertRegistration])%list)).
Proof.
  cbv zeta.
  destruct (valid (validate_registration_data uuid_ok data)) eqn:Hvalid.
  2:{ left. rewrite register_rejected by exact Hvalid. simpl. split; [lia|reflexivity]. }
  destruct (valid_registration_data data Hvalid) as (e & st & -> & _ & _).
  rewrite (register_accepted now ts e st w Hvalid).
  destruct (find_event (Some e) (db w)) as [ev|] eqn:Hev.
  2:{ left. simpl. split; [lia|reflexivity]. }
  cbv zeta.
  destruct (find_event_some e (db w) ev Hev) as (Hid & _ & Hexists).
  rewrite Hid.
  destruct (ev_status ev =? "active")%string eqn:Hst; cbn [negb].
  2:{ left. simpl. split; [lia|reflexivity]. }
  apply String.eqb_eq in Hst.
  destruct (deadline_passed now _) eqn:Hdl.
  1:{ left. simpl. split; [lia|reflexivity]. }
  destruct (at_capacity _) eqn:Hcap.
  1:{ left. simpl. split; [lia|reflexivity]. }
  unfold insert_registration.
  destruct (registration_conflicts blocking (db w) e st) eqn:Hdup.
  1:{ left. split; [apply on_register_exception_code|reflexivity]. }
  rewrite Hexists. cbn [negb].
  destruct (student_exists (db w) st) eqn:Hstu; cbn [negb].
  2:{ left. split; [apply on_register_exception_code|reflexivity]. }
  right. exists e, st, ev. repeat split; auto.
  - intros d Hd. unfold deadline_passed in Hdl. simpl in Hdl. rewrite Hd in Hdl.
    destruct (now >? d) eqn:E; [discriminate|].
    rewrite Z.gtb_ltb in E. apply Z.ltb_ge in E. exact E.
  - intros c Hc Hnz. unfold at_capacity in Hcap. simpl in Hcap. rewrite Hc in Hcap.
    apply Z.eqb_neq in Hnz. rewrite Hnz in Hcap. simpl in Hcap.
    rewrite Z.geb_leb in Hcap. apply Z.leb_gt in Hcap. exact Hcap.
Qed.

(** ** Cancellation: [cancel_registration] *)

Local Abbreviation cancel := (cancel_registration).

Lemma cancel_run (ts : Z) (registration_id : string) (w : World) :
  cancel ts registration_id w =
  let rows := map (fun r => if cancels registration_id r then cancelled ts r else r)
                  (registrations (db w)) in
  (match hd_error (map (cancelled ts)
                       (filter (cancels registration_id) (registrations (db w)))) with
   | Some row => jsonify (cancelled_json "Registration cancelled successfully" row) 200
   | None => RegistrationNotFound
   end,
   mkWorld (with_registrations (db w) rows)
           (executed w ++ [UpdateRegistrationCancelled])%list).
Proof.
  unfold cancel_registration, try_except, bind, execute_query,
    update_registration_cancelled, ret.
  cbv zeta.
  destruct (hd_error _); reflexivity.
Qed.

(** ** Attendance: [mark_attendance] *)

Local Abbreviation mark := (mark_attendance new_id).

Lemma mark_without_key (ts : Z) (data : option AttendanceData) (w : World) :
  match data with
  | Some d => has_key (ad_registration_id d) = false
  | None => True
  end ->
  mark ts data w = (jsonify (error "Missing registration_id") 400, w).
Proof.
  unfold mark_attendance, try_except. destruct data as [d|]; intros H.
  - rewrite H. reflexivity.
  - reflexivity.
Qed.

(** The handler on a payload that has the key, one case per exit. *)
Lemma mark_run (ts : Z) (d : AttendanceData) (w : World) :
  has_key (ad_registration_id d) = true ->
  let rid := get (ad_registration_id d) in
  mark ts (Some d) w =
  match active_registration rid (db w) with
  | None => (RegistrationNotActive, ran w [SelectActiveRegistration])
  | Some reg =>
    if is_some (existing_attendance rid (db w))
    then (AlreadyCheckedIn,
          ran w [SelectActiveRegistration; SelectExistingAttendance])
    else
      let log := (executed w ++ [SelectActiveRegistration;
                                 SelectExistingAttendance; InsertAttendance])%list in
      match insert_attendance new_id ts rid
              (get_default (ad_check_in_method d) "manual") (db w) with
      | inr (Some row, s') =>
        (jsonify (attendance_json row (ar_event_title reg) (ar_student_name reg)) 201,
         mkWorld s' log)
      | inr (None, s') =>
        (jsonify (error "Failed to mark attendance") 500, mkWorld s' log)
      | inl ex => (jsonify (error (str ex)) 500, mkWorld (db w) log)
      end
  end.
Proof.
  intros Hkey. cbv zeta.
  unfold mark_attendance, try_except. rewrite Hkey. cbn [negb].
  unfold bind, lift, item, ret, execute_query, select_active_registration,
    select_existing_attendance, ran.
  assert (Hsub : subscript "registration_id" (ad_registration_id d) =
                 inr (get (ad_registration_id d))).
  { destruct (ad_registration_id d); try discriminate; reflexivity. }
  rewrite Hsub. cbn -[insert_attendance active_registration existing_attendance app].
  destruct (active_registration _ (db w)) as [reg|];
    cbn -[insert_attendance existing_attendance app]; [|reflexivity].
  destruct (is_some (existing_attendance _ (db w)));
    cbn -[insert_attendance app]; [rewrite <- app_assoc; reflexivity|].
  destruct (insert_attendance _ _ _ _ _) as [ex|[[row|] s']];
    cbn -[app]; rewrite <- !app_assoc; reflexivity.
Qed.

(** ** Feedback: [submit_feedback] *)

Local Abbreviation feedback := (submit_feedback uuid_ok).

Lemma feedback_rejected (ts : Z) (data : option FeedbackData) (w : World) :
  valid (validate_feedback_data uuid_ok data) = false ->
  feedback ts data w =
  (jsonify (error (message (validate_feedback_data uuid_ok data))) 400, w).
Proof.
  intros H. unfold submit_feedback, try_except. rewrite H. reflexivity.
Qed.

(** A payload the validator accepts carries an identifier and a rating
    from 1 to 5. *)
Lemma valid_feedback_data (data : option FeedbackData) :
  valid (validate_feedback_data uuid_ok data) = true ->
  exists d a r,
    data = Some d /\ fd_attendance_id d = Val a /\ fd_rating d = Val r /\
    uuid_ok a = true /\ 1 <= r <= 5.
Proof.
  unfold validate_feedback_data.
  destruct data as [d|]; [|discriminate].
  destruct d as [fa fr fc]. cbn [fd_attendance_id fd_rating fd_comment].
  destruct fa as [| |a]; try discriminate.
  destruct fr as [| |r]; try discriminate.
  cbn [first_missing missing_or_none has_value get negb str_of].
  destruct (uuid_ok a) eqn:Ha; cbn [negb]; [|discriminate].
  destruct (r <? 1) eqn:Hlo; [discriminate|].
  destruct (r >? 5) eqn:Hhi; [discriminate|].
  intros _. exists (mkFeedbackData (Val a) (Val r) fc), a, r.
  repeat split; auto.
  - apply Z.ltb_ge in Hlo. exact Hlo.
  - rewrite Z.gtb_ltb in Hhi. apply Z.ltb_ge in Hhi. exact Hhi.
Qed.

(** The handler on an accepted payload, one case per exit. *)
Lemma feedback_accepted (ts : Z) (d : FeedbackData) (a : string) (r : Z) (w : World) :
  valid (validate_feedback_data uuid_ok (Some d)) = true ->
  fd_attendance_id d = Val a -> fd_rating d = Val r ->
  let comment := get_default (fd_comment d) "" in
  let log := (executed w ++ [SelectAttendance; UpdateAttendanceFeedback])%list in
  let rows := map (fun x => if rated (Some a) x
                            then with_feedback ts (Some r) comment x else x)
                  (attendance (db w)) in
  feedback ts (Some d) w =
  match attendance_info (Some a) (db w) with
  | None => (AttendanceNotFound, ran w [SelectAttendance])
  | Some info =>
    match hd_error (map (with_feedback ts (Some r) comment)
                        (filter (rated (Some a)) (attendance (db w)))) with
    | Some row =>
      (jsonify (feedback_json row (ai_event_title info)) 200,
       mkWorld (with_attendance (db w) rows) log)
    | None =>
      (jsonify (error "Failed to submit feedback") 500,
       mkWorld (with_attendance (db w) rows) log)
    end
  end.
Proof.
  intros Hvalid Ha Hr. cbv zeta.
  unfold submit_feedback, try_except. rewrite Hvalid. cbn [negb].
  unfold bind, lift, item, ret, execute_query, select_attendance,
    update_attendance_feedback, ran.
  rewrite Ha, Hr. cbn -[attendance_info app rated].
  destruct (attendance_info (Some a) (db w)) as [info|];
    cbn -[app rated]; [|reflexivity].
  destruct (hd_error _); cbn -[app rated]; rewrite <- app_assoc; reflexivity.
Qed.

(** ** Every request is a step of the store *)

(** A pair the constraint lets through holds no registered registration. *)
Lemma no_conflict_no_registered (s : Store) (e st : string) :
  registration_conflicts blocking s e st = false -> registered_pairs s e st = 0.
Proof.
  intros H. unfold registered_pairs. rewrite filter_none; [reflexivity|].
  intros r Hin.
  destruct ((reg_event_id r =? e)%string && (reg_student_id r =? st)%string &&
            is_registered r) eqn:E; [|reflexivity].
  apply andb_true_iff in E. destruct E as [Hpair Hreg].
  assert (Hc : registration_conflicts blocking s e st = true).
  { apply existsb_exists. exists r. split; [exact Hin|].
    rewrite Hpair, (registered_blocks r Hreg). reflexivity. }
  congruence.
Qed.

Lemma handle_step (rq : Request) (w : World) :
  store_step (db w) (db (snd (handle uuid_ok new_id blocking rq w))).
Proof.
  destruct rq as [now ts data|ts rid|ts data|ts data]; cbn [handle].
  - destruct (register_outcome now ts data w) as [[_ Hdb]|H].
    + rewrite Hdb. constructor.
    + destruct H as (e & st & ev & -> & Hev & Hact & Hdl & Hcap & Hdup & Hstu & Hout).
      cbv zeta in Hout. rewrite Hout. cbn [snd db].
      apply (step_register (db w)
               (mkRegistration (new_id (map reg_registration_id (registrations (db w))))
                  e st ts "registered" None None));
        cbn [reg_event_id reg_student_id].
      * apply no_conflict_no_registered. exact Hdup.
      * apply (find_event_some e (db w) ev Hev).
      * exact Hstu.
      * intros ev' c Hev' Hc Hnz. rewrite Hev in Hev'. injection Hev' as <-.
        apply Hcap; assumption.
  - rewrite cancel_run. cbn [snd db]. constructor.
  - destruct data as [d|].
    2:{ rewrite mark_without_key by exact I. constructor. }
    destruct (has_key (ad_registration_id d)) eqn:Hkey.
    2:{ rewrite mark_without_key by exact Hkey. constructor. }
    rewrite (mark_run ts d w Hkey). cbv zeta.
    destruct (active_registration _ _); [|constructor].
    destruct (is_some _); [constructor|].
    unfold insert_attendance.
    destruct (get (ad_registration_id d)) as [r|]; [|constructor].
    destruct (attendance_conflicts (db w) r) eqn:Hc; [constructor|].
    destruct (registration_exists (db w) r) eqn:Hr; cbn [negb]; [|constructor].
    cbn [snd db].
    apply (step_attend (db w)
             (mkAttendance _ r ts _ None None None)); assumption.
  - destruct (valid (validate_feedback_data uuid_ok data)) eqn:Hvalid.
    2:{ rewrite feedback_rejected by exact Hvalid. constructor. }
    destruct (valid_feedback_data data Hvalid) as (d & a & r & -> & Ha & Hr & _ & _).
    rewrite (feedback_accepted ts d a r w Hvalid Ha Hr).
    destruct (attendance_info _ _); [|constructor].
    destruct (hd_error _); cbn [snd db]; constructor.
Qed.

(** ** Counting rows *)

Lemma existsb_false_filter {A : Type} (p : A -> bool) (l : list A) :
  existsb p l = false -> filter p l = [].
Proof.
  intros H. apply filter_none. intros x Hx.
  destruct (p x) eqn:E; [|reflexivity].
  assert (existsb p l = true) by (apply existsb_exists; exists x; auto).
  congruence.
Qed.

Lemma filter_map_le {A : Type} (p : A -> bool) (f : A -> A) (l : list A) :
  (forall x, p (f x) = true -> p x = true) ->
  (List.length (filter p (map f l)) <= List.length (filter p l))%nat.
Proof.
  intros H. induction l as [|a l IH]; simpl.
  - lia.
  - destruct (p (f a)) eqn:E.
    + rewrite (H a E). simpl. lia.
    + destruct (p a); simpl; lia.
Qed.

Lemma filter_map_same {A : Type} (p : A -> bool) (f : A -> A) (l : list A) :
  (forall x, p (f x) = p x) ->
  List.length (filter p (map f l)) = List.length (filter p l).
Proof.
  intros H. induction l as [|a l IH]; simpl.
  - reflexivity.
  - rewrite H. destruct (p a); simpl; rewrite IH; reflexivity.
Qed.

Lemma existsb_map_same {A : Type} (p : A -> bool) (f : A -> A) (l : list A) :
  (forall x, p (f x) = p x) -> existsb p (map f l) = existsb p l.
Proof.
  intros H. induction l as [|a l IH]; simpl.
  - reflexivity.
  - rewrite H, IH. reflexivity.
Qed.

Lemma cancelled_not_registered (ts : Z) (r : Registration) :
  is_registered (cancelled ts r) = false.
Proof. reflexivity. Qed.

(** Cancelling never adds a row to a selection that asks for the status
    registered. *)
Lemma cancel_shrinks (ts : Z) (rid : string) (q : Registration -> bool)
  (l : list Registration) :
  (forall r, q (cancelled ts r) = q r) ->
  (List.length
     (filter (fun r => q r && is_registered r)
        (map (fun r => if cancels rid r then cancelled ts r else r) l))
   <= List.length (filter (fun r => q r && is_registered r) l))%nat.
Proof.
  intros Hq. apply filter_map_le. intros r.
  destruct (cancels rid r); [|auto].
  rewrite cancelled_not_registered, andb_false_r. discriminate.
Qed.

(** ** Invariants of the store *)

Lemma capacity_respected_step (s s' : Store) :
  store_step s s' -> capacity_respected s -> capacity_respected s'.
Proof.
  intros Hstep Hinv. destruct Hstep as [|row Hdup Hev Hstu Hroom|ts rid|row Hc Hr|ts rt cm aid];
    try exact Hinv.
  - intros e ev c Hfind Hc Hpos.
    change (find_event (Some e) s = Some ev) in Hfind.
    unfold registered_count. cbn [registrations with_registrations].
    rewrite filter_length_app.
    destruct ((reg_event_id row =? e)%string && is_registered row) eqn:E.
    + apply andb_true_iff in E. destruct E as [E _].
      apply String.eqb_eq in E. subst e.
      assert (registered_count s (reg_event_id row) < c)
        by (apply (Hroom ev c); auto; lia).
      unfold registered_count in H. lia.
    + specialize (Hinv e ev c Hfind Hc Hpos). unfold registered_count in Hinv. lia.
  - intros e ev c Hfind Hc Hpos.
    change (find_event (Some e) s = Some ev) in Hfind.
    specialize (Hinv e ev c Hfind Hc Hpos).
    unfold registered_count in *. cbn [registrations with_registrations].
    pose proof (cancel_shrinks ts rid (fun r => (reg_event_id r =? e)%string)
                  (registrations s) (fun r => eq_refl)).
    lia.
Qed.

Lemma unique_registered_step (s s' : Store) :
  store_step s s' -> unique_registered s -> unique_registered s'.
Proof.
  intros Hstep Hinv. destruct Hstep as [|row Hdup Hev Hstu Hroom|ts rid|row Hc Hr|ts rt cm aid];
    try exact Hinv.
  - intros e st. unfold registered_pairs. cbn [registrations with_registrations].
    rewrite filter_length_app.
    destruct ((reg_event_id row =? e)%string && (reg_student_id row =? st)%string &&
              is_registered row) eqn:E.
    + apply andb_true_iff in E. destruct E as [E _].
      apply andb_true_iff in E. destruct E as [E1 E2].
      apply String.eqb_eq in E1, E2. subst e st.
      unfold registered_pairs in Hdup. lia.
    + specialize (Hinv e st). unfold registered_pairs in Hinv. lia.
  - intros e st. specialize (Hinv e st).
    unfold registered_pairs in *. cbn [registrations with_registrations].
    pose proof (cancel_shrinks ts rid
                  (fun r => (reg_event_id r =? e)%string &&
                            (reg_student_id r =? st)%string)
                  (registrations s) (fun r => eq_refl)).
    lia.
Qed.

Lemma one_attendance_step (s s' : Store) :
  store_step s s' -> one_attendance s -> one_attendance s'.
Proof.
  intros Hstep Hinv. destruct Hstep as [|row Hdup Hev Hstu Hroom|ts rid|row Hc Hr|ts rt cm aid];
    try exact Hinv.
  - intros r. unfold attendance_count. cbn [attendance with_attendance].
    rewrite filter_length_app.
    destruct (att_registration_id row =? r)%string eqn:E.
    + apply String.eqb_eq in E. subst r.
      unfold attendance_conflicts in Hc.
      rewrite (existsb_false_filter _ _ Hc). simpl. lia.
    + specialize (Hinv r). unfold attendance_count in Hinv. lia.
  - intros r. specialize (Hinv r).
    unfold attendance_count in *. cbn [attendance with_attendance].
    rewrite filter_map_same; [exact Hinv|].
    intros a. destruct (rated aid a); reflexivity.
Qed.

Lemma referential_integrity_step (s s' : Store) :
  store_step s s' -> referential_integrity s -> referential_integrity s'.
Proof.
  intros Hstep [Hreg Hatt].
  destruct Hstep as [|row Hdup Hev Hstu Hroom|ts rid|row Hc Hr|ts rt cm aid].
  - split; assumption.
  - split.
    + intros r Hin. cbn [registrations with_registrations] in Hin.
      apply in_app_or in Hin. destruct Hin as [Hin|[<-|[]]].
      * apply (Hreg r Hin).
      * split; assumption.
    + intros a Hin. specialize (Hatt a Hin).
      unfold registration_exists in *. cbn [registrations with_registrations].
      rewrite existsb_app, Hatt. reflexivity.
  - split.
    + intros r Hin. cbn [registrations with_registrations] in Hin.
      apply in_map_iff in Hin. destruct Hin as (r0 & <- & Hin0).
      destruct (cancels rid r0); apply (Hreg r0 Hin0).
    + intros a Hin. specialize (Hatt a Hin).
      unfold registration_exists in *. cbn [registrations with_registrations].
      rewrite existsb_map_same; [exact Hatt|].
      intros r. destruct (cancels rid r); reflexivity.
  - split.
    + exact Hreg.
    + intros a Hin. cbn [attendance with_attendance] in Hin.
      apply in_app_or in Hin. destruct Hin as [Hin|[<-|[]]].
      * apply (Hatt a Hin).
      * exact Hr.
  - split.
    + exact Hreg.
    + intros a Hin. cbn [attendance with_attendance] in Hin.
      apply in_map_iff in Hin. destruct Hin as (a0 & <- & Hin0).
      destruct (rated aid a0); apply (Hatt a0 Hin0).
Qed.

(** An invariant of every step holds after any sequence of requests. *)
Lemma serve_invariant (P : Store -> Prop) :
  (forall s s', store_step s s' -> P s -> P s') ->
  forall rqs w, P (db w) -> P (db (serve uuid_ok new_id blocking rqs w)).
Proof.
  intros Hstep rqs. induction rqs as [|rq rqs IH]; intros w Hw; cbn [serve].
  - exact Hw.
  - apply IH. apply (Hstep (db w)); [apply handle_step | exact Hw].
Qed.

(** ** The claims on admission *)

Lemma on_register_exception_not_400 (ex : Exception) :
  status_code (on_register_exception ex) <> 400.
Proof.
  unfold on_register_exception.
  destruct (contains duplicate_key (str ex)); simpl; lia.
Qed.

(** C2, amended. For an event of capacity C (a positive integer), an
    accepted request to register meets the capacity check with the count
    of registered registrations it reads: at a count of C or more the
    request fails and the store is unchanged, with "Event is at full
    capacity" once the event is active and within its deadline; a request
    succeeds only at a count strictly below C; and no sequence of
    registration, cancellation, attendance and feedback requests, served
    one at a time, takes any event's count above its capacity.  (The
    count can pass the capacity otherwise: [update_event] may set a
    capacity below it, and requests that read the count before each
    other's insert are all stored.) *)
Theorem capacity_never_exceeded
  (now ts : Z) (e st : string) (ev : Event) (C : Z) (w : World) :
  valid (validate_registration_data uuid_ok (register_request e st)) = true ->
  find_event (Some e) (db w) = Some ev ->
  ev_max_capacity ev = Some C ->
  0 < C ->
  let out := register now ts (register_request e st) w in
  let count := registered_count (db w) e in
  (C <= count ->
     status_code (fst out) <> 201 /\ db (snd out) = db w /\
     (ev_status ev = "active" ->
      (forall d, ev_registration_deadline ev = Some d -> now <= d) ->
      out = (CapacityExceeded, ran w [SelectEventInfo]))) /\
  (status_code (fst out) = 201 -> count < C) /\
  (forall rqs, capacity_respected (db w) ->
               capacity_respected (db (serve uuid_ok new_id blocking rqs w))).
Proof.
  intros Hvalid Hev HC Hpos. cbv zeta.
  assert (Hsuccess :
    status_code (fst (register now ts (register_request e st) w)) = 201 ->
    registered_count (db w) e < C).
  { intros Hcode.
    destruct (register_outcome now ts (register_request e st) w) as [[Hne _]|H].
    - contradiction.
    - destruct H as (e' & st' & ev' & Heq & Hev' & _ & _ & Hcap & _).
      unfold register_request in Heq. injection Heq as <- <-.
      rewrite Hev in Hev'. injection Hev' as <-.
      apply (Hcap C HC). lia. }
  split; [|split].
  - intros Hfull. split; [|split].
    + intros Hcode. specialize (Hsuccess Hcode). lia.
    + destruct (register_outcome now ts (register_request e st) w) as [[_ Hdb]|H].
      * exact Hdb.
      * destruct H as (e' & st' & ev' & Heq & Hev' & _ & _ & Hcap & _).
        unfold register_request in Heq. injection Heq as <- <-.
        rewrite Hev in Hev'. injection Hev' as <-.
        specialize (Hcap C HC). lia.
    + intros Hact Hdl.
      rewrite (register_accepted now ts e st w Hvalid), Hev. cbv zeta.
      destruct (find_event_some e (db w) ev Hev) as (Hid & _ & _).
      rewrite Hid, Hact. cbn [String.eqb Ascii.eqb Bool.eqb negb].
      rewrite deadline_passed_false by exact Hdl.
      rewrite (at_capacity_true C) by auto.
      reflexivity.
  - exact Hsuccess.
  - intros rqs. apply serve_invariant. exact capacity_respected_step.
Qed.

(** C4. For an event with a deadline, an accepted request made at a time
    up to and including the deadline never fails the deadline check, and at
    the deadline itself it is registered when the other checks pass; a
    request made at any later time to an active event fails with
    "Registration deadline has passed" and leaves the store unchanged. *)
Theorem deadline_boundary
  (now ts : Z) (e st : string) (ev : Event) (deadline : Z) (w : World) :
  valid (validate_registration_data uuid_ok (register_request e st)) = true ->
  find_event (Some e) (db w) = Some ev ->
  ev_registration_deadline ev = Some deadline ->
  let out := register now ts (register_request e st) w in
  (now <= deadline -> fst out <> DeadlinePassed) /\
  (now = deadline ->
   ev_status ev = "active" ->
   (forall c, ev_max_capacity ev = Some c -> registered_count (db w) e < c) ->
   registration_conflicts blocking (db w) e st = false ->
   student_exists (db w) st = true ->
   status_code (fst out) = 201) /\
  (deadline < now ->
   ev_status ev = "active" ->
   out = (DeadlinePassed, ran w [SelectEventInfo])).
Proof.
  intros Hvalid Hev Hdl. cbv zeta.
  rewrite (register_accepted now ts e st w Hvalid), Hev. cbv zeta.
  destruct (find_event_some e (db w) ev Hev) as (Hid & _ & Hexists).
  rewrite Hid.
  split; [|split].
  - intros Hle.
    destruct (negb (ev_status ev =? "active")%string); [discriminate|].
    rewrite deadline_passed_false.
    2:{ cbn. intros d Hd. rewrite Hdl in Hd. injection Hd as <-. exact Hle. }
    destruct (at_capacity _); [discriminate|].
    destruct (insert_registration _ _ _ _ _) as [ex|[[row|] s']];
      cbn [fst]; try discriminate.
    intros Heq. apply (on_register_exception_not_400 ex). rewrite Heq. reflexivity.
  - intros -> Hact Hroom Hdup Hstu.
    rewrite Hact. cbn [String.eqb Ascii.eqb Bool.eqb negb].
    rewrite deadline_passed_false.
    2:{ cbn. intros d Hd. rewrite Hdl in Hd. injection Hd as <-. lia. }
    rewrite at_capacity_false by exact Hroom.
    rewrite insert_registration_row by assumption. reflexivity.
  - intros Hlt Hact.
    rewrite Hact. cbn [String.eqb Ascii.eqb Bool.eqb negb].
    rewrite (deadline_passed_true now deadline); auto.
Qed.

Lemma cancels_true (rid : string) (r : Registration) :
  cancels rid r = true <->
  reg_registration_id r = rid /\ reg_status r = "registered".
Proof.
  unfold cancels, is_registered. rewrite andb_true_iff, !String.eqb_eq.
  reflexivity.
Qed.

Lemma cancels_false (rid : string) (r : Registration) :
  (reg_registration_id r = rid -> reg_status r <> "registered") ->
  cancels rid r = false.
Proof.
  intros H. destruct (cancels rid r) eqn:E; [|reflexivity].
  apply cancels_true in E. destruct E as [E1 E2]. destruct (H E1 E2).
Qed.

Lemma cancel_nothing (ts : Z) (rid : string) (w : World) :
  (forall r, In r (registrations (db w)) -> cancels rid r = false) ->
  cancel ts rid w = (RegistrationNotFound, ran w [UpdateRegistrationCancelled]).
Proof.
  intros H. rewrite cancel_run. cbv zeta.
  rewrite (filter_none _ _ H), (map_id_when _ _ _ H), with_registrations_same.
  reflexivity.
Qed.

(** C7. [cancel_registration] turns a registered registration into a
    cancelled one, stamped with the cancellation time and the reason
    "Cancelled by user", and answers 200; when no registration has the
    identifier, or the one that has it is not registered any more, it
    answers the 404 "Registration not found or already cancelled" and
    leaves every registration as it was; cancelling a second time is
    therefore rejected. *)
Theorem cancel_registration_contract (ts : Z) (rid : string) (w : World) :
  let out := cancel ts rid w in
  let rows := registrations (db w) in
  ((exists r, In r rows /\ reg_registration_id r = rid /\
              reg_status r = "registered") ->
   exists r,
     In r rows /\ reg_registration_id r = rid /\ reg_status r = "registered" /\
     fst out = jsonify (cancelled_json "Registration cancelled successfully"
                          (cancelled ts r)) 200 /\
     reg_status (cancelled ts r) = "cancelled" /\
     reg_cancelled_at (cancelled ts r) = Some ts /\
     reg_cancellation_reason (cancelled ts r) = Some "Cancelled by user" /\
     registrations (db (snd out)) =
       map (fun x => if cancels rid x then cancelled ts x else x) rows) /\
  ((forall r, In r rows -> reg_registration_id r = rid ->
              reg_status r <> "registered") ->
   out = (RegistrationNotFound, ran w [UpdateRegistrationCancelled])) /\
  (forall ts',
     cancel ts' rid (snd out) =
     (RegistrationNotFound, ran (snd out) [UpdateRegistrationCancelled])).
Proof.
  cbv zeta. split; [|split].
  - intros (r & Hin & Hid & Hst).
    rewrite cancel_run. cbv zeta. cbn [fst snd db registrations with_registrations].
    assert (Hf : In r (filter (cancels rid) (registrations (db w)))).
    { apply filter_In. split; [exact Hin|]. apply cancels_true. auto. }
    destruct (filter (cancels rid) (registrations (db w))) as [|r0 rest] eqn:E.
    { destruct Hf. }
    assert (H0 : In r0 (filter (cancels rid) (registrations (db w)))).
    { rewrite E. left. reflexivity. }
    apply filter_In in H0. destruct H0 as [Hin0 Hc0].
    apply cancels_true in Hc0. destruct Hc0 as [Hid0 Hst0].
    exists r0. cbn [map hd_error]. repeat split; auto.
  - intros H. apply cancel_nothing. intros r Hin.
    apply cancels_false. apply H. exact Hin.
  - intros ts'. apply cancel_nothing.
    rewrite cancel_run. cbv zeta. cbn [snd db registrations with_registrations].
    intros r Hin. apply in_map_iff in Hin. destruct Hin as (r0 & <- & _).
    destruct (cancels rid r0) eqn:E; [|exact E].
    unfold cancels. rewrite cancelled_not_registered. apply andb_false_r.
Qed.

Lemma filter_one {A : Type} (p : A -> bool) (l : list A) (x : A) :
  In x l -> p x = true -> (1 <= List.length (filter p l))%nat.
Proof.
  intros Hin Hp.
  assert (H : In x (filter p l)) by (apply filter_In; auto).
  destruct (filter p l); [destruct H | simpl; lia].
Qed.

Lemma filter_two {A : Type} (p : A -> bool) (l : list A) (x y : A) :
  In x l -> In y l -> x <> y -> p x = true -> p y = true ->
  (2 <= List.length (filter p l))%nat.
Proof.
  induction l as [|a l IH]; intros Hx Hy Hne Hpx Hpy.
  - destruct Hx.
  - destruct Hx as [->|Hx], Hy as [->|Hy].
    + congruence.
    + simpl. rewrite Hpx. simpl. pose proof (filter_one p l y Hy Hpy). lia.
    + simpl. rewrite Hpy. simpl. pose proof (filter_one p l x Hx Hpx). lia.
    + simpl. pose proof (IH Hx Hy Hne Hpx Hpy). destruct (p a); simpl; lia.
Qed.

(** When only registered registrations block, cancelling the registered
    registration of a pair frees the pair, and the cancelled row is still
    stored. *)
Lemma cancel_frees_pair (ts : Z) (r : Registration) (w : World) :
  (forall x, blocking x = true -> is_registered x = true) ->
  unique_registered (db w) ->
  In r (registrations (db w)) ->
  reg_status r = "registered" ->
  let w' := snd (cancel ts (reg_registration_id r) w) in
  registration_conflicts blocking (db w') (reg_event_id r) (reg_student_id r)
    = false /\
  In (cancelled ts r) (registrations (db w')).
Proof.
  intros Honly Huniq Hin Hst. cbv zeta. rewrite cancel_run. cbv zeta.
  cbn [snd db registrations with_registrations].
  assert (Hr : cancels (reg_registration_id r) r = true)
    by (apply cancels_true; auto).
  split.
  - unfold registration_conflicts.
    destruct (existsb _ _) eqn:E; [|reflexivity]. exfalso.
    apply existsb_exists in E. destruct E as (x & Hx & Hp).
    apply andb_true_iff in Hp. destruct Hp as [Hpair Hblock].
    apply Honly in Hblock.
    apply in_map_iff in Hx. destruct Hx as (r0 & <- & Hin0).
    destruct (cancels (reg_registration_id r) r0) eqn:Hc0.
    + rewrite cancelled_not_registered in Hblock. discriminate.
    + assert (Hne : r <> r0) by (intros ->; congruence).
      pose proof (filter_two
        (fun x => (reg_event_id x =? reg_event_id r)%string &&
                  (reg_student_id x =? reg_student_id r)%string && is_registered x)
        (registrations (db w)) r r0 Hin Hin0 Hne) as H2.
      specialize (Huniq (reg_event_id r) (reg_student_id r)).
      unfold registered_pairs in Huniq.
      assert (Hpr : (reg_event_id r =? reg_event_id r)%string &&
                    (reg_student_id r =? reg_student_id r)%string &&
                    is_registered r = true).
      { rewrite !String.eqb_refl. unfold is_registered. rewrite Hst. reflexivity. }
      assert (Hp0 : (reg_event_id r0 =? reg_event_id r)%string &&
                    (reg_student_id r0 =? reg_student_id r)%string &&
                    is_registered r0 = true).
      { rewrite Hpair, Hblock. reflexivity. }
      specialize (H2 Hpr Hp0). lia.
  - apply in_map_iff. exists r. rewrite Hr. auto.
Qed.

Lemma on_foreign_key_violation (constraint : string) :
  constraint = "registrations_event_id_fkey" \/
  constraint = "registrations_student_id_fkey" ->
  status_code (on_register_exception
                 (foreign_key_violation "registrations" constraint)) = 500.
Proof. intros [->| ->]; vm_compute; reflexivity. Qed.

Lemma log_grows_by_two (l : list Statement) (a b : Statement) :
  l <> (l ++ [a; b])%list.
Proof.
  intros H. apply (f_equal (@List.length Statement)) in H.
  rewrite length_app in H. simpl in H. lia.
Qed.

Lemma log_one_not_two (l : list Statement) (a b c : Statement) :
  (l ++ [a])%list <> (l ++ [b; c])%list.
Proof.
  intros H. apply app_inv_head in H. discriminate.
Qed.

(** The identifier the store assigns is not in use. *)
Hypothesis new_id_fresh : forall ids, ~ In (new_id ids) ids.

(** C3. No pair (event, student) ever holds two registrations of status
    registered.  [register_for_event] answers the 409 "Student is already
    registered for this event" exactly when its insert ran and met the
    uniqueness constraint of the pair.  A request succeeds only while the
    pair holds no registered registration, and then appends a registration
    with an identifier of its own, leaving the stored ones, cancelled or
    not, as they were.  Where the constraint is scoped to registered
    registrations, cancelling the registered registration of a pair frees
    the pair and keeps the cancelled row. *)
Theorem one_registration_per_pair
  (now ts : Z) (data : option RegistrationData) (w : World) :
  let out := register now ts data w in
  (forall rqs, unique_registered (db w) ->
               unique_registered (db (serve uuid_ok new_id blocking rqs w))) /\
  (fst out = DuplicateRegistration <->
   exists e st,
     data = register_request e st /\
     executed (snd out) = (executed w ++ [SelectEventInfo; InsertRegistration])%list /\
     registration_conflicts blocking (db w) e st = true) /\
  (status_code (fst out) = 201 ->
   exists e st row,
     data = register_request e st /\
     registration_conflicts blocking (db w) e st = false /\
     registered_pairs (db w) e st = 0 /\
     fst out = jsonify (registration_json row) 201 /\
     reg_event_id row = e /\ reg_student_id row = st /\
     reg_status row = "registered" /\
     registrations (db (snd out)) = (registrations (db w) ++ [row])%list /\
     ~ In (reg_registration_id row)
          (map reg_registration_id (registrations (db w)))) /\
  ((forall x, blocking x = true -> is_registered x = true) ->
   forall r ts',
     unique_registered (db w) ->
     In r (registrations (db w)) ->
     reg_status r = "registered" ->
     let w' := snd (cancel ts' (reg_registration_id r) w) in
     registration_conflicts blocking (db w') (reg_event_id r) (reg_student_id r)
       = false /\
     In (cancelled ts' r) (registrations (db w'))).
Proof.
  cbv zeta. split; [|split; [|split]].
  - intros rqs. apply serve_invariant. exact unique_registered_step.
  - destruct (valid (validate_registration_data uuid_ok data)) eqn:Hvalid.
    2:{ rewrite register_rejected by exact Hvalid. cbn [fst snd]. split.
        - discriminate.
        - intros (e & st & _ & Hlog & _). destruct (log_grows_by_two _ _ _ Hlog). }
    destruct (valid_registration_data data Hvalid) as (e & st & -> & _ & _).
    rewrite (register_accepted now ts e st w Hvalid).
    assert (Hinj : forall e' st' (P : Prop),
              register_request e st = register_request e' st' ->
              (e' = e -> st' = st -> P) -> P).
    { intros e' st' P Heq HP. unfold register_request in Heq.
      injection Heq as <- <-. apply HP; reflexivity. }
    destruct (find_event (Some e) (db w)) as [ev|] eqn:Hev.
    2:{ cbn [fst snd ran executed]. split; [discriminate|].
        intros (e' & st' & _ & Hlog & _). destruct (log_one_not_two _ _ _ _ Hlog). }
    cbv zeta.
    destruct (find_event_some e (db w) ev Hev) as (_ & _ & Hexists).
    destruct (negb (ev_status ev =? "active")%string).
    1:{ cbn [fst snd ran executed]. split; [discriminate|].
        intros (e' & st' & _ & Hlog & _). destruct (log_one_not_two _ _ _ _ Hlog). }
    destruct (deadline_passed now _).
    1:{ cbn [fst snd ran executed]. split; [discriminate|].
        intros (e' & st' & _ & Hlog & _). destruct (log_one_not_two _ _ _ _ Hlog). }
    destruct (at_capacity _).
    1:{ cbn [fst snd ran executed]. split; [discriminate|].
        intros (e' & st' & _ & Hlog & _). destruct (log_one_not_two _ _ _ _ Hlog). }
    unfold insert_registration.
    destruct (registration_conflicts blocking (db w) e st) eqn:Hdup.
    1:{ rewrite on_unique_violation. cbn [fst snd ran executed]. split.
        - intros _. exists e, st. auto.
        - reflexivity. }
    assert (Hno : forall e' st',
              register_request e st = register_request e' st' ->
              registration_conflicts blocking (db w) e' st' = true -> False).
    { intros e' st' Heq Hc. apply (Hinj e' st' False Heq).
      intros -> ->. congruence. }
    rewrite Hexists. cbn [negb].
    destruct (student_exists (db w) st); cbn [negb fst].
    + split; [discriminate|].
      intros (e' & st' & Heq & _ & Hc). destruct (Hno e' st' Heq Hc).
    + split.
      * intros Heq.
        pose proof (on_foreign_key_violation "registrations_student_id_fkey"
                      (or_intror eq_refl)) as Hcode.
        rewrite Heq in Hcode. discriminate.
      * intros (e' & st' & Heq & _ & Hc). destruct (Hno e' st' Heq Hc).
  - intros Hcode.
    destruct (register_outcome now ts data w) as [[Hne _]|H]; [contradiction|].
    destruct H as (e & st & ev & -> & _ & _ & _ & _ & Hdup & _ & Hout).
    cbv zeta in Hout. rewrite Hout. cbn [fst snd db registrations with_registrations].
    eexists e, st, _. repeat split; try reflexivity; auto.
    + apply no_conflict_no_registered. exact Hdup.
    + cbn [reg_registration_id]. apply new_id_fresh.
  - intros Honly r ts' Huniq Hin Hst. apply cancel_frees_pair; assumption.
Qed.

(** ** The claims on attendance *)

Lemma is_some_find {A : Type} (p : A -> bool) (l : list A) :
  is_some (find p l) = existsb p l.
Proof.
  induction l as [|a l IH]; simpl.
  - reflexivity.
  - destruct (p a); [reflexivity | exact IH].
Qed.

Lemma existsb_find {A : Type} (p : A -> bool) (l : list A) :
  existsb p l = true -> exists x, find p l = Some x /\ p x = true.
Proof.
  intros H. rewrite <- is_some_find in H.
  destruct (find p l) as [x|] eqn:E; [|discriminate].
  exists x. split; [reflexivity|]. apply (find_some _ _ E).
Qed.

Lemma active_registration_none (rid : string) (s : Store) :
  (forall r, In r (registrations s) -> reg_registration_id r = rid ->
             reg_status r <> "registered") ->
  active_registration (Some rid) s = None.
Proof.
  intros H. unfold active_registration.
  replace (find _ (registrations s)) with (@None Registration); [reflexivity|].
  symmetry. apply find_none_iff. intros r Hin.
  cbn [eq_param]. unfold is_registered.
  destruct (reg_registration_id r =? rid)%string eqn:E1; [|reflexivity].
  destruct (reg_status r =? "registered")%string eqn:E2; [|reflexivity].
  apply String.eqb_eq in E1, E2. destruct (H r Hin E1 E2).
Qed.

Lemma active_registration_some (rid : string) (s : Store) :
  referential_integrity s ->
  (exists r, In r (registrations s) /\ reg_registration_id r = rid /\
             reg_status r = "registered") ->
  exists reg, active_registration (Some rid) s = Some reg.
Proof.
  intros [Hreg _] (r & Hin & Hid & Hst). unfold active_registration.
  destruct (Hreg r Hin) as [He Hs].
  assert (Hex : existsb
    (fun r0 => eq_param (reg_registration_id r0) (Some rid) && is_registered r0 &&
               event_exists s (reg_event_id r0) &&
               student_exists s (reg_student_id r0)) (registrations s) = true).
  { apply existsb_exists. exists r. split; [exact Hin|].
    cbn [eq_param]. unfold is_registered.
    rewrite Hid, Hst, String.eqb_refl, He, Hs. reflexivity. }
  apply existsb_find in Hex. destruct Hex as (r0 & -> & Hp).
  apply andb_true_iff in Hp. destruct Hp as [Hp Hs0].
  apply andb_true_iff in Hp. destruct Hp as [_ He0].
  apply existsb_find in He0. destruct He0 as (e0 & -> & _).
  apply existsb_find in Hs0. destruct Hs0 as (s0 & -> & _).
  eexists. reflexivity.
Qed.

Lemma existing_attendance_conflicts (rid : string) (s : Store) :
  is_some (existing_attendance (Some rid) s) = attendance_conflicts s rid.
Proof. unfold existing_attendance, attendance_conflicts. apply is_some_find. Qed.

Lemma attendance_conflicts_true (rid : string) (s : Store) :
  (exists a, In a (attendance s) /\ att_registration_id a = rid) ->
  attendance_conflicts s rid = true.
Proof.
  intros (a & Hin & Hid). apply existsb_exists. exists a.
  split; [exact Hin|]. apply String.eqb_eq. exact Hid.
Qed.

Lemma attendance_conflicts_false (rid : string) (s : Store) :
  (forall a, In a (attendance s) -> att_registration_id a <> rid) ->
  attendance_conflicts s rid = false.
Proof.
  intros H. destruct (attendance_conflicts s rid) eqn:E; [|reflexivity].
  apply existsb_exists in E. destruct E as (a & Hin & Hid).
  apply String.eqb_eq in Hid. destruct (H a Hin Hid).
Qed.

Lemma registration_exists_true (rid : string) (s : Store) :
  (exists r, In r (registrations s) /\ reg_registration_id r = rid) ->
  registration_exists s rid = true.
Proof.
  intros (r & Hin & Hid). apply existsb_exists. exists r.
  split; [exact Hin|]. apply String.eqb_eq. exact Hid.
Qed.

(** C5. [mark_attendance] answers the 404 "Registration not found or not
    active" when no registration has the identifier or the one that has it
    is not registered; for a registered registration it answers the 409
    "Student is already checked in for this event" when an attendance row
    exists, and otherwise appends exactly one attendance row stamped by the
    store and answers 201, after which a second call for the same
    registration answers the 409; no sequence of requests gives a
    registration more than one attendance row. *)
Theorem mark_attendance_contract
  (ts : Z) (d : AttendanceData) (rid : string) (w : World) :
  ad_registration_id d = Val rid ->
  let out := mark ts (Some d) w in
  let s := db w in
  ((forall r, In r (registrations s) -> reg_registration_id r = rid ->
              reg_status r <> "registered") ->
   out = (RegistrationNotActive, ran w [SelectActiveRegistration])) /\
  (referential_integrity s ->
   (exists r, In r (registrations s) /\ reg_registration_id r = rid /\
              reg_status r = "registered") ->
   ((exists a, In a (attendance s) /\ att_registration_id a = rid) ->
    out = (AlreadyCheckedIn,
           ran w [SelectActiveRegistration; SelectExistingAttendance])) /\
   ((forall a, In a (attendance s) -> att_registration_id a <> rid) ->
    exists title name,
      let row := mkAttendance (new_id (map att_attendance_id (attendance s)))
                   rid ts (get_default (ad_check_in_method d) "manual")
                   None None None in
      out = (jsonify (attendance_json row title name) 201,
             mkWorld (with_attendance s (attendance s ++ [row])%list)
                     (executed w ++ [SelectActiveRegistration;
                                     SelectExistingAttendance;
                                     InsertAttendance])%list) /\
      forall ts' d',
        ad_registration_id d' = Val rid ->
        mark ts' (Some d') (snd out) =
        (AlreadyCheckedIn,
         ran (snd out) [SelectActiveRegistration; SelectExistingAttendance]))) /\
  (forall rqs, one_attendance (db w) ->
               one_attendance (db (serve uuid_ok new_id blocking rqs w))).
Proof.
  intros Hd. cbv zeta.
  assert (Hkey : has_key (ad_registration_id d) = true) by (rewrite Hd; reflexivity).
  rewrite (mark_run ts d w Hkey). cbv zeta. rewrite Hd. cbn [get].
  split; [|split].
  - intros Hnone. rewrite active_registration_none by exact Hnone. reflexivity.
  - intros Hri Hreg.
    destruct (active_registration_some rid (db w) Hri Hreg) as (reg & Hactive).
    rewrite Hactive. rewrite existing_attendance_conflicts. split.
    + intros Hatt. rewrite attendance_conflicts_true by exact Hatt. reflexivity.
    + intros Hatt. rewrite attendance_conflicts_false by exact Hatt.
      unfold insert_attendance.
      rewrite attendance_conflicts_false by exact Hatt.
      rewrite registration_exists_true.
      2:{ destruct Hreg as (r & Hin & Hid & _). exists r. auto. }
      cbn [negb]. exists (ar_event_title reg), (ar_student_name reg).
      split; [reflexivity|].
      intros ts' d' Hd'.
      assert (Hkey' : has_key (ad_registration_id d') = true)
        by (rewrite Hd'; reflexivity).
      rewrite (mark_run ts' d' _ Hkey'). cbv zeta. rewrite Hd'.
      cbn [get snd db].
      change (active_registration (Some rid) (with_attendance (db w) _))
        with (active_registration (Some rid) (db w)).
      rewrite Hactive, existing_attendance_conflicts.
      rewrite attendance_conflicts_true; [reflexivity|].
      eexists. split.
      * cbn [attendance with_attendance]. apply in_or_app. right. left. reflexivity.
      * reflexivity.
  - intros rqs. apply serve_invariant. exact one_attendance_step.
Qed.

(** ** The claims on feedback *)

Lemma attendance_info_none (a : string) (s : Store) :
  (forall x, In x (attendance s) -> att_attendance_id x <> a) ->
  attendance_info (Some a) s = None.
Proof.
  intros H. unfold attendance_info.
  replace (find _ (attendance s)) with (@None Attendance); [reflexivity|].
  symmetry. apply find_none_iff. intros x Hin. cbn [eq_param].
  destruct (att_attendance_id x =? a)%string eqn:E; [|reflexivity].
  apply String.eqb_eq in E. destruct (H x Hin E).
Qed.

Lemma joined_attendance_some (s : Store) (x : Attendance) :
  referential_integrity s -> In x (attendance s) ->
  exists info, joined_attendance s x = Some info.
Proof.
  intros [Hreg Hatt] Hin. unfold joined_attendance.
  specialize (Hatt x Hin). unfold registration_exists in Hatt.
  apply existsb_find in Hatt. destruct Hatt as (r & Hr & _).
  rewrite Hr. apply find_some in Hr. destruct Hr as [Hrin _].
  destruct (Hreg r Hrin) as [He _]. unfold event_exists in He.
  apply existsb_find in He. destruct He as (e & -> & _).
  eexists. reflexivity.
Qed.

Lemma attendance_info_some (a : string) (s : Store) :
  referential_integrity s ->
  (exists x, In x (attendance s) /\ att_attendance_id x = a) ->
  exists info, attendance_info (Some a) s = Some info.
Proof.
  intros Hri (x & Hin & Hid). unfold attendance_info.
  assert (Hex : existsb
    (fun y => eq_param (att_attendance_id y) (Some a) &&
              is_some (joined_attendance s y)) (attendance s) = true).
  { apply existsb_exists. exists x. split; [exact Hin|].
    cbn [eq_param]. rewrite Hid, String.eqb_refl.
    destruct (joined_attendance_some s x Hri Hin) as (info & ->). reflexivity. }
  apply existsb_find in Hex. destruct Hex as (y & -> & Hp).
  apply andb_true_iff in Hp. destruct Hp as [_ Hj].
  destruct (joined_attendance s y) as [info|]; [|discriminate].
  exists info. reflexivity.
Qed.

(** The validator on a payload with a well-formed identifier and an
    out-of-range rating. *)
Lemma rating_out_of_range (a : string) (r : Z) (c : field string) :
  uuid_ok a = true -> r < 1 \/ 5 < r ->
  validate_feedback_data uuid_ok (Some (mkFeedbackData (Val a) (Val r) c)) =
  invalid "Rating must be between 1 and 5".
Proof.
  intros Ha Hr. unfold validate_feedback_data.
  cbn [fd_attendance_id fd_rating first_missing missing_or_none has_value get
       negb str_of].
  rewrite Ha. cbn [negb].
  replace ((r <? 1) || (r >? 5)) with true; [reflexivity|].
  symmetry. apply orb_true_iff. rewrite Z.ltb_lt, Z.gtb_lt. lia.
Qed.

(** The validator on a payload with a well-formed identifier and a rating in
    range: only the comment is left to decide. *)
Lemma rating_in_range (a : string) (r : Z) (c : field string) :
  uuid_ok a = true -> 1 <= r <= 5 ->
  validate_feedback_data uuid_ok (Some (mkFeedbackData (Val a) (Val r) c)) =
  let comment := match get c with Some x => x | None => "" end in
  if truthy_get c && (len comment >? 1000)
  then invalid "Comment must be 1000 characters or less"
  else if truthy_get c &&
          existsb (fun word => contains word (lower comment)) inappropriate_words
  then invalid "Comment contains inappropriate content"
  else ok "Valid feedback data".
Proof.
  intros Ha Hr. unfold validate_feedback_data.
  cbn [fd_attendance_id fd_rating fd_comment first_missing missing_or_none
       has_value get negb str_of].
  rewrite Ha. cbn [negb].
  replace ((r <? 1) || (r >? 5)) with false; [reflexivity|].
  symmetry. apply orb_false_iff. rewrite Z.ltb_ge, Z.gtb_ltb, Z.ltb_ge. lia.
Qed.

Lemma clean_comment_valid (a : string) (r : Z) (c : field string) :
  uuid_ok a = true -> 1 <= r <= 5 ->
  (forall text, c = Val text -> text <> "" ->
     len text <= 1000 /\
     existsb (fun word => contains word (lower text)) inappropriate_words = false) ->
  validate_feedback_data uuid_ok (Some (mkFeedbackData (Val a) (Val r) c)) =
  ok "Valid feedback data".
Proof.
  intros Ha Hr Hc. rewrite rating_in_range by assumption. cbv zeta.
  destruct c as [| |text]; try reflexivity.
  unfold truthy_get, truthy_str. cbn [get].
  destruct (text =? "")%string eqn:E; [reflexivity|].
  apply String.eqb_neq in E. destruct (Hc text eq_refl E) as [Hlen Hclean].
  cbn [negb andb]. rewrite Hclean.
  replace (len text >? 1000) with false; [reflexivity|].
  symmetry. rewrite Z.gtb_ltb. apply Z.ltb_ge. exact Hlen.
Qed.

(** C6. [submit_feedback] answers "Rating must be between 1 and 5" for
    every rating below 1 or above 5 (0 and 6 among them) without reaching
    the store; for a rating from 1 to 5 (1 and 5 among them) with an
    acceptable comment it answers the 404 "Attendance record not found"
    when no attendance row has the identifier, and otherwise writes the
    rating, the comment and the submission time over whatever the row held
    and answers 200. *)
Theorem submit_feedback_contract
  (ts : Z) (a : string) (r : Z) (c : field string) (w : World) :
  uuid_ok a = true ->
  let d := mkFeedbackData (Val a) (Val r) c in
  let out := feedback ts (Some d) w in
  let s := db w in
  let comment := get_default c "" in
  let overwrite := fun y => if rated (Some a) y
                            then with_feedback ts (Some r) comment y else y in
  (r < 1 \/ 5 < r -> out = (InvalidRating, w)) /\
  (1 <= r <= 5 ->
   (forall text, c = Val text -> text <> "" ->
      len text <= 1000 /\
      existsb (fun word => contains word (lower text)) inappropriate_words = false) ->
   ((forall x, In x (attendance s) -> att_attendance_id x <> a) ->
    out = (AttendanceNotFound, ran w [SelectAttendance])) /\
   (referential_integrity s ->
    (exists x, In x (attendance s) /\ att_attendance_id x = a) ->
    exists x title,
      In x (attendance s) /\ att_attendance_id x = a /\
      out = (jsonify (feedback_json (with_feedback ts (Some r) comment x) title) 200,
             mkWorld (with_attendance s (map overwrite (attendance s)))
                     (executed w ++ [SelectAttendance; UpdateAttendanceFeedback])%list) /\
      forall y, In y (attendance (db (snd out))) -> att_attendance_id y = a ->
        att_feedback_rating y = Some r /\
        att_feedback_comment y = comment /\
        att_feedback_submitted_at y = Some ts)).
Proof.
  intros Ha. cbv zeta. split.
  - intros Hr. rewrite feedback_rejected.
    + rewrite rating_out_of_range by assumption. reflexivity.
    + rewrite rating_out_of_range by assumption. reflexivity.
  - intros Hr Hc.
    assert (Hvalid : valid (validate_feedback_data uuid_ok
                              (Some (mkFeedbackData (Val a) (Val r) c))) = true).
    { rewrite clean_comment_valid by assumption. reflexivity. }
    rewrite (feedback_accepted ts _ a r w Hvalid eq_refl eq_refl).
    cbv zeta. cbn [fd_comment]. split.
    + intros Hnone. rewrite attendance_info_none by exact Hnone. reflexivity.
    + intros Hri Hex.
      destruct (attendance_info_some a (db w) Hri Hex) as (info & ->).
      destruct Hex as (x & Hin & Hid).
      assert (Hf : In x (filter (rated (Some a)) (attendance (db w)))).
      { apply filter_In. split; [exact Hin|]. unfold rated. cbn [eq_param].
        apply String.eqb_eq. exact Hid. }
      destruct (filter (rated (Some a)) (attendance (db w))) as [|x0 rest] eqn:E.
      { destruct Hf. }
      assert (H0 : In x0 (filter (rated (Some a)) (attendance (db w)))).
      { rewrite E. left. reflexivity. }
      apply filter_In in H0. destruct H0 as [Hin0 Hr0].
      unfold rated in Hr0. cbn [eq_param] in Hr0. apply String.eqb_eq in Hr0.
      cbn [map hd_error]. exists x0, (ai_event_title info).
      split; [exact Hin0|]. split; [exact Hr0|]. split; [reflexivity|].
      cbn [snd db attendance with_attendance].
      intros y Hy Hya. apply in_map_iff in Hy. destruct Hy as (y0 & <- & _).
      destruct (rated (Some a) y0) eqn:Er.
      * repeat split.
      * unfold rated in Er. cbn [eq_param] in Er.
        apply String.eqb_neq in Er. congruence.
Qed.



(** ** Validation before persistence *)

(** C8. The attendance route and the college route do not apply their
    validators.  On the payload [telepathy_check_in], which
    [validate_attendance_data] rejects, [mark_attendance] does not answer
    400: it runs its three statements against the store and appends an
    attendance row carrying the rejected method.  On the payload
    [short_college], which [validate_college_data] rejects,
    [create_college] runs its INSERT and stores the college. *)
Theorem validators_not_applied :
  (let out := mark 50 telepathy_check_in registered_world in
   valid (validate_attendance_data uuid_ok telepathy_check_in) = false /\
   executed (snd out) =
     [SelectActiveRegistration; SelectExistingAttendance; InsertAttendance] /\
   status_code (fst out) = 201 /\
   exists row,
     attendance (db (snd out)) = [row] /\
     att_registration_id row = registration_1 /\
     att_check_in_method row = Some "telepathy") /\
  (let out := create_college new_id 50 short_college sample_world in
   valid (validate_college_data re_match re_sub short_college) = false /\
   executed (snd out) = [InsertCollege] /\
   status_code (fst out) = 201 /\
   exists row,
     colleges (db (snd out)) = [row] /\
     col_name row = "X" /\ col_code row = "A").
Proof.
  split.
  - cbv zeta. split; [|split; [|split]].
    + unfold validate_attendance_data, telepathy_check_in.
      cbn [ad_registration_id ad_check_in_method get str_of].
      destruct (uuid_ok registration_1); reflexivity.
    + reflexivity.
    + reflexivity.
    + eexists. repeat split.
  - cbv zeta. split; [|split; [|split]].
    + reflexivity.
    + reflexivity.
    + reflexivity.
    + eexists. repeat split.
Qed.

End Theory.

(** ** Event validation: the deadline rule *)

Section EventRules.

Variable fromisoformat : string -> option datetime.

Local Abbreviation validate_event := (validate_event_data fromisoformat).

Lemma truthy_str_true (s : string) : s <> "" -> truthy_str s = true.
Proof.
  intros H. unfold truthy_str. apply negb_true_iff. apply String.eqb_neq. exact H.
Qed.

(** The deadline block once the deadline parses and compares. *)
Lemma validate_event_deadline_run
  (d : EventData) (dl : string) (start_dt deadline_dt : datetime) :
  ed_registration_deadline d = Val dl -> dl <> "" ->
  fromisoformat (replace_Z dl) = Some deadline_dt ->
  same_kind deadline_dt start_dt = true ->
  validate_event_deadline fromisoformat d start_dt =
  if instant deadline_dt >? instant start_dt
  then inr (invalid deadline_message)
  else inr (validate_event_rest d).
Proof.
  intros Hdl Hne Hparse Hkind. unfold validate_event_deadline.
  rewrite Hdl. unfold truthy_get. cbn [get str_of].
  rewrite (truthy_str_true dl Hne), Hparse.
  unfold dt_compare. rewrite Hkind.
  destruct (Z.compare_spec (instant deadline_dt) (instant start_dt)) as [E|E|E];
    cbn [is_gt];
    destruct (instant deadline_dt >? instant start_dt) eqn:G; try reflexivity;
    rewrite Z.gtb_ltb in G;
    [apply Z.ltb_lt in G | apply Z.ltb_lt in G | apply Z.ltb_ge in G]; lia.
Qed.

(** Event data that is valid without its deadline reaches the deadline
    block with its parsed start time. *)
Lemma validate_event_reaches_deadline
  (now : Z) (d : EventData) (is_update : bool) (s : string) (start_dt : datetime) :
  validate_event now (Some (without_deadline d)) is_update =
    inr (ok "Valid event data") ->
  ed_start_datetime d = Val s ->
  fromisoformat (replace_Z s) = Some start_dt ->
  validate_event now (Some d) is_update =
    validate_event_deadline fromisoformat d start_dt /\
  validate_event_rest d = ok "Valid event data".
Proof.
  intros Hvalid Hs Hparse.
  destruct d as [college title descr etype start_f end_f loc cap dl].
  cbn [ed_start_datetime] in Hs. subst start_f.
  unfold validate_event_data, without_deadline in *.
  cbn [ed_college_id ed_title ed_description ed_event_type ed_start_datetime
       ed_end_datetime ed_location ed_max_capacity ed_registration_deadline
       get str_of] in *.
  rewrite Hparse in *.
  destruct (first_missing _); [discriminate|].
  destruct (negb (str_in _ valid_event_types)); [discriminate|].
  destruct (len _ >? 200); [discriminate|].
  destruct (fromisoformat (replace_Z (str_of (get end_f)))) as [end_dt|];
    [|discriminate].
  destruct (dt_compare end_dt start_dt) as [ex|c]; [discriminate|].
  destruct (is_le c); [discriminate|].
  destruct (dt_compare start_dt _) as [ex|c']; [discriminate|].
  destruct (is_lt c'); [discriminate|].
  split; [reflexivity|].
  unfold validate_event_deadline in Hvalid. cbn in Hvalid.
  injection Hvalid as Hrest. exact Hrest.
Qed.

(** Event data the validator accepts has no capacity or a capacity from 1
    to 10000: the stored capacity of an event is never zero. *)
Lemma valid_event_capacity (d : EventData) (c : Z) :
  validate_event_rest d = ok "Valid event data" ->
  get (ed_max_capacity d) = Some c ->
  1 <= c <= 10000.
Proof.
  unfold validate_event_rest, has_value. intros H Hc. rewrite Hc in H.
  cbn [andb] in H.
  destruct (c <=? 0) eqn:Hlo; [discriminate|].
  destruct (c >? 10000) eqn:Hhi; [discriminate|].
  apply Z.leb_gt in Hlo. rewrite Z.gtb_ltb in Hhi. apply Z.ltb_ge in Hhi. lia.
Qed.

(** C9. For event data that is valid without its registration deadline,
    [validate_event_data] rejects the data with "Registration deadline must
    be before event start time" when the deadline is after the start time,
    and accepts it when the deadline is at or before the start time: the
    rule is deadline <= start, and a deadline equal to the start time is
    accepted. *)
Theorem deadline_not_after_start
  (now : Z) (d : EventData) (is_update : bool) (s dl : string)
  (start_dt deadline_dt : datetime) :
  validate_event now (Some (without_deadline d)) is_update =
    inr (ok "Valid event data") ->
  ed_start_datetime d = Val s ->
  fromisoformat (replace_Z s) = Some start_dt ->
  ed_registration_deadline d = Val dl ->
  dl <> "" ->
  fromisoformat (replace_Z dl) = Some deadline_dt ->
  same_kind deadline_dt start_dt = true ->
  (instant start_dt < instant deadline_dt ->
     validate_event now (Some d) is_update = inr (invalid deadline_message)) /\
  (instant deadline_dt <= instant start_dt ->
     validate_event now (Some d) is_update = inr (ok "Valid event data")) /\
  (instant deadline_dt = instant start_dt ->
     validate_event now (Some d) is_update = inr (ok "Valid event data")).
Proof.
  intros Hvalid Hs Hstart Hdl Hne Hdeadline Hkind.
  destruct (validate_event_reaches_deadline now d is_update s start_dt
              Hvalid Hs Hstart) as [-> Hrest].
  rewrite (validate_event_deadline_run d dl start_dt deadline_dt
             Hdl Hne Hdeadline Hkind), Hrest.
  assert (Hle : instant deadline_dt <= instant start_dt ->
                (instant deadline_dt >? instant start_dt) = false).
  { intros H. rewrite Z.gtb_ltb. apply Z.ltb_ge. exact H. }
  split; [|split].
  - intros Hgt. replace (instant deadline_dt >? instant start_dt) with true.
    + reflexivity.
    + symmetry. apply Z.gtb_lt. lia.
  - intros H. rewrite (Hle H). reflexivity.
  - intros H. rewrite Hle by lia. reflexivity.
Qed.

End EventRules.

(* ================================================================== *)
(** * The theorems on the sample data *)

Lemma longest_bound (ids : list string) (x : string) :
  In x ids -> (String.length x <= longest ids)%nat.
Proof.
  induction ids as [|a ids IH]; simpl; intros H.
  - destruct H.
  - destruct H as [->|H]; [lia|]. specialize (IH H). lia.
Qed.

Lemma zeros_length (n : nat) : String.length (zeros n) = n.
Proof. induction n as [|n IH]; simpl; [reflexivity | rewrite IH; reflexivity]. Qed.

Lemma sample_new_id_fresh (ids : list string) : ~ In (sample_new_id ids) ids.
Proof.
  intros H. apply longest_bound in H. unfold sample_new_id in H.
  rewrite zeros_length in H. lia.
Qed.

Lemma sample_store_integrity : referential_integrity (db attended_world).
Proof.
  split.
  - intros r [<-|[]]. split; reflexivity.
  - intros a [<-|[]]. reflexivity.
Qed.

(** C1 on the sample world: student A is registered at time 30, with the
    first identifier the store hands out. *)
Lemma register_checks_in_order_witness :
  (forall r, is_registered r = true -> registered_rows_block r = true) /\
  valid (validate_registration_data sample_uuid_ok
           (register_request event_1 student_a)) = true /\
  fst (register_for_event sample_uuid_ok sample_new_id registered_rows_block 30 31
         (register_request event_1 student_a) sample_world) =
  jsonify (registration_json
             (mkRegistration "0" event_1 student_a 31 "registered" None None)) 201.
Proof.
  split; [exact (fun r H => H)|].
  split; [reflexivity|].
  destruct (register_checks_in_order sample_uuid_ok sample_new_id
              registered_rows_block (fun r H => H) 30 31
              (register_request event_1 student_a) sample_world eq_refl)
    as (e & st & Heq & _ & H).
  unfold register_request in Heq. injection Heq as <- <-.
  destruct (H (mkEvent event_1 "Intro to Rocq" "active" (Some 2) (Some 100)) eq_refl)
    as [_ H2].
  destruct (H2 eq_refl) as [_ H3].
  assert (Hdl : forall d, Some 100 = Some d -> 30 <= d)
    by (intros d Hd; injection Hd as <-; lia).
  destruct (H3 Hdl) as [_ H4].
  assert (Hroom : forall c, Some 2 = Some c ->
                    registered_count (db sample_world) event_1 < c)
    by (intros c Hc; injection Hc as <-; reflexivity).
  destruct (H4 Hroom) as (_ & _ & H5).
  rewrite (H5 eq_refl eq_refl). reflexivity.
Defined.

(** C2 on the full sample world: student C is turned away. *)
Lemma capacity_never_exceeded_witness :
  (forall r, is_registered r = true -> registered_rows_block r = true) /\
  valid (validate_registration_data sample_uuid_ok
           (register_request event_1 student_c)) = true /\
  find_event (Some event_1) (db full_world) =
    Some (mkEvent event_1 "Intro to Rocq" "active" (Some 2) (Some 100)) /\
  0 < 2 /\
  fst (register_for_event sample_uuid_ok sample_new_id registered_rows_block 30 30
         (register_request event_1 student_c) full_world) = CapacityExceeded.
Proof.
  split; [exact (fun r H => H)|].
  split; [reflexivity|]. split; [reflexivity|]. split; [lia|].
  destruct (capacity_never_exceeded sample_uuid_ok sample_new_id
              registered_rows_block (fun r H => H) 30 30
              event_1 student_c
              (mkEvent event_1 "Intro to Rocq" "active" (Some 2) (Some 100))
              2 full_world eq_refl eq_refl eq_refl)
    as [H _]; [lia|].
  assert (Hfull : 2 <= registered_count (db full_world) event_1)
    by (vm_compute; discriminate).
  destruct (H Hfull) as (_ & _ & Hout).
  rewrite Hout; [reflexivity | reflexivity |].
  intros d Hd. injection Hd as <-. lia.
Defined.

(** C2, as the claim states it, fails in two ways.  [update_event] sets a
    capacity below the count: on the sample world with students A and B
    registered for the event of capacity 2, an update to capacity 1 is
    answered 200 and leaves two registered registrations on an event of
    capacity 1.  And the count is read by one statement and the row
    written by another, each committed on its own: two requests that both
    read the count before either insert are both stored, which leaves
    three registered registrations on the event of capacity 2. *)
Lemma capacity_exceeded_counterexample :
  (let out := update_event sample_fromisoformat (update_events sample_to_timestamp)
                0 event_1 (Some lower_capacity_update) (db full_world) in
   eb_status_code (fst out) = 200 /\
   find_event (Some event_1) (snd out) =
     Some (mkEvent event_1 "Intro to Rocq" "active" (Some 1) (Some 100)) /\
   registered_count (snd out) event_1 = 2 /\
   ~ capacity_respected (snd out)) /\
  (let s0 := db registered_world in
   exists info s1 s2 row_b row_c,
     select_event_info (Some event_1) s0 = inr (Some info, s0) /\
     ei_status info = "active" /\
     deadline_passed 30 info = false /\
     at_capacity info = false /\
     insert_registration sample_new_id registered_rows_block 30
       (Some event_1) (Some student_b) s0 = inr (Some row_b, s1) /\
     insert_registration sample_new_id registered_rows_block 31
       (Some event_1) (Some student_c) s1 = inr (Some row_c, s2) /\
     find_event (Some event_1) s2 =
       Some (mkEvent event_1 "Intro to Rocq" "active" (Some 2) (Some 100)) /\
     registered_count s2 event_1 = 3 /\
     ~ capacity_respected s2).
Proof.
  split.
  - cbv zeta. split; [reflexivity|]. split; [reflexivity|]. split; [reflexivity|].
    intros H.
    specialize (H event_1 (mkEvent event_1 "Intro to Rocq" "active" (Some 1) (Some 100))
                  1 eq_refl eq_refl).
    assert (Hpos : 0 < 1) by lia. specialize (H Hpos).
    vm_compute in H. apply H. reflexivity.
  - cbv zeta. do 5 eexists.
    split; [reflexivity|]. split; [reflexivity|]. split; [reflexivity|].
    split; [reflexivity|]. split; [reflexivity|]. split; [reflexivity|].
    split; [reflexivity|]. split; [reflexivity|].
    intros H.
    specialize (H event_1 (mkEvent event_1 "Intro to Rocq" "active" (Some 2) (Some 100))
                  2 eq_refl eq_refl).
    assert (Hpos : 0 < 2) by lia. specialize (H Hpos).
    vm_compute in H. apply H. reflexivity.
Qed.


(** C3 on the sample world with student A registered: a second request of
    student A for the same event is a duplicate. *)
Lemma one_registration_per_pair_witness :
  (forall r, is_registered r = true -> registered_rows_block r = true) /\
  (forall ids, ~ In (sample_new_id ids) ids) /\
  fst (register_for_event sample_uuid_ok sample_new_id registered_rows_block 30 30
         (register_request event_1 student_a) registered_world) =
  DuplicateRegistration.
Proof.
  split; [exact (fun r H => H)|].
  split; [exact sample_new_id_fresh|].
  destruct (one_registration_per_pair sample_uuid_ok sample_new_id
              registered_rows_block (fun r H => H) sample_new_id_fresh 30 30
              (register_request event_1 student_a) registered_world)
    as (_ & [_ H] & _).
  apply H. exists event_1, student_a. repeat split.
Defined.

(** C4 on the sample world: a request made at the deadline itself, time
    100, is registered. *)
Lemma deadline_boundary_witness :
  valid (validate_registration_data sample_uuid_ok
           (register_request event_1 student_a)) = true /\
  find_event (Some event_1) (db sample_world) =
    Some (mkEvent event_1 "Intro to Rocq" "active" (Some 2) (Some 100)) /\
  status_code (fst (register_for_event sample_uuid_ok sample_new_id registered_rows_block 100 100
                      (register_request event_1 student_a) sample_world)) = 201.
Proof.
  split; [reflexivity|]. split; [reflexivity|].
  destruct (deadline_boundary sample_uuid_ok sample_new_id
              registered_rows_block 100 100
              event_1 student_a
              (mkEvent event_1 "Intro to Rocq" "active" (Some 2) (Some 100))
              100 sample_world eq_refl eq_refl eq_refl)
    as (_ & H & _).
  apply H; try reflexivity.
  intros c Hc. injection Hc as <-. reflexivity.
Defined.

(** C5 on the sample world where student A has checked in: a second
    check-in is refused. *)
Lemma mark_attendance_contract_witness :
  (forall r, is_registered r = true -> registered_rows_block r = true) /\
  ad_registration_id (mkAttendanceData (Val registration_1) Absent) =
    Val registration_1 /\
  fst (mark_attendance sample_new_id 60
         (Some (mkAttendanceData (Val registration_1) Absent)) attended_world) =
  AlreadyCheckedIn.
Proof.
  split; [exact (fun r H => H)|].
  split; [reflexivity|].
  destruct (mark_attendance_contract sample_uuid_ok sample_new_id
              registered_rows_block (fun r H => H) 60
              (mkAttendanceData (Val registration_1) Absent) registration_1
              attended_world eq_refl)
    as (_ & H & _).
  destruct (H sample_store_integrity) as [Hdone _].
  - eexists. split; [left; reflexivity|]. split; reflexivity.
  - rewrite Hdone; [reflexivity|].
    eexists. split; [left; reflexivity|]. reflexivity.
Defined.

(** C6 on the sample world where student A has checked in: a rating of 6
    is refused and the world is untouched. *)
Lemma submit_feedback_contract_witness :
  sample_uuid_ok attendance_1 = true /\
  submit_feedback sample_uuid_ok 70
    (Some (mkFeedbackData (Val attendance_1) (Val 6) Absent)) attended_world =
  (InvalidRating, attended_world).
Proof.
  split; [reflexivity|].
  destruct (submit_feedback_contract sample_uuid_ok 70 attendance_1 6 Absent
              attended_world eq_refl)
    as [H _].
  apply H. right. lia.
Defined.

(** C9 on the sample event data: a deadline equal to the start time is
    accepted. *)
Lemma deadline_not_after_start_witness :
  validate_event_data sample_fromisoformat 0
    (Some (without_deadline sample_event_data)) false =
    inr (ok "Valid event data") /\
  "2030-01-01T10:00:00" <> "" /\
  validate_event_data sample_fromisoformat 0 (Some sample_event_data) false =
    inr (ok "Valid event data").
Proof.
  assert (Hne : "2030-01-01T10:00:00" <> "") by discriminate.
  split; [reflexivity|]. split; [exact Hne|].
  destruct (deadline_not_after_start sample_fromisoformat 0 sample_event_data
              false "2030-01-01T10:00:00" "2030-01-01T10:00:00"
              (mkDatetime 1000 None) (mkDatetime 1000 None)
              eq_refl eq_refl eq_refl eq_refl Hne eq_refl eq_refl)
    as (_ & _ & H).
  apply H. reflexivity.
Defined.


(** ** Two runs of section 8 of the specification *)

(** An event of capacity 2: students A and B are registered, student C is
    turned away until A's registration is cancelled. *)
Example capacity_two_scenario :
  let step := handle sample_uuid_ok sample_new_id registered_rows_block in
  let r1 := step (PostRegister 10 10 (register_request event_1 student_a))
                 sample_world in
  let r2 := step (PostRegister 20 20 (register_request event_1 student_b)) (snd r1) in
  let r3 := step (PostRegister 30 30 (register_request event_1 student_c)) (snd r2) in
  let r4 := step (DeleteRegistration 40 "0") (snd r3) in
  let r5 := step (PostRegister 50 50 (register_request event_1 student_c)) (snd r4) in
  status_code (fst r1) = 201 /\
  status_code (fst r2) = 201 /\
  fst r3 = CapacityExceeded /\
  status_code (fst r4) = 200 /\
  status_code (fst r5) = 201 /\
  registered_count (db (snd r5)) event_1 = 2.
Proof. vm_compute. repeat split. Qed.

(** A student registers, is refused a second registration, cancels, and
    registers again: the second registration is a row of its own. *)
Example register_cancel_register_scenario :
  let step := handle sample_uuid_ok sample_new_id registered_rows_block in
  let r1 := step (PostRegister 10 10 (register_request event_1 student_a))
                 sample_world in
  let r2 := step (PostRegister 20 20 (register_request event_1 student_a)) (snd r1) in
  let r3 := step (DeleteRegistration 30 "0") (snd r2) in
  let r4 := step (PostRegister 40 40 (register_request event_1 student_a)) (snd r3) in
  status_code (fst r1) = 201 /\
  fst r2 = DuplicateRegistration /\
  status_code (fst r3) = 200 /\
  status_code (fst r4) = 201 /\
  registrations (db (snd r4)) =
    [mkRegistration "0" event_1 student_a 10 "cancelled" (Some 30)
       (Some "Cancelled by user");
     mkRegistration "00" event_1 student_a 40 "registered" None None].
Proof. vm_compute. repeat split. Qed.

(** The same run under the other reading of the constraint, one
    registration per pair whatever its status: the request that follows the
    cancellation is answered as a duplicate. *)
Example register_cancel_register_one_per_pair :
  let step := handle sample_uuid_ok sample_new_id (fun _ => true) in
  let r1 := step (PostRegister 10 10 (register_request event_1 student_a))
                 sample_world in
  let r2 := step (DeleteRegistration 30 "0") (snd r1) in
  let r3 := step (PostRegister 40 40 (register_request event_1 student_a)) (snd r2) in
  status_code (fst r1) = 201 /\
  status_code (fst r2) = 200 /\
  fst r3 = DuplicateRegistration /\
  registrations (db (snd r3)) =
    [mkRegistration "0" event_1 student_a 10 "cancelled" (Some 30)
       (Some "Cancelled by user")].
Proof. vm_compute. repeat split. Qed.

(* ================================================================== *)
(** * Further properties of the code *)

(** ** Pagination: [paginate_results] *)

Lemma firstn_plus {A : Type} (a b : nat) (l : list A) :
  firstn (a + b) l = (firstn a l ++ firstn b (skipn a l))%list.
Proof.
  revert l. induction a as [|a IH]; intros l.
  - reflexivity.
  - destruct l as [|x l]; simpl.
    + rewrite firstn_nil. reflexivity.
    + rewrite IH. reflexivity.
Qed.

Lemma firstn_min_length {A : Type} (n : nat) (l : list A) :
  firstn (Nat.min n (List.length l)) l = firstn n l.
Proof.
  destruct (Nat.le_ge_cases n (List.length l)) as [H|H].
  - rewrite Nat.min_l by exact H. reflexivity.
  - rewrite Nat.min_r by exact H. rewrite !firstn_all2; auto.
Qed.

(** A page from the first on is the block of [per_page] items that follows
    the blocks of the pages before it. *)
Lemma page_items_block {A : Type} (results : list A) (per_page page : Z) :
  1 <= page -> 1 <= per_page ->
  page_items results per_page page =
  firstn (Z.to_nat per_page)
         (skipn (Z.to_nat (page - 1) * Z.to_nat per_page) results).
Proof.
  intros Hpage Hper. unfold page_items, paginate_results.
  replace (per_page =? 0) with false by (symmetry; apply Z.eqb_neq; lia).
  cbn [pr_data]. unfold slice, slice_index.
  set (total := Z.of_nat (List.length results)).
  assert (Hstart : 0 <= (page - 1) * per_page) by nia.
  replace ((page - 1) * per_page <? 0) with false
    by (symmetry; apply Z.ltb_ge; lia).
  replace ((page - 1) * per_page + per_page <? 0) with false
    by (symmetry; apply Z.ltb_ge; lia).
  assert (Hk : (Z.to_nat (page - 1) * Z.to_nat per_page)%nat =
               Z.to_nat ((page - 1) * per_page)).
  { rewrite Z2Nat.inj_mul by lia. reflexivity. }
  rewrite Hk.
  destruct (Z.le_gt_cases total ((page - 1) * per_page)) as [Hout|Hin].
  - rewrite !Z.min_r by lia. rewrite Z.sub_diag. cbn [Z.to_nat firstn].
    rewrite (skipn_all2 results) by (unfold total in Hout; lia).
    rewrite firstn_nil. reflexivity.
  - rewrite (Z.min_l ((page - 1) * per_page) total) by lia.
    rewrite <- (firstn_min_length (Z.to_nat per_page)).
    f_equal. rewrite length_skipn. unfold total in *. lia.
Qed.

Lemma pages_bound (total per_page : Z) :
  0 <= total -> 1 <= per_page ->
  total <= ((total + per_page - 1) / per_page) * per_page.
Proof.
  intros Ht Hp.
  pose proof (Z.div_mod (total + per_page - 1) per_page ltac:(lia)) as Hdm.
  pose proof (Z.mod_pos_bound (total + per_page - 1) per_page ltac:(lia)) as Hm.
  nia.
Qed.

Lemma before_last_page (total per_page page : Z) :
  0 <= total -> 1 <= per_page ->
  (page < (total + per_page - 1) / per_page <-> page * per_page < total).
Proof.
  intros Ht Hp.
  pose proof (Z.div_mod (total + per_page - 1) per_page ltac:(lia)) as Hdm.
  pose proof (Z.mod_pos_bound (total + per_page - 1) per_page ltac:(lia)) as Hm.
  split; intros H; nia.
Qed.

Lemma blocks_cover {A : Type} (n k : nat) (l : list A) :
  flat_map (fun p => firstn n (skipn ((p - 1) * n) l)) (seq 1 k) =
  firstn (k * n) l.
Proof.
  induction k as [|k IH].
  - reflexivity.
  - rewrite seq_S, flat_map_app, IH. cbn [flat_map].
    rewrite app_nil_r. replace (1 + k - 1)%nat with k by lia.
    replace (S k * n)%nat with (k * n + n)%nat by lia.
    rewrite firstn_plus. reflexivity.
Qed.

Lemma flat_map_same_on {A B : Type} (f g : A -> list B) (l : list A) :
  (forall a, In a l -> f a = g a) -> flat_map f l = flat_map g l.
Proof.
  induction l as [|a l IH]; intros H; simpl.
  - reflexivity.
  - rewrite (H a (or_introl eq_refl)), IH; [reflexivity|].
    intros b Hb. apply H. right. exact Hb.
Qed.

(** X1. For a positive page size, the pages from 1 to the page count
    [paginate_results] reports hold, one after the other, exactly the
    items of the list: none is lost, repeated or reordered. *)
Theorem pages_cover_results {A : Type} (results : list A) (per_page : Z) :
  1 <= per_page ->
  flat_map (fun p => page_items results per_page (Z.of_nat p))
           (seq 1 (Z.to_nat (page_count results per_page))) = results.
Proof.
  intros Hper.
  rewrite (flat_map_same_on _
             (fun p => firstn (Z.to_nat per_page)
                         (skipn ((p - 1) * Z.to_nat per_page) results))).
  - rewrite blocks_cover. apply firstn_all2.
    pose proof (pages_bound (Z.of_nat (List.length results)) per_page
                  ltac:(lia) Hper) as Hb.
    unfold page_count.
    assert (Hq : 0 <= (Z.of_nat (List.length results) + per_page - 1) / per_page)
      by (apply Z.div_pos; lia).
    nia.
  - intros p Hp. apply in_seq in Hp.
    rewrite page_items_block by lia.
    replace (Z.to_nat (Z.of_nat p - 1)) with (p - 1)%nat by lia.
    reflexivity.
Qed.

Lemma page_length {A : Type} (results : list A) (per_page page : Z) :
  1 <= page -> 1 <= per_page ->
  Z.of_nat (List.length (page_items results per_page page)) =
  Z.min per_page
    (Z.max 0 (Z.of_nat (List.length results) - (page - 1) * per_page)).
Proof.
  intros Hpage Hper.
  rewrite page_items_block by assumption.
  rewrite length_firstn, length_skipn.
  assert (Hk : (Z.to_nat (page - 1) * Z.to_nat per_page)%nat =
               Z.to_nat ((page - 1) * per_page))
    by (rewrite Z2Nat.inj_mul by lia; reflexivity).
  rewrite Hk. assert (0 <= (page - 1) * per_page) by nia. lia.
Qed.

(** X2. For a page from the first on and a positive page size, the page
    holds [min per_page (max 0 (total - (page - 1) * per_page))] items:
    never more than the page size, exactly the page size before the last
    page, and none beyond the last page. *)
Theorem page_sizes {A : Type} (results : list A) (per_page page : Z) :
  1 <= page -> 1 <= per_page ->
  let total := Z.of_nat (List.length results) in
  let items := page_items results per_page page in
  Z.of_nat (List.length items) =
    Z.min per_page (Z.max 0 (total - (page - 1) * per_page)) /\
  (page < page_count results per_page ->
   Z.of_nat (List.length items) = per_page) /\
  (page_count results per_page < page -> items = []).
Proof.
  intros Hpage Hper. cbv zeta.
  pose proof (page_length results per_page page Hpage Hper) as Hlen.
  split; [exact Hlen|]. split.
  - intros Hlt. rewrite Hlen.
    apply before_last_page in Hlt; lia.
  - intros Hgt.
    assert (Hz : Z.of_nat (List.length (page_items results per_page page)) = 0).
    { rewrite Hlen.
      assert (~ (page - 1 < page_count results per_page)) as Hn by lia.
      unfold page_count in Hn. rewrite before_last_page in Hn by lia. lia. }
    destruct (page_items results per_page page); [reflexivity | simpl in Hz; lia].
Qed.

(** X3. For a page from the first on and a positive page size,
    [paginate_results] returns, its [has_next] flag is set exactly when the
    page is before the last one, which is exactly when the next page holds
    an item, and its [has_prev] flag is set exactly when the page is not the
    first. *)
Theorem page_flags {A : Type} (results : list A) (per_page page : Z) :
  1 <= page -> 1 <= per_page ->
  exists r,
    paginate_results results page per_page = inr r /\
    pg_pages (pr_pagination r) = page_count results per_page /\
    (pg_has_next (pr_pagination r) = true <-> page < pg_pages (pr_pagination r)) /\
    (pg_has_next (pr_pagination r) = true <->
       page_items results per_page (page + 1) <> []) /\
    (pg_has_prev (pr_pagination r) = true <-> 1 < page).
Proof.
  intros Hpage Hper. unfold paginate_results.
  replace (per_page =? 0) with false by (symmetry; apply Z.eqb_neq; lia).
  eexists. split; [reflexivity|]. cbn [pr_pagination pg_pages pg_has_next pg_has_prev].
  assert (Hnext : ((page - 1) * per_page + per_page <?
                   Z.of_nat (List.length results)) = true <->
                  page < page_count results per_page).
  { rewrite Z.ltb_lt. unfold page_count. rewrite before_last_page by lia.
    split; intros H; lia. }
  split; [reflexivity|]. split; [exact Hnext|]. split.
  - rewrite Hnext.
    pose proof (page_length results per_page (page + 1) ltac:(lia) Hper) as Hlen.
    unfold page_count. rewrite before_last_page by lia.
    replace (page + 1 - 1) with page in Hlen by lia.
    split.
    + intros Hlt Hnil. rewrite Hnil in Hlen. simpl in Hlen. lia.
    + intros Hne.
      destruct (page_items results per_page (page + 1)) eqn:E; [congruence|].
      simpl in Hlen. lia.
  - rewrite Z.gtb_ltb, Z.ltb_lt. reflexivity.
Qed.

(** X4. A page size of zero makes [paginate_results] raise
    ZeroDivisionError whatever the list and the page; with a positive page
    size, page 0 returns no item, and reports a next page as soon as the
    list is not empty. *)
Theorem degenerate_pages {A : Type} (results : list A) (per_page page : Z) :
  paginate_results results page 0 = inl ZeroDivisionError /\
  (1 <= per_page ->
   exists r,
     paginate_results results 0 per_page = inr r /\
     pr_data r = [] /\
     (pg_has_next (pr_pagination r) = true <-> results <> []) /\
     pg_has_prev (pr_pagination r) = false).
Proof.
  split; [reflexivity|]. intros Hper. unfold paginate_results.
  replace (per_page =? 0) with false by (symmetry; apply Z.eqb_neq; lia).
  eexists. split; [reflexivity|].
  cbn [pr_data pr_pagination pg_has_next pg_has_prev]. split; [|split].
  - unfold slice, slice_index.
    replace ((0 - 1) * per_page <? 0) with true
      by (symmetry; apply Z.ltb_lt; lia).
    replace ((0 - 1) * per_page + per_page) with 0 by lia.
    cbn [Z.ltb Z.compare]. rewrite Z.min_l by lia.
    replace (Z.to_nat (0 - _)) with O by lia. reflexivity.
  - replace ((0 - 1) * per_page + per_page) with 0 by lia.
    rewrite Z.ltb_lt. destruct results; simpl; split; intros H;
      try lia; try congruence.
  - reflexivity.
Qed.

(** ** Sanitising: [sanitize_input] *)

(** Induction over values that reaches the values nested in dictionaries
    and lists. *)
Lemma PyValue_nested_ind (P : PyValue -> Prop) :
  (forall s, P (PyStr s)) ->
  (forall items, Forall (fun kv => P (snd kv)) items -> P (PyDict items)) ->
  (forall items, Forall P items -> P (PyList items)) ->
  (forall n, P (PyInt n)) ->
  (forall b, P (PyBool b)) ->
  P PyNone ->
  forall v, P v.
Proof.
  intros Hstr Hdict Hlist Hint Hbool Hnone.
  fix IH 1. intros v. destruct v as [s|items|items|n|b|].
  - apply Hstr.
  - apply Hdict. induction items as [|[key value] rest IHrest].
    + constructor.
    + constructor; [apply IH | exact IHrest].
  - apply Hlist. induction items as [|value rest IHrest].
    + constructor.
    + constructor; [apply IH | exact IHrest].
  - apply Hint.
  - apply Hbool.
  - apply Hnone.
Qed.

Lemma harmless_remove_dangerous (s : string) :
  harmless (remove_dangerous s) = true.
Proof.
  unfold harmless. induction s as [|c t IH]; simpl.
  - reflexivity.
  - destruct (dangerous c) eqn:E; [exact IH|].
    simpl. rewrite E, IH. reflexivity.
Qed.

Lemma harmless_lstrip (s : string) : harmless s = true -> harmless (lstrip s) = true.
Proof.
  unfold harmless. induction s as [|c t IH]; simpl; intros H.
  - reflexivity.
  - destruct (is_space c); [|exact H].
    apply IH. apply andb_true_iff in H. apply H.
Qed.

Lemma harmless_rstrip (s : string) : harmless s = true -> harmless (rstrip s) = true.
Proof.
  unfold harmless. induction s as [|c t IH]; simpl; intros H.
  - reflexivity.
  - apply andb_true_iff in H. destruct H as [Hc Ht]. specialize (IH Ht).
    destruct (rstrip t) as [|c' r].
    + destruct (is_space c); simpl; [reflexivity | rewrite Hc; reflexivity].
    + cbn [all_chars] in *. rewrite Hc, IH. reflexivity.
Qed.

Lemma rstrip_idempotent (s : string) : rstrip (rstrip s) = rstrip s.
Proof.
  induction s as [|c t IH]; simpl.
  - reflexivity.
  - destruct (rstrip t) as [|c' r] eqn:E.
    + destruct (is_space c) eqn:Hc; simpl; [reflexivity | rewrite Hc; reflexivity].
    + cbn [rstrip]. cbn [rstrip] in IH. rewrite IH. reflexivity.
Qed.

Lemma lstrip_length (s : string) : (String.length (lstrip s) <= String.length s)%nat.
Proof.
  induction s as [|c t IH]; simpl.
  - lia.
  - destruct (is_space c); simpl; lia.
Qed.

Lemma lstrip_head (s : string) :
  match lstrip s with
  | EmptyString => True
  | String c _ => is_space c = false
  end.
Proof.
  induction s as [|c t IH]; simpl.
  - exact I.
  - destruct (is_space c) eqn:E; [exact IH | exact E].
Qed.

Lemma lstrip_rstrip_lstrip (s : string) :
  lstrip (rstrip (lstrip s)) = rstrip (lstrip s).
Proof.
  pose proof (lstrip_head s) as H.
  destruct (lstrip s) as [|c t]; [reflexivity|].
  cbn [rstrip]. destruct (rstrip t) as [|c' r].
  - rewrite H. simpl. rewrite H. reflexivity.
  - simpl. rewrite H. reflexivity.
Qed.

Lemma strip_idempotent (s : string) : strip (strip s) = strip s.
Proof.
  unfold strip. rewrite lstrip_rstrip_lstrip. apply rstrip_idempotent.
Qed.

Lemma harmless_no_tags (s : string) :
  harmless s = true -> remove_tags None s = s.
Proof.
  unfold harmless. induction s as [|c t IH]; simpl; intros H.
  - reflexivity.
  - apply andb_true_iff in H. destruct H as [Hc Ht].
    unfold dangerous in Hc. apply negb_true_iff in Hc.
    apply orb_false_iff in Hc. destruct Hc as [Hc _].
    apply orb_false_iff in Hc. destruct Hc as [Hc _].
    apply orb_false_iff in Hc. destruct Hc as [Hc _].
    rewrite Hc, (IH Ht). reflexivity.
Qed.

Lemma harmless_unchanged (s : string) :
  harmless s = true -> remove_dangerous s = s.
Proof.
  unfold harmless. induction s as [|c t IH]; simpl; intros H.
  - reflexivity.
  - apply andb_true_iff in H. destruct H as [Hc Ht].
    apply negb_true_iff in Hc. rewrite Hc, (IH Ht). reflexivity.
Qed.

Lemma sanitize_str_clean (s : string) : clean (sanitize_str s) = true.
Proof.
  unfold clean, sanitize_str. apply andb_true_iff. split.
  - unfold strip. apply harmless_rstrip, harmless_lstrip, harmless_remove_dangerous.
  - unfold trimmed. rewrite strip_idempotent. apply String.eqb_refl.
Qed.

Lemma clean_fixed (s : string) : clean s = true -> sanitize_str s = s.
Proof.
  unfold clean, trimmed. intros H. apply andb_true_iff in H. destruct H as [Hh Ht].
  apply String.eqb_eq in Ht. unfold sanitize_str.
  rewrite (harmless_no_tags s Hh), (harmless_unchanged s Hh). exact Ht.
Qed.

Lemma sanitize_input_clean (v : PyValue) :
  all_strings clean (sanitize_input v) = true.
Proof.
  induction v as [s|items IH|items IH|n|b|] using PyValue_nested_ind;
    cbn [sanitize_input all_strings]; try reflexivity.
  - apply sanitize_str_clean.
  - induction IH as [|[key value] rest Hv _ IHrest]; cbn [map forallb].
    + reflexivity.
    + cbn [snd] in Hv. rewrite Hv. exact IHrest.
  - induction IH as [|value rest Hv _ IHrest]; cbn [map forallb].
    + reflexivity.
    + rewrite Hv. exact IHrest.
Qed.

Lemma clean_value_fixed (v : PyValue) :
  all_strings clean v = true -> sanitize_input v = v.
Proof.
  induction v as [s|items IH|items IH|n|b|] using PyValue_nested_ind;
    cbn [sanitize_input all_strings]; intros H; try reflexivity.
  - rewrite (clean_fixed s H). reflexivity.
  - f_equal. induction IH as [|[key value] rest Hv _ IHrest]; cbn [map].
    + reflexivity.
    + cbn [forallb] in H. apply andb_true_iff in H. destruct H as [H1 H2].
      cbn [snd] in Hv. rewrite (Hv H1), (IHrest H2). reflexivity.
  - f_equal. induction IH as [|value rest Hv _ IHrest]; cbn [map].
    + reflexivity.
    + cbn [forallb] in H. apply andb_true_iff in H. destruct H as [H1 H2].
      rewrite (Hv H1), (IHrest H2). reflexivity.
Qed.

Lemma sanitize_input_keys (v : PyValue) : keys_of (sanitize_input v) = keys_of v.
Proof.
  induction v as [s|items IH|items IH|n|b|] using PyValue_nested_ind;
    cbn [sanitize_input keys_of]; try reflexivity.
  - induction IH as [|[key value] rest Hv _ IHrest]; cbn [map flat_map].
    + reflexivity.
    + cbn [snd] in Hv. rewrite Hv, IHrest. reflexivity.
  - induction IH as [|value rest Hv _ IHrest]; cbn [map flat_map].
    + reflexivity.
    + rewrite Hv, IHrest. reflexivity.
Qed.

(** X5. Whatever the value, every string [sanitize_input] returns as a
    value, at any depth of dictionaries and lists, holds no angle bracket
    and no double or single quote, and has no white space at either end.
    The keys of dictionaries are not sanitised: the result has the keys of
    the input, as they were and in their order. *)
Theorem sanitized_values_are_clean (v : PyValue) :
  all_strings (fun s => harmless s && (strip s =? s)%string) (sanitize_input v)
  = true /\
  keys_of (sanitize_input v) = keys_of v.
Proof.
  split; [exact (sanitize_input_clean v) | exact (sanitize_input_keys v)].
Qed.

(** X6. [sanitize_input] is idempotent: sanitising a sanitised value
    changes nothing. *)
Theorem sanitize_input_idempotent (v : PyValue) :
  sanitize_input (sanitize_input v) = sanitize_input v.
Proof. apply clean_value_fixed. apply sanitize_input_clean. Qed.

(** X7. A value whose strings hold none of the four characters and have
    no white space at either end is returned as it is. *)
Theorem clean_value_unchanged (v : PyValue) :
  all_strings (fun s => harmless s && (strip s =? s)%string) v = true ->
  sanitize_input v = v.
Proof. exact (clean_value_fixed v). Qed.

Lemma append_empty_r (s : string) : s ++ "" = s.
Proof. induction s as [|c t IH]; simpl; [reflexivity | rewrite IH; reflexivity]. Qed.

Lemma append_associative (a b c : string) : (a ++ b) ++ c = a ++ (b ++ c).
Proof. induction a as [|x a IH]; simpl; [reflexivity | rewrite IH; reflexivity]. Qed.

(** X8. A closed tag is removed and nothing else: text without ['<'] is
    kept in front of a tag, a ['<'] followed by at least one character and
    the next ['>'] is dropped with what lies between, and a string without
    ['>'] loses nothing to the tag pattern. *)
Theorem remove_tags_meaning (a b c : string) :
  all_chars (fun x => negb (x =? lt_char)%char) a = true ->
  all_chars (fun x => negb (x =? gt_char)%char) b = true ->
  b <> "" ->
  remove_tags None (a ++ String lt_char (b ++ String gt_char c)) =
    a ++ remove_tags None c /\
  remove_tags None (a ++ String lt_char b) = a ++ String lt_char b.
Proof.
  intros Ha Hb Hne.
  assert (Hout : forall s, remove_tags None (a ++ s) = a ++ remove_tags None s).
  { intros s. induction a as [|x a IH]; cbn [append remove_tags].
    - reflexivity.
    - cbn [all_chars] in Ha. apply andb_true_iff in Ha. destruct Ha as [Hx Ha].
      apply negb_true_iff in Hx. rewrite Hx, (IH Ha). reflexivity. }
  assert (Hin : forall b' p s,
            all_chars (fun x => negb (x =? gt_char)%char) b' = true ->
            remove_tags (Some p) (b' ++ s) = remove_tags (Some (p ++ b')) s).
  { induction b' as [|x b' IH]; intros p s Hb'; cbn [append].
    - rewrite append_empty_r. reflexivity.
    - cbn [all_chars] in Hb'. apply andb_true_iff in Hb'. destruct Hb' as [Hx Hb'].
      apply negb_true_iff in Hx. cbn [remove_tags]. rewrite Hx.
      rewrite (IH _ _ Hb'). rewrite append_associative. reflexivity. }
  split.
  - rewrite Hout. cbn [remove_tags]. rewrite Ascii.eqb_refl.
    rewrite (Hin b "" _ Hb). cbn [append remove_tags]. rewrite Ascii.eqb_refl.
    destruct b; [congruence | reflexivity].
  - rewrite Hout. cbn [remove_tags]. rewrite Ascii.eqb_refl.
    rewrite <- (append_empty_r b) at 1.
    rewrite (Hin b "" "" Hb). reflexivity.
Qed.

(** ** The event routes: [cancel_event], [create_event] *)

Lemma with_events_same (s : Store) : with_events s (events s) = s.
Proof. destruct s; reflexivity. Qed.

Lemma cancel_event_run (event_id : string) (s : Store) :
  cancel_event event_id s =
  (match hd_error (map cancelled_event
                       (filter (cancels_event event_id) (events s))) with
   | Some row =>
     mkEventResponse (event_cancelled_json "Event cancelled successfully" row) 200
   | None => mkEventResponse (event_error "Event not found or already cancelled") 404
   end,
   with_events s
     (map (fun e => if cancels_event event_id e then cancelled_event e else e)
          (events s))).
Proof.
  unfold cancel_event, tx_try, tx_bind, run_query, update_event_cancelled, tx_ret.
  cbv zeta. destruct (hd_error _); reflexivity.
Qed.

Lemma cancels_event_true (event_id : string) (e : Event) :
  cancels_event event_id e = true <->
  ev_event_id e = event_id /\ ev_status e = "active".
Proof.
  unfold cancels_event, is_active. rewrite andb_true_iff, !String.eqb_eq.
  reflexivity.
Qed.

Lemma cancel_event_nothing (event_id : string) (s : Store) :
  (forall e, In e (events s) -> cancels_event event_id e = false) ->
  cancel_event event_id s =
  (mkEventResponse (event_error "Event not found or already cancelled") 404, s).
Proof.
  intros H. rewrite cancel_event_run.
  rewrite (filter_none _ _ H), (map_id_when _ _ _ H), with_events_same.
  reflexivity.
Qed.

(** X9. [cancel_event] turns every active event with the identifier into
    a cancelled one, keeping its identifier, title, capacity and deadline,
    and answers 200; when no event has the identifier, or the one that has
    it is not active, it answers the 404 "Event not found or already
    cancelled" and leaves the store as it was, so a second cancellation is
    rejected.  In every case it leaves registrations and attendance alone:
    cancelling an event does not cancel its registrations. *)
Theorem cancel_event_contract (event_id : string) (s : Store) :
  let out := cancel_event event_id s in
  ((exists e, In e (events s) /\ ev_event_id e = event_id /\
              ev_status e = "active") ->
   exists e,
     In e (events s) /\ ev_event_id e = event_id /\ ev_status e = "active" /\
     fst out = mkEventResponse
                 (event_cancelled_json "Event cancelled successfully"
                    (mkEvent event_id (ev_title e) "cancelled"
                       (ev_max_capacity e) (ev_registration_deadline e))) 200 /\
     events (snd out) =
       map (fun x => if cancels_event event_id x then cancelled_event x else x)
           (events s)) /\
  ((forall e, In e (events s) -> ev_event_id e = event_id ->
              ev_status e <> "active") ->
   out = (mkEventResponse
            (event_error "Event not found or already cancelled") 404, s)) /\
  cancel_event event_id (snd out) =
    (mkEventResponse (event_error "Event not found or already cancelled") 404,
     snd out) /\
  registrations (snd out) = registrations s /\
  attendance (snd out) = attendance s /\
  students (snd out) = students s.
Proof.
  cbv zeta. split; [|split; [|split]].
  - intros (e & Hin & Hid & Hst).
    rewrite cancel_event_run. cbn [fst snd events with_events].
    assert (Hf : In e (filter (cancels_event event_id) (events s))).
    { apply filter_In. split; [exact Hin|]. apply cancels_event_true. auto. }
    destruct (filter (cancels_event event_id) (events s)) as [|e0 rest] eqn:E.
    { destruct Hf. }
    assert (H0 : In e0 (filter (cancels_event event_id) (events s))).
    { rewrite E. left. reflexivity. }
    apply filter_In in H0. destruct H0 as [Hin0 Hc0].
    apply cancels_event_true in Hc0. destruct Hc0 as [Hid0 Hst0].
    exists e0. cbn [map hd_error]. unfold cancelled_event. rewrite Hid0.
    repeat split; auto.
  - intros H. apply cancel_event_nothing. intros e Hin.
    destruct (cancels_event event_id e) eqn:E; [|reflexivity].
    apply cancels_event_true in E. destruct E as [E1 E2].
    destruct (H e Hin E1 E2).
  - apply cancel_event_nothing.
    rewrite cancel_event_run. cbn [snd events with_events].
    intros e Hin. apply in_map_iff in Hin. destruct Hin as (e0 & <- & _).
    destruct (cancels_event event_id e0) eqn:E; [|exact E].
    unfold cancels_event, is_active, cancelled_event. cbn [ev_status ev_event_id].
    apply andb_false_r.
  - rewrite cancel_event_run. repeat split.
Qed.

Lemma find_map_same {A : Type} (p : A -> bool) (f : A -> A) (l : list A) :
  (forall x, p (f x) = p x) ->
  find p (map f l) = option_map f (find p l).
Proof.
  intros H. induction l as [|a l IH]; simpl.
  - reflexivity.
  - rewrite H. destruct (p a); [reflexivity | exact IH].
Qed.

Lemma cancel_in_place_id (event_id : string) (e : Event) :
  ev_event_id (cancel_in_place event_id e) = ev_event_id e.
Proof. unfold cancel_in_place. destruct (cancels_event event_id e); reflexivity. Qed.

Lemma cancel_in_place_title (event_id : string) (e : Event) :
  ev_title (cancel_in_place event_id e) = ev_title e.
Proof. unfold cancel_in_place. destruct (cancels_event event_id e); reflexivity. Qed.

Lemma cancel_in_place_capacity (event_id : string) (e : Event) :
  ev_max_capacity (cancel_in_place event_id e) = ev_max_capacity e.
Proof. unfold cancel_in_place. destruct (cancels_event event_id e); reflexivity. Qed.

Lemma cancel_event_store (event_id : string) (s : Store) :
  snd (cancel_event event_id s) =
  with_events s (map (cancel_in_place event_id) (events s)).
Proof. rewrite cancel_event_run. reflexivity. Qed.

Lemma find_event_after_cancel (event_id : string) (param : option string) (s : Store) :
  find_event param (snd (cancel_event event_id s)) =
  option_map (cancel_in_place event_id) (find_event param s).
Proof.
  rewrite cancel_event_store. unfold find_event. cbn [events with_events].
  apply find_map_same. intros x. rewrite cancel_in_place_id. reflexivity.
Qed.

Lemma event_exists_after_cancel (event_id x : string) (s : Store) :
  event_exists (snd (cancel_event event_id s)) x = event_exists s x.
Proof.
  rewrite cancel_event_store. unfold event_exists. cbn [events with_events].
  apply existsb_map_same. intros e. rewrite cancel_in_place_id. reflexivity.
Qed.

Lemma find_title_after_cancel (event_id x : string) (s : Store) :
  option_map ev_title
    (find (fun e => (ev_event_id e =? x)%string)
          (events (snd (cancel_event event_id s)))) =
  option_map ev_title (find (fun e => (ev_event_id e =? x)%string) (events s)).
Proof.
  rewrite cancel_event_store. cbn [events with_events].
  rewrite find_map_same by (intros e; rewrite cancel_in_place_id; reflexivity).
  destruct (find _ (events s)); cbn [option_map]; [|reflexivity].
  rewrite cancel_in_place_title. reflexivity.
Qed.

Lemma find_same_test {A : Type} (p q : A -> bool) (l : list A) :
  (forall x, p x = q x) -> find p l = find q l.
Proof.
  intros H. induction l as [|a l IH]; simpl.
  - reflexivity.
  - rewrite H, IH. reflexivity.
Qed.

Lemma active_registration_after_cancel
  (event_id : string) (rid : option string) (s : Store) :
  active_registration rid (snd (cancel_event event_id s)) =
  active_registration rid s.
Proof.
  unfold active_registration.
  assert (Hr : registrations (snd (cancel_event event_id s)) = registrations s)
    by (rewrite cancel_event_store; reflexivity).
  assert (Hs : students (snd (cancel_event event_id s)) = students s)
    by (rewrite cancel_event_store; reflexivity).
  assert (Hx : forall x, student_exists (snd (cancel_event event_id s)) x =
                         student_exists s x)
    by (intros x; unfold student_exists; rewrite Hs; reflexivity).
  rewrite Hr, Hs.
  rewrite (find_same_test _
             (fun r => eq_param (reg_registration_id r) rid && is_registered r &&
                       event_exists s (reg_event_id r) &&
                       student_exists s (reg_student_id r))).
  2:{ intros r. rewrite event_exists_after_cancel, Hx. reflexivity. }
  destruct (find _ (registrations s)) as [r|]; [|reflexivity].
  pose proof (find_title_after_cancel event_id (reg_event_id r) s) as Ht.
  destruct (find _ (events (snd (cancel_event event_id s)))) as [e1|];
    destruct (find _ (events s)) as [e2|]; cbn [option_map] in Ht;
    try discriminate; [|reflexivity].
  injection Ht as ->. reflexivity.
Qed.

Lemma attendance_info_after_cancel
  (event_id : string) (aid : option string) (s : Store) :
  attendance_info aid (snd (cancel_event event_id s)) = attendance_info aid s.
Proof.
  assert (Hj : forall a, joined_attendance (snd (cancel_event event_id s)) a =
                         joined_attendance s a).
  { intros a. unfold joined_attendance.
    replace (registrations (snd (cancel_event event_id s))) with (registrations s)
      by (rewrite cancel_event_store; reflexivity).
    destruct (find _ (registrations s)) as [r|]; [|reflexivity].
    pose proof (find_title_after_cancel event_id (reg_event_id r) s) as Ht.
    destruct (find _ (events (snd (cancel_event event_id s)))) as [e1|];
      destruct (find _ (events s)) as [e2|]; cbn [option_map] in Ht;
      try discriminate; [|reflexivity].
    injection Ht as ->. reflexivity. }
  unfold attendance_info.
  replace (attendance (snd (cancel_event event_id s))) with (attendance s)
    by (rewrite cancel_event_store; reflexivity).
  rewrite (find_same_test _
             (fun a => eq_param (att_attendance_id a) aid &&
                       is_some (joined_attendance s a))).
  2:{ intros a. rewrite Hj. reflexivity. }
  destruct (find _ (attendance s)); [apply Hj | reflexivity].
Qed.

Section AfterCancellation.

Variable uuid_ok : string -> bool.
Variable new_id : list string -> string.
Variable blocking : Registration -> bool.

(** X10. Once [cancel_event] has run for an event, [register_for_event]
    answers every accepted request for that event with "Event is not active
    for registration", or with "Event not found" when no event has the
    identifier, and stores nothing. *)
Theorem no_registration_after_cancel
  (now ts : Z) (e st : string) (w : World) :
  valid (validate_registration_data uuid_ok (register_request e st)) = true ->
  let out := register_for_event uuid_ok new_id blocking now ts
               (register_request e st) (after_cancel_event e w) in
  (fst out = EventInactive \/ fst out = EventNotFound) /\
  db (snd out) = db (after_cancel_event e w) /\
  registrations (db (snd out)) = registrations (db w).
Proof.
  intros Hvalid. cbv zeta.
  rewrite (register_accepted uuid_ok new_id blocking now ts e st _ Hvalid).
  unfold after_cancel_event. cbn [db]. rewrite find_event_after_cancel.
  assert (Hr : registrations (snd (cancel_event e (db w))) = registrations (db w))
    by (rewrite cancel_event_store; reflexivity).
  destruct (find_event (Some e) (db w)) as [ev|] eqn:Hev; cbn [option_map].
  - cbv zeta.
    assert (Hst : (ev_status (cancel_in_place e ev) =? "active")%string = false).
    { unfold cancel_in_place. destruct (cancels_event e ev) eqn:Hc.
      - reflexivity.
      - destruct (find_event_some e (db w) ev Hev) as (Hid & _ & _).
        unfold cancels_event, is_active in Hc. rewrite Hid, String.eqb_refl in Hc.
        exact Hc. }
    rewrite Hst. cbn [negb fst snd ran db]. auto.
  - cbn [fst snd ran db]. auto.
Qed.

(** X11. [mark_attendance] and [submit_feedback] do not look at the status
    of the event: after [cancel_event] they give the answers they would
    have given before it, so check-ins and feedback go on for a cancelled
    event. *)
Theorem attendance_goes_on_after_cancel
  (event_id : string) (ts : Z) (w : World)
  (check_in : option AttendanceData) (opinion : option FeedbackData) :
  fst (mark_attendance new_id ts check_in (after_cancel_event event_id w)) =
    fst (mark_attendance new_id ts check_in w) /\
  fst (submit_feedback uuid_ok ts opinion (after_cancel_event event_id w)) =
    fst (submit_feedback uuid_ok ts opinion w).
Proof.
  assert (Ha : attendance (snd (cancel_event event_id (db w))) = attendance (db w))
    by (rewrite cancel_event_store; reflexivity).
  assert (Hr : registrations (snd (cancel_event event_id (db w))) =
               registrations (db w))
    by (rewrite cancel_event_store; reflexivity).
  split.
  - destruct check_in as [d|].
    2:{ rewrite !mark_without_key by exact I. reflexivity. }
    destruct (has_key (ad_registration_id d)) eqn:Hkey.
    2:{ rewrite !mark_without_key by exact Hkey. reflexivity. }
    rewrite !(mark_run new_id ts d _ Hkey). cbv zeta.
    unfold after_cancel_event. cbn [db].
    rewrite active_registration_after_cancel.
    destruct (active_registration _ (db w)) as [reg|]; [|reflexivity].
    unfold existing_attendance. rewrite Ha.
    destruct (is_some _); [reflexivity|].
    unfold insert_attendance, attendance_conflicts, registration_exists.
    rewrite Ha, Hr.
    destruct (get (ad_registration_id d)) as [r|]; [|reflexivity].
    destruct (existsb _ (attendance (db w))); [reflexivity|].
    destruct (existsb _ (registrations (db w))); reflexivity.
  - destruct (valid (validate_feedback_data uuid_ok opinion)) eqn:Hvalid.
    2:{ rewrite !feedback_rejected by exact Hvalid. reflexivity. }
    destruct (valid_feedback_data uuid_ok opinion Hvalid)
      as (d & a & r & -> & Hida & Hrt & _ & _).
    rewrite !(feedback_accepted uuid_ok ts d a r _ Hvalid Hida Hrt). cbv zeta.
    unfold after_cancel_event. cbn [db].
    rewrite attendance_info_after_cancel, Ha.
    destruct (attendance_info (Some a) (db w)); [|reflexivity].
    destruct (hd_error _); reflexivity.
Qed.

End AfterCancellation.

Section EventCreation.

Variable fromisoformat : string -> option datetime.
Variable new_id : list string -> string.
Variable to_timestamp : string -> option Z.

Lemma truthy_get_value (f : field string) :
  truthy_get f = true -> exists x, f = Val x /\ x <> "".
Proof.
  unfold truthy_get, truthy_str. destruct f as [| |x]; try discriminate.
  cbn [get]. intros H. exists x. split; [reflexivity|].
  apply negb_true_iff in H. apply String.eqb_neq. exact H.
Qed.

Lemma not_missing (f : field string) :
  missing_or_falsy f = false -> exists x, f = Val x /\ x <> "".
Proof.
  unfold missing_or_falsy. intros H. apply negb_false_iff in H.
  apply truthy_get_value. exact H.
Qed.

Lemma validate_event_rest_valid (d : EventData) :
  valid (validate_event_rest d) = true ->
  validate_event_rest d = ok "Valid event data".
Proof.
  unfold validate_event_rest.
  repeat match goal with
         | |- context [if ?b then _ else _] => destruct b; try discriminate
         end.
  reflexivity.
Qed.

(** What [validate_event_data] has checked of the data it accepts. *)
Lemma valid_event_data_facts
  (now : Z) (d : EventData) (is_update : bool) (r : ValidationResult) :
  validate_event_data fromisoformat now (Some d) is_update = inr r ->
  valid r = true ->
  exists title event_type start_text end_text start_dt end_dt,
    ed_title d = Val title /\ 1 <= len title <= 200 /\
    ed_event_type d = Val event_type /\
    In event_type valid_event_types /\
    ed_start_datetime d = Val start_text /\
    ed_end_datetime d = Val end_text /\
    fromisoformat (replace_Z start_text) = Some start_dt /\
    fromisoformat (replace_Z end_text) = Some end_dt /\
    same_kind end_dt start_dt = true /\
    instant start_dt < instant end_dt /\
    now - hour <= wall start_dt /\
    (forall c, get (ed_max_capacity d) = Some c -> 1 <= c <= 10000) /\
    (forall text, ed_registration_deadline d = Val text -> text <> "" ->
       exists deadline_dt,
         fromisoformat (replace_Z text) = Some deadline_dt /\
         same_kind deadline_dt start_dt = true /\
         instant deadline_dt <= instant start_dt) /\
    (is_update = false -> exists college, ed_college_id d = Val college /\ college <> "").
Proof.
  intros Hrun Hvalid.
  destruct d as [college title descr etype start_f end_f loc cap dl].
  unfold validate_event_data in Hrun.
  cbn [ed_college_id ed_title ed_description ed_event_type ed_start_datetime
       ed_end_datetime ed_location ed_max_capacity ed_registration_deadline] in *.
  assert (Hreq : missing_or_falsy title = false /\ missing_or_falsy etype = false /\
                 missing_or_falsy start_f = false /\ missing_or_falsy end_f = false /\
                 (is_update = false -> missing_or_falsy college = false) /\
                 first_missing
                   ([("title", missing_or_falsy title);
                     ("event_type", missing_or_falsy etype);
                     ("start_datetime", missing_or_falsy start_f);
                     ("end_datetime", missing_or_falsy end_f)] ++
                    (if is_update then []
                     else [("college_id", missing_or_falsy college)]))%list = None).
  { destruct (missing_or_falsy title), (missing_or_falsy etype),
      (missing_or_falsy start_f), (missing_or_falsy end_f), is_update;
      cbn in Hrun |- *;
      try (injection Hrun as <-; discriminate);
      try (repeat split; auto; fail);
      try (repeat split; auto; discriminate).
    destruct (missing_or_falsy college); cbn in Hrun |- *.
    - injection Hrun as <-. discriminate.
    - repeat split; auto. }
  destruct Hreq as (Ht & Het & Hs & He & Hc & Hfm).
  rewrite Hfm in Hrun.
  destruct (not_missing title Ht) as (t & -> & Htne).
  destruct (not_missing etype Het) as (ty & -> & _).
  destruct (not_missing start_f Hs) as (st & -> & _).
  destruct (not_missing end_f He) as (en & -> & _).
  cbn [get str_of] in Hrun.
  destruct (str_in ty valid_event_types) eqn:Hty; cbn [negb] in Hrun;
    [|injection Hrun as <-; discriminate].
  destruct (len t >? 200) eqn:Hlen; [injection Hrun as <-; discriminate|].
  destruct (fromisoformat (replace_Z st)) as [start_dt|] eqn:Hps;
    [|injection Hrun as <-; discriminate].
  destruct (fromisoformat (replace_Z en)) as [end_dt|] eqn:Hpe;
    [|injection Hrun as <-; discriminate].
  unfold dt_compare in Hrun.
  destruct (same_kind end_dt start_dt) eqn:Hkind; [|discriminate].
  destruct (is_le (instant end_dt ?= instant start_dt)) eqn:Hord;
    [injection Hrun as <-; discriminate|].
  assert (Hgrace : same_kind start_dt (mkDatetime (now - hour) (tzinfo start_dt)) = true).
  { unfold same_kind. cbn [tzinfo]. destruct (tzinfo start_dt); reflexivity. }
  rewrite Hgrace in Hrun.
  destruct (is_lt (instant start_dt ?=
                   instant (mkDatetime (now - hour) (tzinfo start_dt)))) eqn:Hpast;
    [injection Hrun as <-; discriminate|].
  exists t, ty, st, en, start_dt, end_dt.
  assert (Hrest : valid (validate_event_rest
                           (mkEventData college (Val t) descr (Val ty) (Val st)
                              (Val en) loc cap dl)) = true /\
                  (forall text, dl = Val text -> text <> "" ->
                     exists deadline_dt,
                       fromisoformat (replace_Z text) = Some deadline_dt /\
                       same_kind deadline_dt start_dt = true /\
                       instant deadline_dt <= instant start_dt)).
  { unfold validate_event_deadline in Hrun.
    cbn [ed_registration_deadline] in Hrun.
    destruct (truthy_get dl) eqn:Hdl.
    - destruct (truthy_get_value dl Hdl) as (text & -> & Htext).
      cbn [get str_of] in Hrun.
      destruct (fromisoformat (replace_Z text)) as [deadline_dt|] eqn:Hpd;
        [|injection Hrun as <-; discriminate].
      unfold dt_compare in Hrun.
      destruct (same_kind deadline_dt start_dt) eqn:Hk2; [|discriminate].
      destruct (is_gt (instant deadline_dt ?= instant start_dt)) eqn:Hgt;
        [injection Hrun as <-; discriminate|].
      injection Hrun as <-. split; [exact Hvalid|].
      intros text' Heq _. injection Heq as <-.
      exists deadline_dt. repeat split; auto.
      destruct (Z.compare_spec (instant deadline_dt) (instant start_dt));
        cbn in Hgt; try discriminate; lia.
    - injection Hrun as <-. split; [exact Hvalid|].
      intros text -> Htext. unfold truthy_get, truthy_str in Hdl. cbn [get] in Hdl.
      apply negb_false_iff in Hdl. apply String.eqb_eq in Hdl. contradiction. }
  destruct Hrest as [Hrest Hdeadline].
  split; [reflexivity|]. split.
  { unfold len. destruct t; [congruence|].
    rewrite Z.gtb_ltb in Hlen. apply Z.ltb_ge in Hlen.
    unfold len in Hlen. cbn [String.length] in *. lia. }
  split; [reflexivity|]. split.
  { unfold str_in in Hty. apply existsb_exists in Hty.
    destruct Hty as (x & Hin & Hx). apply String.eqb_eq in Hx. subst x. exact Hin. }
  split; [reflexivity|]. split; [reflexivity|].
  split; [exact Hps|]. split; [exact Hpe|]. split; [exact Hkind|]. split.
  { destruct (Z.compare_spec (instant end_dt) (instant start_dt));
      cbn in Hord; try discriminate; lia. }
  split.
  { unfold instant in Hpast. cbn [wall tzinfo] in Hpast.
    destruct (tzinfo start_dt) as [off|].
    - destruct (Z.compare_spec (wall start_dt - off) (now - hour - off));
        cbn in Hpast; try discriminate; lia.
    - destruct (Z.compare_spec (wall start_dt) (now - hour));
        cbn in Hpast; try discriminate; lia. }
  split.
  { intros c Hcap. apply validate_event_rest_valid in Hrest.
    apply (valid_event_capacity _ c Hrest). exact Hcap. }
  split; [exact Hdeadline|].
  intros Hup. destruct (not_missing college (Hc Hup)) as (x & -> & Hx).
  exists x. auto.
Qed.

(** X12. Event data [validate_event_data] accepts has a title of 1 to 200
    characters and one of the four event types; its start and end times
    parse, are of the same kind, the end strictly after the start and the
    start no more than an hour before now; its capacity, when given, is
    from 1 to 10000; its deadline, when given and not empty, parses and is
    not after the start; and for a creation its college is given. *)
Theorem accepted_event_data
  (now : Z) (d : EventData) (is_update : bool) (r : ValidationResult) :
  validate_event_data fromisoformat now (Some d) is_update = inr r ->
  valid r = true ->
  exists title event_type start_text end_text start_dt end_dt,
    ed_title d = Val title /\ 1 <= len title <= 200 /\
    ed_event_type d = Val event_type /\
    In event_type valid_event_types /\
    ed_start_datetime d = Val start_text /\
    ed_end_datetime d = Val end_text /\
    fromisoformat (replace_Z start_text) = Some start_dt /\
    fromisoformat (replace_Z end_text) = Some end_dt /\
    same_kind end_dt start_dt = true /\
    instant start_dt < instant end_dt /\
    now - hour <= wall start_dt /\
    (forall c, get (ed_max_capacity d) = Some c -> 1 <= c <= 10000) /\
    (forall text, ed_registration_deadline d = Val text -> text <> "" ->
       exists deadline_dt,
         fromisoformat (replace_Z text) = Some deadline_dt /\
         same_kind deadline_dt start_dt = true /\
         instant deadline_dt <= instant start_dt) /\
    (is_update = false -> exists college, ed_college_id d = Val college /\ college <> "").
Proof. exact (valid_event_data_facts now d is_update r). Qed.

(** ** Creating an event *)

Lemma create_event_outcome (now : Z) (data : option EventData) (s : Store) :
  let out := create_event fromisoformat new_id to_timestamp now data s in
  (snd out = s /\ eb_status_code (fst out) <> 201) \/
  (exists d college title deadline,
     data = Some d /\
     (exists r, validate_event_data fromisoformat now data false = inr r /\
                valid r = true) /\
     ed_college_id d = Val college /\ college_exists s college = true /\
     ed_title d = Val title /\
     let row := mkEvent (new_id (map ev_event_id (events s))) title "active"
                  (get (ed_max_capacity d)) deadline in
     fst out = mkEventResponse (event_json row) 201 /\
     snd out = with_events s (events s ++ [row])%list).
Proof.
  cbv zeta. unfold create_event, tx_try, tx_bind.
  destruct (validate_event_data fromisoformat now data false) as [e|r] eqn:Hrun;
    cbn [tx_lift].
  { left. split; [reflexivity | cbn [fst eb_status_code]; discriminate]. }
  unfold tx_ret.
  destruct (valid r) eqn:Hvalid; cbn [negb].
  2:{ left. split; [reflexivity | cbn [fst eb_status_code]; discriminate]. }
  destruct data as [d|].
  2:{ unfold validate_event_data in Hrun. injection Hrun as Hr.
      rewrite <- Hr in Hvalid. discriminate. }
  destruct (valid_event_data_facts now d false r Hrun Hvalid)
    as (t & ty & st & en & _ & _ & Ht & _ & Hty & _ & Hst & Hen & _ & _ & _ & _ & _ &
        _ & _ & Hcollege).
  destruct (Hcollege eq_refl) as (c & Hc & _).
  unfold item, subscript. rewrite Hc, Ht, Hty, Hst, Hen. cbn [tx_lift]. unfold tx_ret.
  unfold run_query, insert_event.
  destruct (college_exists s c) eqn:Hexists; cbn [negb].
  2:{ left. split; [reflexivity | cbn [fst eb_status_code]; discriminate]. }
  destruct (to_timestamp st); [|left; split; [reflexivity | cbn [fst eb_status_code]; discriminate]].
  destruct (to_timestamp en); [|left; split; [reflexivity | cbn [fst eb_status_code]; discriminate]].
  destruct (get (ed_registration_deadline d)) as [dl|].
  - destruct (to_timestamp dl) as [deadline|];
      [|left; split; [reflexivity | cbn [fst eb_status_code]; discriminate]].
    right. exists d, c, t, (Some deadline). cbn [fst snd].
    repeat split; eauto.
  - right. exists d, c, t, None. cbn [fst snd]. repeat split; eauto.
Qed.

(** X13. [create_event] either answers with a status other than 201 and
    leaves the store as it was, or answers 201 with the row it stored: one
    event appended after the others, active, with the title and the
    capacity of the payload, for a payload the validator accepted (so the
    capacity, when given, is from 1 to 10000) and a college that exists;
    the other tables are untouched. *)
Theorem create_event_contract (now : Z) (data : option EventData) (s : Store) :
  let out := create_event fromisoformat new_id to_timestamp now data s in
  (snd out = s /\ eb_status_code (fst out) <> 201) \/
  (exists d college title row,
     data = Some d /\
     ed_college_id d = Val college /\ college_exists s college = true /\
     ed_title d = Val title /\ 1 <= len title <= 200 /\
     (forall c, ev_max_capacity row = Some c -> 1 <= c <= 10000) /\
     ev_event_id row = new_id (map ev_event_id (events s)) /\
     ev_title row = title /\
     ev_status row = "active" /\
     ev_max_capacity row = get (ed_max_capacity d) /\
     fst out = mkEventResponse (event_json row) 201 /\
     events (snd out) = (events s ++ [row])%list /\
     colleges (snd out) = colleges s /\
     students (snd out) = students s /\
     registrations (snd out) = registrations s /\
     attendance (snd out) = attendance s).
Proof.
  cbv zeta.
  destruct (create_event_outcome now data s) as [H|H]; [left; exact H|].
  destruct H as (d & college & title & deadline & -> & (r & Hrun & Hvalid) &
                 Hc & Hexists & Ht & Hfst & Hsnd).
  destruct (valid_event_data_facts now d false r Hrun Hvalid)
    as (t & _ & _ & _ & _ & _ & Ht' & Hlen & _ & _ & _ & _ & _ & _ & _ & _ & _ &
        Hcap & _ & _).
  rewrite Ht in Ht'. injection Ht' as <-.
  right. exists d, college, title,
    (mkEvent (new_id (map ev_event_id (events s))) title "active"
       (get (ed_max_capacity d)) deadline).
  destruct Hlen as [Hlo Hhi].
  rewrite Hfst, Hsnd. cbn [fst snd events colleges students registrations attendance
    with_events ev_event_id ev_title ev_status ev_max_capacity].
  repeat match goal with |- _ /\ _ => split end; auto.
Qed.

End EventCreation.

(* ================================================================== *)
(** ** The platform: events, registrations and attendance together *)

Lemma store_step_events (s s' : Store) : store_step s s' -> events s' = events s.
Proof. intros H. destruct H; reflexivity. Qed.

Lemma keeps_rows_refl (s : Store) : keeps_rows s s.
Proof.
  repeat split; try (exists []; rewrite app_nil_r; reflexivity).
Qed.

Lemma keeps_rows_trans (s1 s2 s3 : Store) :
  keeps_rows s1 s2 -> keeps_rows s2 s3 -> keeps_rows s1 s3.
Proof.
  intros (Hc & Hs & (e & He) & (r & Hr) & (a & Ha))
         (Hc' & Hs' & (e' & He') & (r' & Hr') & (a' & Ha')).
  split; [congruence|]. split; [congruence|].
  split; [exists (e ++ e')%list; rewrite He', He, app_assoc; reflexivity|].
  split; [exists (r ++ r')%list; rewrite Hr', Hr, app_assoc; reflexivity|].
  exists (a ++ a')%list. rewrite Ha', Ha, app_assoc. reflexivity.
Qed.

Lemma map_columns_same {A B : Type} (columns : A -> B) (hit : A -> bool)
  (f : A -> A) (l : list A) :
  (forall x, columns (f x) = columns x) ->
  map columns (map (fun x => if hit x then f x else x) l) = map columns l.
Proof.
  intros H. rewrite map_map. apply map_ext. intros x.
  destruct (hit x); [apply H | reflexivity].
Qed.

Lemma store_step_keeps_rows (s s' : Store) : store_step s s' -> keeps_rows s s'.
Proof.
  intros H. destruct H as [|row _ _ _ _|ts rid|row _ _|ts rt cm aid].
  - apply keeps_rows_refl.
  - repeat split; try (exists []; rewrite app_nil_r; reflexivity).
    exists [registration_columns row]. cbn [registrations with_registrations].
    apply map_app.
  - repeat split; try (exists []; rewrite app_nil_r; reflexivity).
    exists []. rewrite app_nil_r. cbn [registrations with_registrations].
    apply map_columns_same. reflexivity.
  - repeat split; try (exists []; rewrite app_nil_r; reflexivity).
    exists [attendance_columns row]. cbn [attendance with_attendance].
    apply map_app.
  - repeat split; try (exists []; rewrite app_nil_r; reflexivity).
    exists []. rewrite app_nil_r. cbn [attendance with_attendance].
    apply map_columns_same. reflexivity.
Qed.

Lemma cancel_event_keeps_rows (event_id : string) (s : Store) :
  keeps_rows s (snd (cancel_event event_id s)).
Proof.
  rewrite cancel_event_run. cbn [snd].
  repeat split; try (exists []; rewrite app_nil_r; reflexivity).
  exists []. rewrite app_nil_r. cbn [events with_events].
  apply map_columns_same. reflexivity.
Qed.

Lemma find_app_last {A : Type} (p : A -> bool) (l : list A) (x : A) :
  find p (l ++ [x]) =
  match find p l with
  | Some y => Some y
  | None => if p x then Some x else None
  end.
Proof.
  induction l as [|a l IH]; simpl.
  - reflexivity.
  - destruct (p a); [reflexivity | exact IH].
Qed.

Lemma nodup_last {A : Type} (l : list A) (x : A) :
  NoDup l -> ~ In x l -> NoDup (l ++ [x]).
Proof.
  induction l as [|a l IH]; intros Hnd Hx; simpl.
  - constructor; [intros [] | constructor].
  - inversion Hnd as [|y ys Hnotin Hnd']; subst. constructor.
    + intros Hin. apply in_app_or in Hin. destruct Hin as [Hin|[<-|[]]].
      * contradiction.
      * apply Hx. left. reflexivity.
    + apply IH; [exact Hnd'|]. intros Hin. apply Hx. right. exact Hin.
Qed.

Lemma find_distinct (es : list Event) (ev : Event) :
  NoDup (map ev_event_id es) -> In ev es ->
  find (fun e => eq_param (ev_event_id e) (Some (ev_event_id ev))) es = Some ev.
Proof.
  induction es as [|a l IH]; intros Hnd Hin; [destruct Hin|].
  cbn [map] in Hnd. inversion Hnd as [|x xs Hnotin Hnd']; subst.
  cbn [find eq_param]. destruct Hin as [->|Hin].
  - rewrite String.eqb_refl. reflexivity.
  - destruct (ev_event_id a =? ev_event_id ev)%string eqn:E.
    + apply String.eqb_eq in E. exfalso. apply Hnotin. rewrite E.
      apply in_map. exact Hin.
    + apply IH; assumption.
Qed.

(** In a consistent store the capacity of every event bounds its
    registrations, not only that of the first event a scan meets. *)
Lemma consistent_within_capacity (s : Store) :
  consistent s -> every_event_within_capacity s.
Proof.
  intros (_ & Hcap & _ & _ & Hrange & Hdistinct) ev c Hin Hc.
  apply (Hcap (ev_event_id ev) ev c).
  - apply find_distinct; assumption.
  - exact Hc.
  - specialize (Hrange ev c Hin Hc). lia.
Qed.

Lemma no_registration_of_unknown_event (s : Store) (e : string) :
  referential_integrity s -> event_exists s e = false ->
  registered_count s e = 0.
Proof.
  intros [Hreg _] Hnone. unfold registered_count.
  rewrite filter_none; [reflexivity|].
  intros r Hin. destruct (reg_event_id r =? e)%string eqn:E; [|reflexivity].
  apply String.eqb_eq in E. destruct (Hreg r Hin) as [Hex _].
  rewrite E in Hex. congruence.
Qed.

Lemma fresh_event_unknown (new_id : list string -> string) (s : Store) :
  (forall ids, ~ In (new_id ids) ids) ->
  event_exists s (new_id (map ev_event_id (events s))) = false.
Proof.
  intros Hfresh. unfold event_exists.
  destruct (existsb _ (events s)) eqn:E; [|reflexivity].
  apply existsb_exists in E. destruct E as (x & Hin & Hx).
  apply String.eqb_eq in Hx. exfalso.
  apply (Hfresh (map ev_event_id (events s))). rewrite <- Hx.
  apply in_map. exact Hin.
Qed.

(** One more event, under a fresh identifier and with a capacity in range,
    keeps the store consistent. *)
Lemma consistent_with_new_event (s : Store) (row : Event) :
  event_exists s (ev_event_id row) = false ->
  (forall c, ev_max_capacity row = Some c -> 1 <= c <= 10000) ->
  consistent s -> consistent (with_events s (events s ++ [row])%list).
Proof.
  intros Hnew Hrow (Href & Hcap & Huniq & Hone & Hrange & Hdistinct).
  split; [|split; [|split; [|split; [|split]]]].
  - destruct Href as [Hreg Hatt]. split.
    + intros r Hin. destruct (Hreg r Hin) as [He Hs]. split; [|exact Hs].
      unfold event_exists in *. cbn [events with_events].
      rewrite existsb_app, He. reflexivity.
    + exact Hatt.
  - intros e ev c Hfind Hc Hpos.
    change (registered_count s e <= c).
    unfold find_event in Hfind. cbn [events with_events] in Hfind.
    rewrite find_app_last in Hfind.
    destruct (find _ (events s)) as [old|] eqn:Hold.
    + injection Hfind as <-. apply (Hcap e old c); assumption.
    + destruct (eq_param (ev_event_id row) (Some e)) eqn:E; [|discriminate].
      cbn [eq_param] in E. apply String.eqb_eq in E. subst e.
      rewrite (no_registration_of_unknown_event s _ Href Hnew). lia.
  - exact Huniq.
  - exact Hone.
  - intros ev c Hin Hc. cbn [events with_events] in Hin.
    apply in_app_or in Hin. destruct Hin as [Hin|[<-|[]]].
    + apply (Hrange ev c Hin Hc).
    + apply Hrow. exact Hc.
  - unfold event_ids_distinct in *. cbn [events with_events].
    rewrite map_app. cbn [map].
    apply nodup_last; [exact Hdistinct|].
    intros Hin. apply in_map_iff in Hin. destruct Hin as (x & Hx & Hin).
    unfold event_exists in Hnew.
    assert (existsb (fun e => (ev_event_id e =? ev_event_id row)%string) (events s) = true).
    { apply existsb_exists. exists x. split; [exact Hin|].
      apply String.eqb_eq. exact Hx. }
    congruence.
Qed.

Lemma consistent_after_cancel_event (event_id : string) (s : Store) :
  consistent s -> consistent (snd (cancel_event event_id s)).
Proof.
  intros (Href & Hcap & Huniq & Hone & Hrange & Hdistinct).
  split; [|split; [|split; [|split; [|split]]]].
  - destruct Href as [Hreg Hatt]. split.
    + intros r Hin. rewrite event_exists_after_cancel.
      rewrite cancel_event_store in Hin |- *. apply (Hreg r Hin).
    + intros a Hin. rewrite cancel_event_store in Hin |- *. apply (Hatt a Hin).
  - intros e ev c Hfind Hc Hpos. rewrite find_event_after_cancel in Hfind.
    destruct (find_event (Some e) s) as [old|] eqn:Hold; [|discriminate].
    cbn [option_map] in Hfind. injection Hfind as <-.
    rewrite cancel_in_place_capacity in Hc.
    rewrite cancel_event_store. apply (Hcap e old c Hold Hc Hpos).
  - rewrite cancel_event_store. exact Huniq.
  - rewrite cancel_event_store. exact Hone.
  - intros ev c Hin Hc. rewrite cancel_event_store in Hin.
    cbn [events with_events] in Hin. apply in_map_iff in Hin.
    destruct Hin as (old & <- & Hin). rewrite cancel_in_place_capacity in Hc.
    apply (Hrange old c Hin Hc).
  - unfold event_ids_distinct in *. rewrite cancel_event_store.
    cbn [events with_events]. rewrite map_map.
    rewrite (map_ext _ ev_event_id); [exact Hdistinct|].
    intros e. apply cancel_in_place_id.
Qed.

Lemma consistent_step (s s' : Store) :
  store_step s s' -> consistent s -> consistent s'.
Proof.
  intros Hstep (Href & Hcap & Huniq & Hone & Hrange & Hdistinct).
  pose proof (store_step_events s s' Hstep) as Hev.
  split; [|split; [|split; [|split; [|split]]]].
  - apply (referential_integrity_step s s' Hstep Href).
  - apply (capacity_respected_step s s' Hstep Hcap).
  - apply (unique_registered_step s s' Hstep Huniq).
  - apply (one_attendance_step s s' Hstep Hone).
  - unfold capacities_in_range. rewrite Hev. exact Hrange.
  - unfold event_ids_distinct. rewrite Hev. exact Hdistinct.
Qed.

Section PlatformTheory.

Variable uuid_ok : string -> bool.
Variable new_id : list string -> string.
Variable blocking : Registration -> bool.
Variable fromisoformat : string -> option datetime.
Variable to_timestamp : string -> option Z.

Hypothesis registered_blocks : forall r, is_registered r = true -> blocking r = true.
Hypothesis new_id_fresh : forall ids, ~ In (new_id ids) ids.

Local Abbreviation step := (platform_step uuid_ok new_id blocking fromisoformat to_timestamp).
Local Abbreviation run := (platform_serve uuid_ok new_id blocking fromisoformat to_timestamp).

Lemma platform_step_consistent (rq : PlatformRequest) (w : World) :
  consistent (db w) -> consistent (db (step rq w)).
Proof.
  intros Hw. destruct rq as [r|now data|event_id]; cbn [platform_step db].
  - apply (consistent_step (db w)); [|exact Hw].
    apply handle_step. exact registered_blocks.
  - destruct (create_event_outcome fromisoformat new_id to_timestamp now data (db w))
      as [[Hsame _]|H].
    + rewrite Hsame. exact Hw.
    + destruct H as (d & college & title & deadline & -> & (r & Hrun & Hvalid) &
                     _ & _ & _ & _ & Hsnd).
      rewrite Hsnd. apply consistent_with_new_event; [| |exact Hw].
      * apply fresh_event_unknown. exact new_id_fresh.
      * cbn [ev_max_capacity].
        destruct (valid_event_data_facts fromisoformat now d false r Hrun Hvalid)
          as (_ & _ & _ & _ & _ & _ & _ & _ & _ & _ & _ & _ & _ & _ & _ & _ & _ &
              Hcap & _).
        exact Hcap.
  - apply consistent_after_cancel_event. exact Hw.
Qed.

Lemma platform_step_keeps_rows (rq : PlatformRequest) (w : World) :
  keeps_rows (db w) (db (step rq w)).
Proof.
  destruct rq as [r|now data|event_id]; cbn [platform_step db].
  - apply store_step_keeps_rows. apply handle_step. exact registered_blocks.
  - destruct (create_event_outcome fromisoformat new_id to_timestamp now data (db w))
      as [[Hsame _]|H].
    + rewrite Hsame. apply keeps_rows_refl.
    + destruct H as (d & college & title & deadline & _ & _ & _ & _ & _ & _ & Hsnd).
      rewrite Hsnd.
      repeat split; try (exists []; rewrite app_nil_r; reflexivity).
      eexists. cbn [events with_events]. apply map_app.
  - apply cancel_event_keeps_rows.
Qed.

(** X14. Whatever requests the routes that create and cancel events,
    register, cancel registrations, check in and take feedback serve, one
    at a time, a consistent store stays consistent: foreign keys hold, no
    pair has two registered registrations, no registration two attendance
    rows, event identifiers are distinct, capacities are from 1 to 10000,
    and every event with a capacity holds at most that many registered
    registrations. *)
Theorem platform_keeps_consistency (rqs : list PlatformRequest) (w : World) :
  consistent (db w) ->
  consistent (db (run rqs w)) /\ every_event_within_capacity (db (run rqs w)).
Proof.
  revert w. induction rqs as [|rq rqs IH]; intros w Hw; cbn [platform_serve].
  - split; [exact Hw | apply consistent_within_capacity; exact Hw].
  - apply IH. apply platform_step_consistent. exact Hw.
Qed.

(** X15. The routes only ever add rows or rewrite status, cancellation
    and feedback columns: after any sequence of requests every event,
    registration and attendance row of the start store is still there, in
    its place, with its identifier, its references and its other columns,
    and the colleges and students are the same. *)
Theorem nothing_is_deleted (rqs : list PlatformRequest) (w : World) :
  keeps_rows (db w) (db (run rqs w)).
Proof.
  revert w. induction rqs as [|rq rqs IH]; intros w; cbn [platform_serve].
  - apply keeps_rows_refl.
  - apply (keeps_rows_trans _ (db (step rq w))).
    + apply platform_step_keeps_rows.
    + apply IH.
Qed.

End PlatformTheory.

(* ================================================================== *)
(** ** Edges of the admission checks *)

Section AdmissionEdges.

Variable uuid_ok : string -> bool.
Variable new_id : list string -> string.
Variable blocking : Registration -> bool.

(** X16. An event stored with no capacity, or with capacity 0 (falsy in
    the handler's test), has no limit: [register_for_event] never answers
    "Event is at full capacity" for it, and registers every accepted
    request to it that is active, in time, not a duplicate and from a
    known student, however many registrations the event holds. *)
Theorem no_capacity_no_limit
  (now ts : Z) (e st : string) (ev : Event) (w : World) :
  valid (validate_registration_data uuid_ok (register_request e st)) = true ->
  find_event (Some e) (db w) = Some ev ->
  ev_max_capacity ev = None \/ ev_max_capacity ev = Some 0 ->
  let out := register_for_event uuid_ok new_id blocking now ts
               (register_request e st) w in
  fst out <> CapacityExceeded /\
  (ev_status ev = "active" ->
   (forall d, ev_registration_deadline ev = Some d -> now <= d) ->
   registration_conflicts blocking (db w) e st = false ->
   student_exists (db w) st = true ->
   status_code (fst out) = 201 /\
   registered_count (db (snd out)) e = registered_count (db w) e + 1).
Proof.
  intros Hvalid Hev Hcap. cbv zeta.
  rewrite (register_accepted uuid_ok new_id blocking now ts e st w Hvalid).
  rewrite Hev. cbv zeta.
  assert (Hroom : at_capacity
                    (mkEventInfo (ev_max_capacity ev) (ev_registration_deadline ev)
                       (ev_status ev) (ev_title ev)
                       (registered_count (db w) (ev_event_id ev))) = false).
  { unfold at_capacity. cbn [ei_max_capacity].
    destruct Hcap as [-> | ->]; reflexivity. }
  rewrite Hroom. split.
  - destruct (negb (ev_status ev =? "active")%string); [discriminate|].
    destruct (deadline_passed now _); [discriminate|].
    destruct (insert_registration new_id blocking ts (Some e) (Some st) (db w))
      as [ex|[[row|] s']]; cbn [fst]; try discriminate.
    unfold on_register_exception.
    destruct (contains duplicate_key (str ex)); discriminate.
  - intros Hactive Hdeadline Hfree Hstudent.
    destruct (find_event_some e (db w) ev Hev) as (_ & _ & Hexists).
    rewrite Hactive.
    replace (negb ("active" =? "active")%string) with false by reflexivity.
    assert (Hdl : deadline_passed now
                    (mkEventInfo (ev_max_capacity ev) (ev_registration_deadline ev)
                       "active" (ev_title ev)
                       (registered_count (db w) (ev_event_id ev))) = false).
    { unfold deadline_passed. cbn [ei_registration_deadline].
      destruct (ev_registration_deadline ev) as [d|]; [|reflexivity].
      specialize (Hdeadline d eq_refl). rewrite Z.gtb_ltb. apply Z.ltb_ge. lia. }
    rewrite Hdl.
    rewrite (insert_registration_row new_id blocking ts e st (db w) Hfree
               Hexists Hstudent).
    cbv zeta. cbn [fst snd db status_code jsonify].
    split; [reflexivity|].
    unfold registered_count. cbn [registrations with_registrations].
    rewrite filter_length_app. cbn [reg_event_id is_registered reg_status].
    rewrite String.eqb_refl. cbn. lia.
Qed.

End AdmissionEdges.

(* ================================================================== *)
(** ** Colleges: [create_college] *)

Lemma truthy_get_default (f : field string) :
  truthy_get f = true ->
  exists x, f = Val x /\ x <> "" /\ get_default f "" = Some x.
Proof.
  intros H. destruct f as [| |x]; try discriminate.
  exists x. unfold truthy_get, truthy_str in H. cbn [get] in H.
  apply negb_true_iff in H. apply String.eqb_neq in H. repeat split; auto.
Qed.

Section Colleges.

Variable new_id : list string -> string.

(** [create_college] once name and code are given. *)
Lemma create_college_run (ts : Z) (d : CollegeData) (n c : string) (w : World) :
  cd_name d = Val n -> n <> "" -> cd_code d = Val c -> c <> "" ->
  create_college new_id ts (Some d) w =
  if len c >? 10
  then (jsonify (error "College code must be 10 characters or less") 400, w)
  else
    if college_code_taken (db w) (upper c)
    then (jsonify (error "College code already exists") 409, ran w [InsertCollege])
    else
      let row := mkCollege (new_id (map col_college_id (colleges (db w)))) n (upper c)
                   (get (cd_address d)) (get (cd_city d)) (get (cd_state d))
                   (get (cd_contact_email d)) (get (cd_phone d)) ts in
      (jsonify (college_json row) 201,
       mkWorld (with_colleges (db w) (colleges (db w) ++ [row])%list)
               (executed w ++ [InsertCollege])%list).
Proof.
  intros Hn Hne Hc Hce. unfold create_college, try_except.
  assert (Htn : truthy_get (cd_name d) = true).
  { rewrite Hn. unfold truthy_get. cbn [get]. apply truthy_str_true. exact Hne. }
  assert (Htc : truthy_get (cd_code d) = true).
  { rewrite Hc. unfold truthy_get. cbn [get]. apply truthy_str_true. exact Hce. }
  rewrite Htn, Htc. cbn [negb orb]. rewrite Hc. cbn [get_default str_of].
  destruct (len c >? 10); [reflexivity|].
  unfold bind, lift, item, subscript, ret, execute_query, insert_college.
  rewrite Hn, Hc. cbn [option_map].
  destruct (college_code_taken (db w) (upper c)) eqn:Htaken.
  - cbv zeta. cbn [db executed]. cbv iota beta.
    rewrite (unique_violation_is_duplicate "colleges_code_key"). reflexivity.
  - reflexivity.
Qed.

(** X17. [create_college] stores the code in upper case, so codes are
    compared without regard to letter case: once a college is created, a
    request with a name and a code of at most 10 characters that has the
    same upper-case form is answered 409 "College code already exists" and
    stores nothing. *)
Theorem college_code_is_case_blind
  (ts ts' : Z) (d d' : CollegeData) (w : World) :
  status_code (fst (create_college new_id ts (Some d) w)) = 201 ->
  truthy_get (cd_name d') = true ->
  truthy_get (cd_code d') = true ->
  len (str_of (get (cd_code d'))) <= 10 ->
  upper (str_of (get (cd_code d'))) = upper (str_of (get (cd_code d))) ->
  let w1 := snd (create_college new_id ts (Some d) w) in
  let out := create_college new_id ts' (Some d') w1 in
  (exists row, colleges (db w1) = (colleges (db w) ++ [row])%list /\
               col_code row = upper (str_of (get (cd_code d)))) /\
  fst out = jsonify (error "College code already exists") 409 /\
  db (snd out) = db w1.
Proof.
  intros Hcreated Hn' Hc' Hshort Hsame. cbv zeta.
  destruct (truthy_get (cd_name d)) eqn:Hn.
  2:{ unfold create_college, try_except in Hcreated. rewrite Hn in Hcreated.
      cbn in Hcreated. discriminate. }
  destruct (truthy_get (cd_code d)) eqn:Hc.
  2:{ unfold create_college, try_except in Hcreated. rewrite Hn, Hc in Hcreated.
      cbn in Hcreated. discriminate. }
  destruct (truthy_get_default _ Hn) as (n & Hnv & Hne & _).
  destruct (truthy_get_default _ Hc) as (c & Hcv & Hce & _).
  destruct (truthy_get_default _ Hn') as (n' & Hnv' & Hne' & _).
  destruct (truthy_get_default _ Hc') as (c' & Hcv' & Hce' & _).
  rewrite Hcv, Hcv' in Hsame. cbn [get str_of] in Hsame.
  rewrite Hcv' in Hshort. cbn [get str_of] in Hshort.
  rewrite (create_college_run ts d n c w Hnv Hne Hcv Hce) in Hcreated |- *.
  rewrite Hcv. cbn [get str_of].
  destruct (len c >? 10) eqn:Hlen; [discriminate|].
  destruct (college_code_taken (db w) (upper c)) eqn:Htaken; [discriminate|].
  cbv zeta. cbn [snd db].
  split; [eexists; split; reflexivity|].
  rewrite (create_college_run ts' d' n' c' _ Hnv' Hne' Hcv' Hce').
  assert (Hlen' : (len c' >? 10) = false).
  { rewrite Z.gtb_ltb. apply Z.ltb_ge. exact Hshort. }
  rewrite Hlen'. cbn [db].
  assert (Htaken' : college_code_taken
                      (with_colleges (db w)
                         (colleges (db w) ++
                          [mkCollege (new_id (map col_college_id (colleges (db w)))) n
                             (upper c) (get (cd_address d)) (get (cd_city d))
                             (get (cd_state d)) (get (cd_contact_email d))
                             (get (cd_phone d)) ts])%list)
                      (upper c') = true).
  { unfold college_code_taken. cbn [colleges with_colleges].
    rewrite existsb_app. cbn [existsb col_code]. rewrite Hsame, String.eqb_refl.
    rewrite orb_true_r. reflexivity. }
  rewrite Htaken'. split; reflexivity.
Qed.

End Colleges.

(* ================================================================== *)
(** ** Event times of mixed kinds *)

Section MixedTimes.

Variable fromisoformat : string -> option datetime.
Variable new_id : list string -> string.
Variable to_timestamp : string -> option Z.

Lemma truthy_value (x : string) : x <> "" -> missing_or_falsy (Val x) = false.
Proof.
  intros H. unfold missing_or_falsy, truthy_get. cbn [get].
  rewrite (truthy_str_true x H). reflexivity.
Qed.

Lemma str_in_true (x : string) (xs : list string) : In x xs -> str_in x xs = true.
Proof.
  intros H. unfold str_in. apply existsb_exists. exists x.
  split; [exact H | apply String.eqb_refl].
Qed.

(** X18. When the start and the end of an event parse, one with a UTC
    offset and the other without, their comparison raises inside
    [validate_event_data]; [create_event] then answers 500 with the text of
    the exception, not 400, and stores nothing. *)
Theorem mixed_times_are_a_server_error
  (now : Z) (d : EventData)
  (college title event_type start_text end_text : string)
  (start_dt end_dt : datetime) (s : Store) :
  ed_college_id d = Val college -> college <> "" ->
  ed_title d = Val title -> title <> "" -> len title <= 200 ->
  ed_event_type d = Val event_type -> In event_type valid_event_types ->
  ed_start_datetime d = Val start_text -> start_text <> "" ->
  ed_end_datetime d = Val end_text -> end_text <> "" ->
  fromisoformat (replace_Z start_text) = Some start_dt ->
  fromisoformat (replace_Z end_text) = Some end_dt ->
  same_kind end_dt start_dt = false ->
  validate_event_data fromisoformat now (Some d) false =
    inl (TypeError "can't compare offset-naive and offset-aware datetimes") /\
  create_event fromisoformat new_id to_timestamp now (Some d) s =
    (mkEventResponse
       (event_error "can't compare offset-naive and offset-aware datetimes") 500,
     s).
Proof.
  intros Hc Hcne Ht Htne Hlen Hty Hin Hs Hsne He Hene Hps Hpe Hkind.
  assert (Htyne : event_type <> "").
  { intros ->. cbn in Hin. intuition discriminate. }
  assert (Hrun : validate_event_data fromisoformat now (Some d) false =
                 inl (TypeError "can't compare offset-naive and offset-aware datetimes")).
  { unfold validate_event_data. rewrite Hc, Ht, Hty, Hs, He.
    rewrite !truthy_value by assumption. cbn [first_missing app get str_of].
    rewrite (str_in_true _ _ Hin). cbn [negb].
    replace (len title >? 200) with false
      by (symmetry; rewrite Z.gtb_ltb; apply Z.ltb_ge; exact Hlen).
    rewrite Hps, Hpe. unfold dt_compare. rewrite Hkind. reflexivity. }
  split; [exact Hrun|].
  unfold create_event, tx_try, tx_bind. rewrite Hrun. reflexivity.
Qed.

End MixedTimes.

(* ================================================================== *)
(** ** Students: [validate_student_data] *)

Section Students.

Variable re_match : string -> string -> bool.
Variable re_sub : string -> string -> string -> string.

(** X19. Student data [validate_student_data] accepts names its college,
    has an email address [validate_email] accepts, a name of 2 to 200
    characters and a student number of 1 to 50 characters; its year of
    study, when given, is from 1 to 4, its phone number, when given and
    not empty, matches the phone pattern once spaces, hyphens and
    parentheses are removed, and its department, when given, has at most
    100 characters. *)
Theorem accepted_student_data (data : option StudentData) :
  valid (validate_student_data re_match re_sub data) = true ->
  exists d college email name student_number,
    data = Some d /\
    sd_college_id d = Val college /\ college <> "" /\
    sd_email d = Val email /\ validate_email re_match email = true /\
    sd_name d = Val name /\ 2 <= len name <= 200 /\
    sd_student_number d = Val student_number /\
    1 <= len student_number <= 50 /\
    (forall year, get (sd_year_of_study d) = Some year -> 1 <= year <= 4) /\
    (forall phone, get (sd_phone d) = Some phone -> phone <> "" ->
       re_match phone_pattern (re_sub phone_noise "" phone) = true) /\
    (forall department, get (sd_department d) = Some department ->
       len department <= 100).
Proof.
  intros Hvalid. destruct data as [d|]; [|discriminate].
  destruct d as [college email name number phone year department].
  unfold validate_student_data in Hvalid.
  cbn [sd_college_id sd_email sd_name sd_student_number sd_phone sd_year_of_study
       sd_department] in Hvalid.
  destruct (missing_or_falsy college) eqn:Hc; [discriminate|].
  destruct (missing_or_falsy email) eqn:He; [discriminate|].
  destruct (missing_or_falsy name) eqn:Hn; [discriminate|].
  destruct (missing_or_falsy number) eqn:Hs; [discriminate|].
  cbn [first_missing] in Hvalid.
  destruct (not_missing college Hc) as (c & -> & Hcne).
  destruct (not_missing email He) as (e & -> & _).
  destruct (not_missing name Hn) as (n & -> & _).
  destruct (not_missing number Hs) as (sn & -> & Hsne).
  cbn [get get_default str_of] in Hvalid.
  destruct (validate_email re_match e) eqn:Hemail; [|discriminate].
  cbn [negb] in Hvalid.
  destruct (len n >? 200) eqn:Hlong; [discriminate|].
  destruct (len n <? 2) eqn:Hshort; [discriminate|].
  destruct (len sn >? 50) eqn:Hnumber; [discriminate|].
  destruct (has_value year && _) eqn:Hyear; [discriminate|].
  destruct (truthy_get phone && _) eqn:Hphone; [discriminate|].
  destruct (truthy_get department && _) eqn:Hdept; [discriminate|].
  rewrite Z.gtb_ltb in Hlong, Hnumber. apply Z.ltb_ge in Hlong, Hnumber, Hshort.
  exists (mkStudentData (Val c) (Val e) (Val n) (Val sn) phone year department),
    c, e, n, sn.
  cbn [sd_college_id sd_email sd_name sd_student_number sd_phone sd_year_of_study
       sd_department].
  split; [reflexivity|]. split; [reflexivity|]. split; [exact Hcne|].
  split; [reflexivity|]. split; [exact Hemail|]. split; [reflexivity|].
  split; [lia|]. split; [reflexivity|]. split.
  { split; [|exact Hnumber]. unfold len. destruct sn; [congruence | simpl; lia]. }
  split.
  { intros y Hy. unfold has_value in Hyear. rewrite Hy in Hyear.
    cbn [andb] in Hyear. apply orb_false_iff in Hyear. destruct Hyear as [Hlo Hhi].
    rewrite Z.gtb_ltb in Hhi. apply Z.ltb_ge in Hlo, Hhi. lia. }
  split.
  { intros p Hp Hpne. unfold truthy_get in Hphone. rewrite Hp in Hphone.
    rewrite (truthy_str_true p Hpne) in Hphone. cbn [andb str_of] in Hphone.
    apply negb_false_iff in Hphone. exact Hphone. }
  intros dep Hdep. unfold truthy_get in Hdept. rewrite Hdep in Hdept.
  cbn [str_of] in Hdept. destruct dep as [|ch rest]; [unfold len; simpl; lia|].
  cbn [truthy_str] in Hdept.
  replace (truthy_str (String ch rest)) with true in Hdept by reflexivity.
  cbn [andb] in Hdept. rewrite Z.gtb_ltb in Hdept. apply Z.ltb_ge in Hdept.
  exact Hdept.
Qed.

End Students.

(* ================================================================== *)
(** ** Pages below the first *)

(** X20. A negative page number does not fail: page [-k] is page [k + 1]
    of the results read backwards, put back in their order, so it holds
    the block of [per_page] results that ends [k] blocks before the end;
    it reports a next page and no previous page. *)
Theorem negative_pages_count_from_the_end
  {A : Type} (results : list A) (per_page page : Z) :
  page < 0 -> 1 <= per_page ->
  exists r,
    paginate_results results page per_page = inr r /\
    pr_data r = rev (page_items (rev results) per_page (1 - page)) /\
    pg_has_next (pr_pagination r) = true /\
    pg_has_prev (pr_pagination r) = false.
Proof.
  intros Hpage Hper.
  rewrite (page_items_block (rev results) per_page (1 - page)) by lia.
  unfold paginate_results.
  replace (per_page =? 0) with false by (symmetry; apply Z.eqb_neq; lia).
  eexists. split; [reflexivity|]. cbn [pr_data pr_pagination pg_has_next pg_has_prev].
  split; [|split].
  - unfold slice, slice_index.
    set (n := List.length results).
    assert (Hstart : (page - 1) * per_page < 0) by nia.
    assert (Hstop : (page - 1) * per_page + per_page < 0) by nia.
    replace ((page - 1) * per_page <? 0) with true
      by (symmetry; apply Z.ltb_lt; lia).
    replace ((page - 1) * per_page + per_page <? 0) with true
      by (symmetry; apply Z.ltb_lt; lia).
    rewrite skipn_rev, firstn_rev, rev_involutive, length_firstn.
    fold n.
    set (lo := Z.to_nat (Z.max ((page - 1) * per_page + Z.of_nat n) 0)).
    set (hi := Z.to_nat (Z.max ((page - 1) * per_page + per_page + Z.of_nat n) 0)).
    assert (Hk : (Z.to_nat (1 - page - 1) * Z.to_nat per_page)%nat =
                 Z.to_nat (- page * per_page)).
    { rewrite <- Z2Nat.inj_mul by lia. f_equal. lia. }
    rewrite Hk.
    assert (Hhi : (n - Z.to_nat (- page * per_page))%nat = hi).
    { unfold hi. lia. }
    rewrite Hhi.
    assert (Hlo : (Nat.min hi n - Z.to_nat per_page)%nat = lo).
    { unfold hi, lo. lia. }
    rewrite Hlo.
    replace (Z.to_nat (Z.max ((page - 1) * per_page + per_page + Z.of_nat n) 0 -
                       Z.max ((page - 1) * per_page + Z.of_nat n) 0))
      with (hi - lo)%nat by (unfold hi, lo; lia).
    rewrite firstn_skipn_comm. f_equal. f_equal. unfold hi, lo. lia.
  - apply Z.ltb_lt. nia.
  - rewrite Z.gtb_ltb. apply Z.ltb_ge. lia.
Qed.

(* ================================================================== *)
(** ** Updating an event: [update_event] *)

Lemma assignment_names {A : Type} (name : string) (wrap : option A -> Param)
  (f : field A) :
  has_key f = true -> In name (map fst (assignment name wrap f)).
Proof. destruct f; cbn; intros H; auto; discriminate. Qed.

Section EventUpdates.

Variable fromisoformat : string -> option datetime.
Variable run_update :
  list (string * Param) -> string -> Store -> Exception + (option Event * Store).

(** The messages of [validate_event_data] are its own. *)
Lemma rejected_event_message
  (now : Z) (data : option EventData) (is_update : bool) (r : ValidationResult) :
  validate_event_data fromisoformat now data is_update = inr r ->
  valid r = false ->
  message r <> "No fields to update".
Proof.
  intros H Hinvalid. destruct data as [d|].
  2:{ cbn in H. injection H as <-. cbn. discriminate. }
  unfold validate_event_data in H.
  destruct (missing_or_falsy (ed_title d));
    [cbn in H; injection H as <-; cbn; discriminate|].
  destruct (missing_or_falsy (ed_event_type d));
    [cbn in H; injection H as <-; cbn; discriminate|].
  destruct (missing_or_falsy (ed_start_datetime d));
    [cbn in H; injection H as <-; cbn; discriminate|].
  destruct (missing_or_falsy (ed_end_datetime d));
    [cbn in H; injection H as <-; cbn; discriminate|].
  assert (Hrest : forall x, validate_event_rest d = x -> valid x = false ->
                            message x <> "No fields to update").
  { intros x <- Hx. unfold validate_event_rest in *.
    repeat match goal with
           | |- context [if ?b then _ else _] => destruct b
           end; cbn in Hx |- *; discriminate. }
  destruct is_update.
  - cbn [app first_missing] in H.
    destruct (negb _); [injection H as <-; cbn; discriminate|].
    destruct (_ >? 200); [injection H as <-; cbn; discriminate|].
    destruct (fromisoformat _) as [start_dt|]; [|injection H as <-; cbn; discriminate].
    destruct (fromisoformat _) as [end_dt|]; [|injection H as <-; cbn; discriminate].
    destruct (dt_compare end_dt start_dt) as [|c]; [discriminate|].
    destruct (is_le c); [injection H as <-; cbn; discriminate|].
    destruct (dt_compare start_dt _) as [|c']; [discriminate|].
    destruct (is_lt c'); [injection H as <-; cbn; discriminate|].
    unfold validate_event_deadline in H.
    destruct (truthy_get _); [|injection H as H; apply (Hrest r H Hinvalid)].
    destruct (fromisoformat _) as [deadline_dt|]; [|injection H as <-; cbn; discriminate].
    destruct (dt_compare deadline_dt start_dt) as [|c'']; [discriminate|].
    destruct (is_gt c''); [injection H as <-; cbn; discriminate|].
    injection H as H. apply (Hrest r H Hinvalid).
  - cbn [app first_missing] in H.
    destruct (missing_or_falsy (ed_college_id d));
      [cbn in H; injection H as <-; cbn; discriminate|].
    cbn [first_missing] in H.
    destruct (negb _); [injection H as <-; cbn; discriminate|].
    destruct (_ >? 200); [injection H as <-; cbn; discriminate|].
    destruct (fromisoformat _) as [start_dt|]; [|injection H as <-; cbn; discriminate].
    destruct (fromisoformat _) as [end_dt|]; [|injection H as <-; cbn; discriminate].
    destruct (dt_compare end_dt start_dt) as [|c]; [discriminate|].
    destruct (is_le c); [injection H as <-; cbn; discriminate|].
    destruct (dt_compare start_dt _) as [|c']; [discriminate|].
    destruct (is_lt c'); [injection H as <-; cbn; discriminate|].
    unfold validate_event_deadline in H.
    destruct (truthy_get _); [|injection H as H; apply (Hrest r H Hinvalid)].
    destruct (fromisoformat _) as [deadline_dt|]; [|injection H as <-; cbn; discriminate].
    destruct (dt_compare deadline_dt start_dt) as [|c'']; [discriminate|].
    destruct (is_gt c''); [injection H as <-; cbn; discriminate|].
    injection H as H. apply (Hrest r H Hinvalid).
Qed.

(** [update_event] for a payload the validator accepts. *)
Lemma update_event_run
  (now : Z) (event_id : string) (data : option EventUpdateData) (s : Store)
  (r : ValidationResult) :
  validate_event_data fromisoformat now (option_map eu_event data) true = inr r ->
  valid r = true ->
  exists u,
    data = Some u /\
    (forall name, In name ["title"; "event_type"; "start_datetime"; "end_datetime"] ->
                  In name (map fst (update_fields u))) /\
    update_event fromisoformat run_update now event_id data s =
    if event_exists s event_id
    then
      match run_update (update_fields u) event_id s with
      | inr (Some row, s') => (mkEventResponse (event_json row) 200, s')
      | inr (None, s') =>
        (mkEventResponse (event_error "Failed to update event") 500, s')
      | inl e => (mkEventResponse (event_error (str e)) 500, s)
      end
    else (mkEventResponse (event_error "Event not found") 404, s).
Proof.
  intros Hrun Hvalid. destruct data as [u|].
  2:{ cbn in Hrun. injection Hrun as <-. discriminate. }
  cbn [option_map] in Hrun.
  destruct (valid_event_data_facts fromisoformat now (eu_event u) true r Hrun Hvalid)
    as (t & ty & st & en & _ & _ & Ht & _ & Hty & _ & Hst & Hen & _).
  exists u. split; [reflexivity|].
  assert (Hnames : forall name,
            In name ["title"; "event_type"; "start_datetime"; "end_datetime"] ->
            In name (map fst (update_fields u))).
  { intros name Hin. unfold update_fields. cbv zeta. rewrite Ht, Hty, Hst, Hen.
    rewrite !map_app, !in_app_iff. cbn [assignment map fst In].
    cbn [In] in Hin. destruct Hin as [<-|[<-|[<-|[<-|[]]]]]; auto 15. }
  split; [exact Hnames|].
  unfold update_event, tx_try, tx_bind. cbn [option_map]. rewrite Hrun.
  cbn [tx_lift]. unfold tx_ret. rewrite Hvalid. cbn [negb].
  unfold run_query, select_event_id.
  assert (Hsome : is_some (option_map ev_event_id (find_event (Some event_id) s)) =
                  event_exists s event_id).
  { unfold find_event, event_exists. cbn [eq_param].
    induction (events s) as [|e es IH]; cbn; [reflexivity|].
    destruct (ev_event_id e =? event_id)%string; [reflexivity | exact IH]. }
  rewrite Hsome.
  destruct (event_exists s event_id); cbn [negb]; [|reflexivity].
  assert (Hfields : is_nil (update_fields u) = false).
  { specialize (Hnames "title" (or_introl eq_refl)).
    destruct (update_fields u); [destruct Hnames | reflexivity]. }
  rewrite Hfields.
  destruct (run_update (update_fields u) event_id s) as [e|[[row|] s']]; reflexivity.
Qed.

(** X21. [update_event] answers 500 with the text of the exception when
    the validator raises, 400 with the validator's message for a payload
    the validator rejects and 404 "Event not found" for an accepted
    payload when no event has the identifier, all three with the store
    untouched.  Otherwise the UPDATE runs with the assignments of the
    payload, which always set the title, the type and the two times (the
    validator requires them of an update too): the answer is 200 with the
    row it returns and the store it leaves, 500 "Failed to update event"
    when it returns no row, and 500 with the text of its exception and the
    store untouched when it raises.  So the answer "No fields to update"
    is never given. *)
Theorem update_event_contract
  (now : Z) (event_id : string) (data : option EventUpdateData) (s : Store) :
  let out := update_event fromisoformat run_update now event_id data s in
  let checked :=
    validate_event_data fromisoformat now (option_map eu_event data) true in
  (forall e, checked = inl e ->
     out = (mkEventResponse (event_error (str e)) 500, s)) /\
  (forall r, checked = inr r -> valid r = false ->
     out = (mkEventResponse (event_error (message r)) 400, s)) /\
  (forall r, checked = inr r -> valid r = true ->
     exists u,
       data = Some u /\
       (forall name,
          In name ["title"; "event_type"; "start_datetime"; "end_datetime"] ->
          In name (map fst (update_fields u))) /\
       (event_exists s event_id = false ->
        out = (mkEventResponse (event_error "Event not found") 404, s)) /\
       (event_exists s event_id = true ->
        out = match run_update (update_fields u) event_id s with
              | inr (Some row, s') => (mkEventResponse (event_json row) 200, s')
              | inr (None, s') =>
                (mkEventResponse (event_error "Failed to update event") 500, s')
              | inl e => (mkEventResponse (event_error (str e)) 500, s)
              end)) /\
  fst out <> mkEventResponse (event_error "No fields to update") 400.
Proof.
  cbv zeta.
  destruct (validate_event_data fromisoformat now (option_map eu_event data) true)
    as [e|r] eqn:Hrun.
  { assert (Hout : update_event fromisoformat run_update now event_id data s =
                   (mkEventResponse (event_error (str e)) 500, s)).
    { unfold update_event, tx_try, tx_bind. rewrite Hrun. reflexivity. }
    rewrite Hout. cbn [fst].
    split; [intros e' He'; injection He' as <-; reflexivity|].
    split; [intros r H; discriminate|].
    split; [intros r H; discriminate | discriminate]. }
  destruct (valid r) eqn:Hvalid.
  2:{ assert (Hout : update_event fromisoformat run_update now event_id data s =
                     (mkEventResponse (event_error (message r)) 400, s)).
      { unfold update_event, tx_try, tx_bind. rewrite Hrun. cbn [tx_lift].
        unfold tx_ret. rewrite Hvalid. reflexivity. }
      rewrite Hout. cbn [fst].
      split; [intros e H; discriminate|].
      split; [intros r' Hr' _; injection Hr' as <-; reflexivity|].
      split; [intros r' Hr' Hv; injection Hr' as <-; congruence|].
      intros H. injection H as H.
      apply (rejected_event_message now _ true r Hrun Hvalid). exact H. }
  destruct (update_event_run now event_id data s r Hrun Hvalid)
    as (u & -> & Hnames & Hout).
  rewrite Hout.
  split; [intros e H; discriminate|].
  split; [intros r' Hr' Hv; injection Hr' as <-; congruence|].
  split.
  - intros r' _ _. exists u. split; [reflexivity|]. split; [exact Hnames|].
    split; intros Hexists; rewrite Hexists; reflexivity.
  - destruct (event_exists s event_id); [|discriminate].
    destruct (run_update (update_fields u) event_id s) as [e|[[row|] s']];
      discriminate.
Qed.

End EventUpdates.

(* ================================================================== *)
(** ** Cancelled events stay closed *)

Lemma mark_keeps_registrations
  (new_id : list string -> string) (ts : Z) (data : option AttendanceData)
  (w : World) :
  let w' := snd (mark_attendance new_id ts data w) in
  events (db w') = events (db w) /\ registrations (db w') = registrations (db w).
Proof.
  cbv zeta. destruct data as [d|].
  2:{ rewrite mark_without_key by exact I. split; reflexivity. }
  destruct (has_key (ad_registration_id d)) eqn:Hkey.
  2:{ rewrite mark_without_key by exact Hkey. split; reflexivity. }
  rewrite (mark_run new_id ts d w Hkey). cbv zeta.
  destruct (active_registration _ _); [|split; reflexivity].
  destruct (is_some _); [split; reflexivity|].
  unfold insert_attendance.
  destruct (get (ad_registration_id d)) as [r|]; [|split; reflexivity].
  destruct (attendance_conflicts (db w) r); [split; reflexivity|].
  destruct (registration_exists (db w) r); split; reflexivity.
Qed.

Lemma feedback_keeps_registrations
  (uuid_ok : string -> bool) (ts : Z) (data : option FeedbackData) (w : World) :
  let w' := snd (submit_feedback uuid_ok ts data w) in
  events (db w') = events (db w) /\ registrations (db w') = registrations (db w).
Proof.
  cbv zeta. destruct (valid (validate_feedback_data uuid_ok data)) eqn:Hvalid.
  2:{ rewrite feedback_rejected by exact Hvalid. split; reflexivity. }
  destruct (valid_feedback_data uuid_ok data Hvalid)
    as (d & a & r & -> & Ha & Hr & _ & _).
  rewrite (feedback_accepted uuid_ok ts d a r w Hvalid Ha Hr). cbv zeta.
  destruct (attendance_info _ _); [|split; reflexivity].
  destruct (hd_error _); split; reflexivity.
Qed.

Lemma registered_count_same (s s' : Store) (e : string) :
  registrations s' = registrations s -> registered_count s' e = registered_count s e.
Proof. intros H. unfold registered_count. rewrite H. reflexivity. Qed.

Lemma closed_event_same (s s' : Store) (e : string) :
  events s' = events s -> closed_event e s -> closed_event e s'.
Proof.
  intros H [Hex Hst]. unfold closed_event, event_exists in *. rewrite H.
  split; assumption.
Qed.

Section Closure.

Variable uuid_ok : string -> bool.
Variable new_id : list string -> string.
Variable blocking : Registration -> bool.
Variable fromisoformat : string -> option datetime.
Variable to_timestamp : string -> option Z.

Hypothesis new_id_fresh : forall ids, ~ In (new_id ids) ids.

Local Abbreviation step := (platform_step uuid_ok new_id blocking fromisoformat to_timestamp).
Local Abbreviation run := (platform_serve uuid_ok new_id blocking fromisoformat to_timestamp).

Lemma closed_event_step (e : string) (rq : PlatformRequest) (w : World) :
  closed_event e (db w) ->
  closed_event e (db (step rq w)) /\
  registered_count (db (step rq w)) e <= registered_count (db w) e.
Proof.
  intros Hclosed. destruct rq as [[now ts data|ts rid|ts data|ts data]|now data|event_id];
    cbn [platform_step handle db].
  - destruct (register_outcome uuid_ok new_id blocking now ts data w) as [[_ Hdb]|H].
    + rewrite Hdb. split; [exact Hclosed | lia].
    + destruct H as (e' & st & ev & _ & Hev & Hactive & _ & _ & _ & _ & Hout).
      cbv zeta in Hout. rewrite Hout. cbn [snd db].
      split; [apply (closed_event_same (db w)); [reflexivity | exact Hclosed]|].
      unfold registered_count. cbn [registrations with_registrations].
      rewrite filter_length_app. cbn [reg_event_id].
      destruct (e' =? e)%string eqn:E; cbn [andb]; [|lia].
      apply String.eqb_eq in E. subst e'.
      destruct (find_event_some e (db w) ev Hev) as (Hid & Hin & _).
      destruct Hclosed as [_ Hst]. exfalso. apply (Hst ev Hin Hid Hactive).
  - rewrite cancel_run. cbv zeta. cbn [snd db].
    split; [apply (closed_event_same (db w)); [reflexivity | exact Hclosed]|].
    unfold registered_count. cbn [registrations with_registrations].
    pose proof (cancel_shrinks ts rid (fun r => (reg_event_id r =? e)%string)
                  (registrations (db w)) (fun r => eq_refl)).
    lia.
  - destruct (mark_keeps_registrations new_id ts data w) as [Hev Hreg].
    split; [apply (closed_event_same (db w)); assumption|].
    rewrite (registered_count_same _ _ e Hreg). lia.
  - destruct (feedback_keeps_registrations uuid_ok ts data w) as [Hev Hreg].
    split; [apply (closed_event_same (db w)); assumption|].
    rewrite (registered_count_same _ _ e Hreg). lia.
  - destruct (create_event_outcome fromisoformat new_id to_timestamp now data (db w))
      as [[Hsame _]|H].
    + rewrite Hsame. split; [exact Hclosed | lia].
    + destruct H as (d & college & title & deadline & _ & _ & _ & _ & _ & _ & Hsnd).
      rewrite Hsnd. split; [|unfold registered_count; cbn [registrations with_events]; lia].
      destruct Hclosed as [Hex Hst]. split.
      * unfold event_exists in *. cbn [events with_events].
        rewrite existsb_app, Hex. reflexivity.
      * intros ev Hin Hid. cbn [events with_events] in Hin.
        apply in_app_or in Hin. destruct Hin as [Hin|[<-|[]]].
        -- apply (Hst ev Hin Hid).
        -- cbn [ev_event_id] in Hid. exfalso.
           pose proof (fresh_event_unknown new_id (db w) new_id_fresh) as Hnew.
           rewrite Hid in Hnew. congruence.
  - rewrite cancel_event_store.
    split; [|unfold registered_count; cbn [registrations with_events]; lia].
    destruct Hclosed as [Hex Hst]. split.
    + rewrite <- cancel_event_store, event_exists_after_cancel. exact Hex.
    + intros ev Hin Hid. cbn [events with_events] in Hin.
      apply in_map_iff in Hin. destruct Hin as (old & <- & Hin).
      rewrite cancel_in_place_id in Hid.
      unfold cancel_in_place. destruct (cancels_event event_id old).
      * cbn [cancelled_event ev_status]. discriminate.
      * apply (Hst old Hin Hid).
Qed.

(** X22. Among the routes that create and cancel events, register, cancel
    registrations, check in and take feedback, none reopens an event: once
    an event is cancelled it stays cancelled through any sequence of their
    requests, and its number of registered registrations never grows. *)
Theorem cancelled_event_stays_closed
  (e : string) (rqs : list PlatformRequest) (w : World) :
  closed_event e (db w) ->
  closed_event e (db (run rqs w)) /\
  registered_count (db (run rqs w)) e <= registered_count (db w) e.
Proof.
  revert w. induction rqs as [|rq rqs IH]; intros w Hclosed; cbn [platform_serve].
  - split; [exact Hclosed | lia].
  - destruct (closed_event_step e rq w Hclosed) as [Hstep Hcount].
    destruct (IH (step rq w) Hstep) as [Hend Hcount'].
    split; [exact Hend | lia].
Qed.

End Closure.

(* ================================================================== *)
(** ** The further properties on the sample data *)

Lemma campus_store_consistent : consistent (db campus_world).
Proof.
  split; [|split; [|split; [|split; [|split]]]].
  - split; intros x [].
  - intros e ev c _ _ Hpos. change (0 <= c). lia.
  - intros e st. change (0 <= 1). lia.
  - intros r. change (0 <= 1). lia.
  - intros ev c [<-|[]] Hc. injection Hc as <-. lia.
  - repeat constructor. intros [].
Qed.

Lemma cancelled_world_closed : closed_event event_1 (db cancelled_world).
Proof.
  split; [reflexivity|].
  intros ev [<-|[]] _. discriminate.
Qed.

(** X1 on five results, two to a page. *)
Lemma pages_cover_results_witness :
  1 <= 2 /\
  flat_map (fun p => page_items sample_results 2 (Z.of_nat p))
           (seq 1 (Z.to_nat (page_count sample_results 2))) = sample_results.
Proof.
  split; [lia|]. apply (pages_cover_results sample_results 2). lia.
Defined.

(** X2 on the third and last page of five results, two to a page. *)
Lemma page_sizes_witness :
  1 <= 3 /\ 1 <= 2 /\
  Z.of_nat (List.length (page_items sample_results 2 3)) = 1 /\
  page_items sample_results 2 4 = [].
Proof.
  split; [lia|]. split; [lia|].
  destruct (page_sizes sample_results 2 3) as (Hlen & _ & _); [lia | lia |].
  destruct (page_sizes sample_results 2 4) as (_ & _ & Hbeyond); [lia | lia |].
  split; [exact Hlen|]. apply Hbeyond. vm_compute. reflexivity.
Defined.

(** X3 on the first page of five results, two to a page. *)
Lemma page_flags_witness :
  1 <= 1 /\ 1 <= 2 /\
  exists r,
    paginate_results sample_results 1 2 = inr r /\
    pg_pages (pr_pagination r) = 3 /\
    pg_has_next (pr_pagination r) = true /\
    pg_has_prev (pr_pagination r) = false.
Proof.
  split; [lia|]. split; [lia|].
  destruct (page_flags sample_results 2 1) as (r & Hrun & Hpages & Hnext & _ & Hprev);
    [lia | lia |].
  exists r. split; [exact Hrun|]. split; [exact Hpages|]. split.
  - apply Hnext. rewrite Hpages. vm_compute. reflexivity.
  - destruct (pg_has_prev (pr_pagination r)); [|reflexivity].
    assert (H : 1 < 1) by (apply Hprev; reflexivity). lia.
Defined.

(** X7 on a nested payload of clean strings. *)
Lemma clean_value_unchanged_witness :
  all_strings (fun s => harmless s && (strip s =? s)%string) clean_payload = true /\
  sanitize_input clean_payload = clean_payload.
Proof.
  split; [reflexivity|]. apply (clean_value_unchanged clean_payload). reflexivity.
Defined.

(** X8 on a greeting with a tag in the middle. *)
Lemma remove_tags_meaning_witness :
  all_chars (fun x => negb (x =? lt_char)%char) "Hello " = true /\
  all_chars (fun x => negb (x =? gt_char)%char) "b" = true /\
  "b" <> "" /\
  remove_tags None "Hello <b>Asha" = "Hello Asha" /\
  remove_tags None "Hello <b" = "Hello <b".
Proof.
  assert (Hne : "b" <> "") by discriminate.
  split; [reflexivity|]. split; [reflexivity|]. split; [exact Hne|].
  destruct (remove_tags_meaning "Hello " "b" "Asha" eq_refl eq_refl Hne)
    as [Hclosed Hopen].
  split; [exact Hclosed | exact Hopen].
Defined.

(** X10 on the sample world: after the event is cancelled student A is
    turned away. *)
Lemma no_registration_after_cancel_witness :
  valid (validate_registration_data sample_uuid_ok
           (register_request event_1 student_a)) = true /\
  fst (register_for_event sample_uuid_ok sample_new_id registered_rows_block 30 30
         (register_request event_1 student_a)
         (after_cancel_event event_1 sample_world)) = EventInactive.
Proof.
  split; [reflexivity|].
  destruct (no_registration_after_cancel sample_uuid_ok sample_new_id
              registered_rows_block 30 30 event_1 student_a sample_world eq_refl)
    as ([H|H] & _ & _); [exact H|].
  vm_compute in H. discriminate H.
Defined.

(** X12 on the sample event data. *)
Lemma accepted_event_data_witness :
  validate_event_data sample_fromisoformat 0 (Some sample_event_data) false =
    inr (ok "Valid event data") /\
  valid (ok "Valid event data") = true /\
  (forall c, get (ed_max_capacity sample_event_data) = Some c -> 1 <= c <= 10000).
Proof.
  split; [reflexivity|]. split; [reflexivity|].
  destruct (accepted_event_data sample_fromisoformat 0 sample_event_data false
              (ok "Valid event data") eq_refl eq_refl)
    as (_ & _ & _ & _ & _ & _ & _ & _ & _ & _ & _ & _ & _ & _ & _ & _ & _ & H & _).
  exact H.
Defined.

(** X14 on the campus world and the sample requests. *)
Lemma platform_keeps_consistency_witness :
  (forall r, is_registered r = true -> registered_rows_block r = true) /\
  (forall ids, ~ In (sample_new_id ids) ids) /\
  consistent (db campus_world) /\
  consistent (db (sample_platform sample_requests campus_world)) /\
  every_event_within_capacity (db (sample_platform sample_requests campus_world)).
Proof.
  split; [exact (fun r H => H)|]. split; [exact sample_new_id_fresh|].
  split; [exact campus_store_consistent|].
  apply (platform_keeps_consistency sample_uuid_ok sample_new_id
           registered_rows_block sample_fromisoformat sample_to_timestamp
           (fun r H => H) sample_new_id_fresh sample_requests campus_world).
  exact campus_store_consistent.
Defined.

(** X15 on the campus world and the sample requests. *)
Lemma nothing_is_deleted_witness :
  (forall r, is_registered r = true -> registered_rows_block r = true) /\
  keeps_rows (db campus_world) (db (sample_platform sample_requests campus_world)).
Proof.
  split; [exact (fun r H => H)|].
  apply (nothing_is_deleted sample_uuid_ok sample_new_id registered_rows_block
           sample_fromisoformat sample_to_timestamp (fun r H => H)
           sample_requests campus_world).
Defined.

(** X16 on the open world: student B joins an event without capacity that
    already holds a registration. *)
Lemma no_capacity_no_limit_witness :
  valid (validate_registration_data sample_uuid_ok
           (register_request event_1 student_b)) = true /\
  find_event (Some event_1) (db open_world) =
    Some (mkEvent event_1 "Open day" "active" None None) /\
  status_code
    (fst (register_for_event sample_uuid_ok sample_new_id registered_rows_block
            30 30 (register_request event_1 student_b) open_world)) = 201.
Proof.
  split; [reflexivity|]. split; [reflexivity|].
  destruct (no_capacity_no_limit sample_uuid_ok sample_new_id registered_rows_block
              30 30 event_1 student_b
              (mkEvent event_1 "Open day" "active" None None) open_world
              eq_refl eq_refl (or_introl eq_refl))
    as [_ H].
  destruct H as [Hcode _]; [reflexivity | | reflexivity | reflexivity | exact Hcode].
  intros d Hd. discriminate Hd.
Defined.

(** X17 on the sample world: the code rit, then the code Rit. *)
Lemma college_code_is_case_blind_witness :
  status_code (fst (create_college sample_new_id 50 (Some sample_college_data)
                      sample_world)) = 201 /\
  truthy_get (cd_name sample_college_again) = true /\
  truthy_get (cd_code sample_college_again) = true /\
  len (str_of (get (cd_code sample_college_again))) <= 10 /\
  upper (str_of (get (cd_code sample_college_again))) =
    upper (str_of (get (cd_code sample_college_data))) /\
  fst (create_college sample_new_id 60 (Some sample_college_again)
         (snd (create_college sample_new_id 50 (Some sample_college_data)
                 sample_world))) =
    jsonify (error "College code already exists") 409.
Proof.
  assert (Hshort : len (str_of (get (cd_code sample_college_again))) <= 10)
    by (vm_compute; discriminate).
  split; [reflexivity|]. split; [reflexivity|]. split; [reflexivity|].
  split; [exact Hshort|]. split; [reflexivity|].
  destruct (college_code_is_case_blind sample_new_id 50 60 sample_college_data
              sample_college_again sample_world eq_refl eq_refl eq_refl Hshort
              eq_refl)
    as (_ & H & _).
  exact H.
Defined.

(** X18 on event data whose start is in UTC and whose end is naive. *)
Lemma mixed_times_are_a_server_error_witness :
  college_1 <> "" /\ "Intro to Rocq" <> "" /\ len "Intro to Rocq" <= 200 /\
  In "workshop" valid_event_types /\
  "2030-01-01T10:00:00Z" <> "" /\ "2030-01-01T12:00:00" <> "" /\
  same_kind (mkDatetime 1200 None) (mkDatetime 1000 (Some 0)) = false /\
  eb_status_code
    (fst (create_event sample_fromisoformat_utc sample_new_id sample_to_timestamp 0
            (Some mixed_event_data) campus_store)) = 500.
Proof.
  assert (H1 : college_1 <> "") by discriminate.
  assert (H2 : "Intro to Rocq" <> "") by discriminate.
  assert (H3 : len "Intro to Rocq" <= 200) by (vm_compute; discriminate).
  assert (H4 : In "workshop" valid_event_types) by (simpl; auto).
  assert (H5 : "2030-01-01T10:00:00Z" <> "") by discriminate.
  assert (H6 : "2030-01-01T12:00:00" <> "") by discriminate.
  repeat (split; [assumption|]). split; [reflexivity|].
  destruct (mixed_times_are_a_server_error sample_fromisoformat_utc sample_new_id
              sample_to_timestamp 0 mixed_event_data college_1 "Intro to Rocq"
              "workshop" "2030-01-01T10:00:00Z" "2030-01-01T12:00:00"
              (mkDatetime 1000 (Some 0)) (mkDatetime 1200 None) campus_store
              eq_refl H1 eq_refl H2 H3 eq_refl H4 eq_refl H5 eq_refl H6
              eq_refl eq_refl eq_refl)
    as [_ H].
  rewrite H. reflexivity.
Defined.

(** X19 on the sample student data. *)
Lemma accepted_student_data_witness :
  valid (validate_student_data sample_re_match sample_re_sub
           (Some sample_student_data)) = true /\
  (forall year, get (sd_year_of_study sample_student_data) = Some year ->
                1 <= year <= 4).
Proof.
  split; [reflexivity|].
  destruct (accepted_student_data sample_re_match sample_re_sub
              (Some sample_student_data) eq_refl)
    as (d & college & email & name & number & Hd & _ & _ & _ & _ & _ & _ & _ & _ &
        Hyear & _).
  injection Hd as <-. exact Hyear.
Defined.

(** X20 on five results, two to a page: page -1 holds the second and the
    third. *)
Lemma negative_pages_count_from_the_end_witness :
  -1 < 0 /\ 1 <= 2 /\ page_items sample_results 2 (-1) = [20; 30].
Proof.
  split; [lia|]. split; [lia|].
  destruct (negative_pages_count_from_the_end sample_results 2 (-1))
    as (r & Hrun & Hdata & _); [lia | lia |].
  unfold page_items. rewrite Hrun, Hdata. reflexivity.
Defined.

(** X22 on the campus world once its event is cancelled. *)
Lemma cancelled_event_stays_closed_witness :
  (forall ids, ~ In (sample_new_id ids) ids) /\
  closed_event event_1 (db cancelled_world) /\
  closed_event event_1 (db (sample_platform sample_requests cancelled_world)) /\
  registered_count (db (sample_platform sample_requests cancelled_world)) event_1
    <= registered_count (db cancelled_world) event_1.
Proof.
  split; [exact sample_new_id_fresh|]. split; [exact cancelled_world_closed|].
  apply (cancelled_event_stays_closed sample_uuid_ok sample_new_id
           registered_rows_block sample_fromisoformat sample_to_timestamp
           sample_new_id_fresh event_1 sample_requests cancelled_world).
  exact cancelled_world_closed.
Defined.

(* ================================================================== *)
(** ** Connections: [execute_query] and [get_db_connection] *)

Lemma phase_after_app (p : Phase) (l l' : CallLog) :
  phase_after p (l ++ l')%list =
  match phase_after p l with
  | Some q => phase_after q l'
  | None => None
  end.
Proof.
  revert p. induction l as [|entry l IH]; intros p; cbn [app phase_after].
  - reflexivity.
  - destruct (next_phase p entry); [apply IH | reflexivity].
Qed.

(** One query leaves the connection where it found it, when closing the
    cursor and handing the connection back do not raise. *)
Lemma execute_query_phase (d : Driver) (fetch : bool) (log : CallLog) :
  (forall l, d l CloseCursor = true) ->
  (forall l, d l PutConn = true) ->
  phase_after InPool log = Some InPool ->
  phase_after InPool (snd (execute_query_calls d fetch log)) = Some InPool.
Proof.
  intros Hclose Hput Hlog.
  unfold execute_query_calls, get_db_connection, get_connection, return_connection,
    io_finally, io_except, io_bind, io_raise, io_ret, call.
  destruct fetch; cbv zeta;
    repeat match goal with
           | |- context [d ?l CloseCursor] => rewrite (Hclose l)
           | |- context [d ?l PutConn] => rewrite (Hput l)
           | |- context [d ?l ?c] => destruct (d l c) eqn:?
           end;
    cbn [snd fst];
    rewrite <- ?app_assoc; rewrite phase_after_app, Hlog; reflexivity.
Qed.

Lemma execute_queries_phase (d : Driver) (fetches : list bool) (log : CallLog) :
  (forall l, d l CloseCursor = true) ->
  (forall l, d l PutConn = true) ->
  phase_after InPool log = Some InPool ->
  phase_after InPool (execute_queries d fetches log) = Some InPool.
Proof.
  intros Hclose Hput. revert log.
  induction fetches as [|fetch rest IH]; intros log Hlog; cbn [execute_queries].
  - exact Hlog.
  - apply IH. apply execute_query_phase; assumption.
Qed.

(** X23. As long as closing the cursor and [putconn] themselves return,
    whatever other calls raise and however many queries run one after the
    other, [execute_query] makes its calls in place: nothing is called on a
    connection that is in the pool or on a cursor that is not open, no
    connection is taken while one is out, the cursor is closed before the
    connection goes back, and after the last query the connection is in
    the pool.  A [putconn] that raises is only logged: the connection the
    query took is then not back in the pool. *)
Theorem connections_are_returned (d : Driver) :
  (forall fetches,
     (forall l, d l CloseCursor = true) ->
     (forall l, d l PutConn = true) ->
     phase_after InPool (execute_queries d fetches []) = Some InPool) /\
  (forall fetch,
     let log := snd (execute_query_calls d fetch []) in
     returned GetConn log = true ->
     returned PutConn log = false ->
     called PutConn log = true /\ phase_after InPool log <> Some InPool).
Proof.
  split.
  - intros fetches Hclose Hput.
    apply execute_queries_phase; [exact Hclose | exact Hput | reflexivity].
  - intros fetch. cbv zeta.
    unfold execute_query_calls, get_db_connection, get_connection, return_connection,
      io_finally, io_except, io_bind, io_raise, io_ret, call.
    destruct fetch; cbv zeta;
      repeat match goal with
             | |- context [d ?l ?c] => destruct (d l c) eqn:?
             end;
      cbn; intros Hget Hput; try discriminate; split; try reflexivity; discriminate.
Qed.

(** X24. One [execute_query], whatever calls raise.  When [getconn]
    raises nothing else is called.  Otherwise the connection is handed
    back to the pool.  The query returns only if the statement ran, the
    rows were fetched when asked for, the commit returned and nothing was
    rolled back; a commit is only attempted after these.  When it raises
    with a connection in hand a rollback was called, and the exception is
    that of a call that raised.  A cursor that was opened is closed. *)
Theorem execute_query_outcome (d : Driver) (fetch : bool) :
  let out := execute_query_calls d fetch [] in
  let log := snd out in
  (returned GetConn log = false -> out = (inl GetConn, [(GetConn, false)])) /\
  (returned GetConn log = true -> called PutConn log = true) /\
  (fst out = inr tt ->
   returned Execute log = true /\ returned Commit log = true /\
   (fetch = true -> returned Fetch log = true) /\
   called Rollback log = false) /\
  (called Commit log = true ->
   returned Execute log = true /\ (fetch = true -> returned Fetch log = true)) /\
  (forall e, fst out = inl e ->
     (returned GetConn log = true -> called Rollback log = true) /\
     existsb (fun entry => same_call e (fst entry) && negb (snd entry)) log = true) /\
  (returned Cursor log = true -> called CloseCursor log = true).
Proof.
  cbv zeta.
  unfold execute_query_calls, get_db_connection, get_connection, return_connection,
    io_finally, io_except, io_bind, io_raise, io_ret, call.
  destruct fetch; cbv zeta;
    repeat match goal with
           | |- context [d ?l ?c] => destruct (d l c) eqn:?
           end;
    cbn;
    repeat split; intros; try reflexivity; try discriminate;
    match goal with
    | H : inl _ = inl _ |- _ => injection H as <-; reflexivity
    end.
Qed.

(** A statement that fails: the rollback of [execute_query], the close of
    the cursor, the rollback of [get_db_connection], and the connection
    goes back. *)
Example failing_execute_calls :
  execute_query_calls failing_execute true [] =
  (inl Execute,
   [(GetConn, true); (Cursor, true); (Execute, false); (Rollback, true);
    (CloseCursor, true); (Rollback, true); (PutConn, true)]).
Proof. reflexivity. Qed.

(* ================================================================== *)
(** ** After a registration is cancelled *)

Lemma joined_attendance_after_cancel (ts : Z) (rid : string) (s : Store)
  (a : Attendance) :
  joined_attendance
    (with_registrations s
       (map (fun r => if cancels rid r then cancelled ts r else r) (registrations s)))
    a =
  joined_attendance s a.
Proof.
  unfold joined_attendance. cbn [registrations events with_registrations].
  rewrite find_map_same.
  2:{ intros r. destruct (cancels rid r); reflexivity. }
  destruct (find _ (registrations s)) as [r|]; cbn [option_map]; [|reflexivity].
  destruct (cancels rid r); reflexivity.
Qed.

Section AfterRegistrationCancelled.

Variable uuid_ok : string -> bool.
Variable new_id : list string -> string.

(** X25. Once [cancel_registration] has run for a registration,
    [mark_attendance] answers every request for it with the 404 of a
    registration that is not active and stores nothing, while
    [submit_feedback] does not look at the registration's status: it gives
    the answers it would have given before, so an attendance recorded
    earlier still takes feedback. *)
Theorem after_registration_cancelled (ts : Z) (rid : string) (w : World) :
  let w' := snd (cancel_registration ts rid w) in
  (forall ts' d,
     ad_registration_id d = Val rid ->
     mark_attendance new_id ts' (Some d) w' =
       (RegistrationNotActive, ran w' [SelectActiveRegistration])) /\
  (forall ts' opinion,
     fst (submit_feedback uuid_ok ts' opinion w') =
     fst (submit_feedback uuid_ok ts' opinion w)).
Proof.
  cbv zeta. rewrite cancel_run. cbv zeta. cbn [snd].
  split.
  - intros ts' d Hd.
    assert (Hkey : has_key (ad_registration_id d) = true) by (rewrite Hd; reflexivity).
    rewrite (mark_run new_id ts' d _ Hkey). cbv zeta. rewrite Hd. cbn [get db].
    rewrite active_registration_none; [reflexivity|].
    intros r Hin Hid. cbn [registrations with_registrations] in Hin.
    apply in_map_iff in Hin. destruct Hin as (old & Hold & Hin).
    destruct (cancels rid old) eqn:Hc; subst r.
    + cbn [cancelled reg_status]. discriminate.
    + unfold cancels in Hc. rewrite Hid, String.eqb_refl in Hc. cbn [andb] in Hc.
      unfold is_registered in Hc. apply String.eqb_neq in Hc. exact Hc.
  - intros ts' opinion.
    destruct (valid (validate_feedback_data uuid_ok opinion)) eqn:Hvalid.
    2:{ rewrite !feedback_rejected by exact Hvalid. reflexivity. }
    destruct (valid_feedback_data uuid_ok opinion Hvalid)
      as (d & a & r & -> & Hida & Hrt & _ & _).
    rewrite !(feedback_accepted uuid_ok ts' d a r _ Hvalid Hida Hrt). cbv zeta.
    cbn [db].
    assert (Hinfo : attendance_info (Some a)
                      (with_registrations (db w)
                         (map (fun x => if cancels rid x then cancelled ts x else x)
                              (registrations (db w)))) =
                    attendance_info (Some a) (db w)).
    { unfold attendance_info. cbn [attendance with_registrations].
      rewrite (find_same_test _
                 (fun x => eq_param (att_attendance_id x) (Some a) &&
                           is_some (joined_attendance (db w) x))).
      2:{ intros x. rewrite joined_attendance_after_cancel. reflexivity. }
      destruct (find _ (attendance (db w)));
        [apply joined_attendance_after_cancel | reflexivity]. }
    rewrite Hinfo. cbn [attendance with_registrations].
    destruct (attendance_info (Some a) (db w)); [|reflexivity].
    destruct (hd_error _); reflexivity.
Qed.

End AfterRegistrationCancelled.

(** X23 on a driver whose [execute] raises: two queries, and the
    connection is in the pool. *)
Lemma connections_are_returned_witness :
  (forall l, failing_execute l CloseCursor = true) /\
  (forall l, failing_execute l PutConn = true) /\
  phase_after InPool (execute_queries failing_execute [true; false] []) =
    Some InPool.
Proof.
  assert (Hclose : forall l, failing_execute l CloseCursor = true)
    by (intros l; reflexivity).
  assert (Hput : forall l, failing_execute l PutConn = true)
    by (intros l; reflexivity).
  split; [exact Hclose|]. split; [exact Hput|].
  destruct (connections_are_returned failing_execute) as [H _].
  apply (H [true; false] Hclose Hput).
Defined.
